(** * GEOseis 2.0: signal processing and station discovery

    A shallow embedding of the two engines of the repository,
    [seismic_processor.py] (class [EnhancedSeismicProcessor]) and
    [data_manager.py] (class [StreamlinedDataManager]), together with the
    properties their specification states about them.

    Conventions of the embedding:
    - a Python call that may raise is a computation in the [result] monad;
      [try ... except] is a match on the outcome;
    - Python and NumPy floating point numbers are values of [float]: exact
      rationals for the finite values (no rounding, no overflow) plus the
      IEEE special values [PInf], [NInf] and [NaN] with their comparison and
      propagation rules;
    - functions of SciPy, NumPy's libm and ObsPy whose code is not part of the
      repository are fields of a record the engine is parameterised by. *)

From Stdlib Require Import Ascii String QArith Qabs Qround ZArith Bool List Lia Lqa.
From Stdlib Require Import Sorting.Sorted Permutation.
Import ListNotations.

Set Implicit Arguments.

(** ** Python outcomes *)

Module Py.

(** The exception classes that occur in the modelled code. *)
Inductive exn : Type :=
| ValueError
| TypeError
| NameError
| AttributeError
| ZeroDivisionError
| OtherError.

Inductive result (A : Type) : Type :=
| Ok (a : A)
| Raise (e : exn).

Arguments Ok {A} a.
Arguments Raise {A} e.

Definition bind {A B : Type} (m : result A) (k : A -> result B) : result B :=
  match m with
  | Ok a => k a
  | Raise e => Raise e
  end.

(** [try: m except Exception: h] *)
Definition try_except {A : Type} (m : result A) (h : exn -> result A) : result A :=
  match m with
  | Ok a => Ok a
  | Raise e => h e
  end.

End Py.

Export Py.

Declare Scope py_scope.
Delimit Scope py_scope with py.
Notation "x <- m ;; k" := (Py.bind m (fun x => k))
  (at level 61, m at next level, right associativity) : py_scope.
Notation "' pat <- m ;; k" := (Py.bind m (fun x => match x with pat => k end))
  (at level 61, pat pattern, m at next level, right associativity) : py_scope.
Open Scope py_scope.

(** ** Floating point values *)

Module Float.

Inductive float : Type :=
| Fin (q : Q)
| PInf
| NInf
| NaN.

Definition Qltb (x y : Q) : bool := negb (Qle_bool y x).
Definition Qzerob (x : Q) : bool := Qeq_bool x 0.

Definition of_Z (z : Z) : float := Fin (inject_Z z).

Definition isnan (x : float) : bool :=
  match x with NaN => true | _ => false end.

Definition isinf (x : float) : bool :=
  match x with PInf | NInf => true | _ => false end.

Definition isfinite (x : float) : bool :=
  match x with Fin _ => true | _ => false end.

Definition fneg (x : float) : float :=
  match x with
  | Fin q => Fin (- q)
  | PInf => NInf
  | NInf => PInf
  | NaN => NaN
  end.

Definition fabs (x : float) : float :=
  match x with
  | Fin q => Fin (Qabs q)
  | PInf | NInf => PInf
  | NaN => NaN
  end.

Definition fadd (x y : float) : float :=
  match x, y with
  | NaN, _ | _, NaN => NaN
  | Fin a, Fin b => Fin (a + b)
  | PInf, NInf | NInf, PInf => NaN
  | PInf, _ | _, PInf => PInf
  | NInf, _ | _, NInf => NInf
  end.

Definition fsub (x y : float) : float := fadd x (fneg y).

(** Sign of a non-NaN value: [Gt], [Eq] (zero) or [Lt]. *)
Definition fsign (x : float) : comparison :=
  match x with
  | Fin q => q ?= 0
  | PInf => Gt
  | NInf => Lt
  | NaN => Eq
  end.

Definition fmul (x y : float) : float :=
  match x, y with
  | NaN, _ | _, NaN => NaN
  | Fin a, Fin b => Fin (a * b)
  | _, _ =>
      match fsign x, fsign y with
      | Eq, _ | _, Eq => NaN
      | Gt, Gt | Lt, Lt => PInf
      | Gt, Lt | Lt, Gt => NInf
      end
  end.

(** IEEE division, as NumPy performs it (a zero divisor gives an infinity
    or NaN). *)
Definition fdiv (x y : float) : float :=
  match x, y with
  | NaN, _ | _, NaN => NaN
  | Fin a, Fin b =>
      if Qzerob b then
        match a ?= 0 with Eq => NaN | Gt => PInf | Lt => NInf end
      else Fin (a / b)
  | Fin _, _ => Fin 0
  | _, Fin b =>
      match fsign x, (if Qltb b 0 then Lt else Gt) with
      | Gt, Gt | Lt, Lt => PInf
      | _, _ => NInf
      end
  | _, _ => NaN
  end.

(** Division of Python [float] scalars: a zero divisor raises. *)
Definition py_div (x y : float) : result float :=
  match y with
  | Fin b => if Qzerob b then Raise ZeroDivisionError else Ok (fdiv x y)
  | _ => Ok (fdiv x y)
  end.

(** [x < y]; every comparison with NaN is false. *)
Definition fltb (x y : float) : bool :=
  match x, y with
  | NaN, _ | _, NaN => false
  | Fin a, Fin b => Qltb a b
  | NInf, NInf | PInf, _ | _, NInf => false
  | _, _ => true
  end.

(** [x <= y] *)
Definition fleb (x y : float) : bool :=
  match x, y with
  | NaN, _ | _, NaN => false
  | Fin a, Fin b => Qle_bool a b
  | NInf, _ | _, PInf => true
  | _, _ => false
  end.

(** [x > y] and [x >= y] are the mirrored comparisons. *)
Definition fgtb (x y : float) : bool := fltb y x.
Definition fgeb (x y : float) : bool := fleb y x.

(** Python's built-in [max(a, b)] and [min(a, b)]: the first argument is
    kept unless the second compares strictly beyond it. *)
Definition py_max (a b : float) : float := if fgtb b a then b else a.
Definition py_min (a b : float) : float := if fltb b a then b else a.

(** [round(x, 1)] on a NumPy scalar: to the nearest tenth, ties to even. *)
Definition round_half_even (q : Q) : Z :=
  let f := Qfloor q in
  let r := q - inject_Z f in
  if Qltb r (1 # 2) then f
  else if Qltb (1 # 2) r then (f + 1)%Z
  else if Z.even f then f else (f + 1)%Z.

Definition round_digits (scale : positive) (x : float) : float :=
  match x with
  | Fin q => Fin (inject_Z (round_half_even (q * inject_Z (Zpos scale))) / inject_Z (Zpos scale))
  | _ => x
  end.

Definition round1 : float -> float := round_digits 10.

End Float.

Export Float.

Declare Scope float_scope.
Delimit Scope float_scope with float.
Bind Scope float_scope with float.
Notation "x + y" := (fadd x y) : float_scope.
Notation "x - y" := (fsub x y) : float_scope.
Notation "x * y" := (fmul x y) : float_scope.
Notation "x / y" := (fdiv x y) : float_scope.
Notation "x <? y" := (fltb x y) : float_scope.
Notation "x <=? y" := (fleb x y) : float_scope.
Notation "x >? y" := (fgtb x y) : float_scope.
Notation "x >=? y" := (fgeb x y) : float_scope.

(** Decimal literals of the source. *)
Definition lit (n : Z) (d : positive) : float := Fin (n # d).

(** ** NumPy array operations

    One-dimensional arrays are lists of [float]. *)

Module NumPy.

Local Open Scope float_scope.

(** [np.maximum] on two scalars: NaN wins. *)
Definition maximum (a b : float) : float :=
  if isnan a then a else if isnan b then b else if a <? b then b else a.

(** [np.max(a)]: raises on a zero-size array. *)
Definition max (a : list float) : result float :=
  match a with
  | [] => Raise ValueError
  | x :: r => Ok (fold_left maximum r x)
  end.

(** [np.abs(a)] *)
Definition abs (a : list float) : list float := map fabs a.

(** [a * c] for a scalar [c] *)
Definition scale (a : list float) (c : float) : list float :=
  map (fun x => x * c) a.

(** [a ** 2] *)
Definition square (a : list float) : list float := map (fun x => x * x) a.

Fixpoint zip_with (f : float -> float -> float) (a b : list float) : list float :=
  match a, b with
  | x :: a', y :: b' => f x y :: zip_with f a' b'
  | _, _ => []
  end.

(** [a + b] on arrays, with NumPy's broadcasting of a length-one operand;
    any other mismatch of shapes raises [ValueError]. *)
Definition add (a b : list float) : result (list float) :=
  if (length a =? length b)%nat then Ok (zip_with fadd a b)
  else match a, b with
       | [x], _ => Ok (map (fun y => x + y) b)
       | _, [y] => Ok (map (fun x => x + y) a)
       | _, _ => Raise ValueError
       end.

(** Stable insertion sort, used for order statistics. *)
Fixpoint insert_by {A : Type} (le : A -> A -> bool) (x : A) (l : list A) : list A :=
  match l with
  | [] => [x]
  | y :: l' => if le x y then x :: l else y :: insert_by le x l'
  end.

Fixpoint sort_by {A : Type} (le : A -> A -> bool) (l : list A) : list A :=
  match l with
  | [] => []
  | x :: l' => insert_by le x (sort_by le l')
  end.

(** [np.median(a)]: NaN on an empty array or when the array holds a NaN,
    the middle element, or the mean of the two middle elements. *)
Definition median (a : list float) : float :=
  if existsb isnan a then NaN
  else
    let s := sort_by fleb a in
    let n := length s in
    match n with
    | O => NaN
    | _ =>
        if Nat.odd n then nth (n / 2) s NaN
        else (nth (n / 2 - 1) s NaN + nth (n / 2) s NaN) / of_Z 2
    end.

(** [np.where(mask)[0]]: the positions at which the mask holds. *)
Fixpoint where_from (i : nat) (mask : list bool) : list nat :=
  match mask with
  | [] => []
  | b :: m => if b then i :: where_from (S i) m else where_from (S i) m
  end.

Definition where_ (mask : list bool) : list nat := where_from 0 mask.

(** [a[i] = v] *)
Fixpoint set_item (a : list float) (i : nat) (v : float) : list float :=
  match a, i with
  | [], _ => []
  | _ :: a', O => v :: a'
  | x :: a', S j => x :: set_item a' j v
  end.

(** [a[idx] = b[idx]] for an index array [idx] *)
Definition assign_from (a : list float) (idx : list nat) (b : list float) : list float :=
  fold_left (fun acc i => set_item acc i (nth i b NaN)) idx a.

End NumPy.

(** ** SciPy and libm

    [scipy.signal.medfilt] is an order statistic over a zero-padded window and
    is written out.  [butter], [filtfilt], the square root and the decimal
    logarithm are taken as given: the engine is parameterised by them. *)

Module SciPy.

Local Open Scope float_scope.

Inductive btype : Type := high | low | band.

Record lib : Type := {
  (* the coefficient pair [(b, a)] of a designed filter *)
  ba : Type;
  (* [butter(order, Wn, btype=...)], [Wn] a scalar or a pair *)
  butter : nat -> list float -> btype -> result ba;
  (* [filtfilt(b, a, x)] *)
  filtfilt : ba -> list float -> result (list float);
  (* square root of a non-negative rational *)
  sqrtQ : Q -> Q;
  (* decimal logarithm of a positive rational *)
  log10Q : Q -> Q
}.

(** The window of [2 * h + 1] samples centred at [i], zeros outside. *)
Definition window (x : list float) (h i : nat) : list float :=
  map (fun k => if (i + k <? h)%nat then of_Z 0 else nth (i + k - h) x (of_Z 0))
      (seq 0 (2 * h + 1)).

(** [medfilt(volume, kernel_size)] for an odd kernel size. *)
Definition medfilt (volume : list float) (kernel_size : nat) : list float :=
  let h := (kernel_size / 2)%nat in
  map (fun i => nth h (NumPy.sort_by fleb (window volume h i)) (of_Z 0))
      (seq 0 (length volume)).

Section Libm.
Variable L : lib.

(** [np.sqrt] *)
Definition sqrt (x : float) : float :=
  match x with
  | Fin q => if Qltb q 0 then NaN else Fin (sqrtQ L q)
  | PInf => PInf
  | NInf | NaN => NaN
  end.

(** [np.log10] *)
Definition log10 (x : float) : float :=
  match x with
  | Fin q => if Qltb q 0 then NaN else if Qzerob q then NInf else Fin (log10Q L q)
  | PInf => PInf
  | NInf | NaN => NaN
  end.
End Libm.

End SciPy.

(** ** seismic_processor.py: [EnhancedSeismicProcessor] *)

Module Processor.

Import SciPy.
Local Open Scope float_scope.

(** The status dictionary returned next to the samples:
    [{'success': True, 'filter_type': ..., 'parameters': {...}}] or
    [{'success': False, 'reason': ..., 'message': ...}] (the message text
    is not modelled). *)
Inductive filter_type : Type := highpass | lowpass | bandpass.

Inductive reason : Type :=
| empty_data
| invalid_data
| frequency_too_high
| invalid_band
| filter_produced_invalid
| filter_error
| unexpected_error.

Record parameters : Type := {
  low_freq : option float;
  high_freq : option float;
  order : nat;
  sampling_rate : float
}.

Inductive status : Type :=
| Success (ft : filter_type) (p : parameters)
| Failure (r : reason).

Definition success (s : status) : bool :=
  match s with Success _ _ => true | Failure _ => false end.

(** [self.filter_order] and [self.spike_threshold] of [__init__]. *)
Definition filter_order : nat := 4.
Definition spike_threshold : float := lit 5 1.

(** The outcome of [calculate_ms_magnitude]. *)
Inductive ms_error : Type :=
| Afstand_for_kort
| Afstand_for_lang
| Sampling_rate_for_lav
| Beregningsfejl.

Inductive component : Type := vertikal | horizontal.

Record explanation : Type := {
  beregnet_ms : float;
  used_component : component;
  max_north : float;
  max_east : float;
  max_vert : float;
  max_horizontal : float;
  period_s : float;
  distance_km : float;
  distance_deg : float;
  filter_low : float;
  filter_high : float;
  depth_correction : option float
}.

Inductive ms_info : Type :=
| Explanation (e : explanation)
| ErrorDict (e : ms_error).

(** Truth value of an optional number: [None] and zero are false. *)
Definition truthy (x : option float) : bool :=
  match x with
  | None => false
  | Some (Fin q) => negb (Qzerob q)
  | Some _ => true
  end.

(** [len(a) < len(b) * 0.5] *)
Definition len (a : list float) : float := of_Z (Z.of_nat (length a)).

(** The module imports [numpy], [streamlit], [scipy], [plotly] and [obspy]
    names only; [traceback] is imported inside the bodies of other methods,
    which binds it there as a local name.  Looking it up from
    [calculate_ms_magnitude] finds no binding. *)
Definition traceback_format_exc : result unit := Raise NameError.

Section Engine.

Variable L : lib.

(** Lines 176-206: apply the designed filter and validate its output. *)
Definition run_filter (coeffs : ba L) (data : list float)
    (ft : filter_type) (p : parameters) : result (list float * status) :=
  match filtfilt L coeffs data with
  | Ok filtered_data =>
      if existsb isnan filtered_data || existsb isinf filtered_data
      then Ok (data, Failure filter_produced_invalid)
      else Ok (filtered_data, Success ft p)
  | Raise ValueError => Ok (data, Failure filter_error)
  | Raise e => Raise e
  end.

(** Lines 121-206: choice of the filter from the two cutoffs. *)
Definition design_and_filter (data : list float) (sampling_rate : float)
    (low_freq high_freq : option float) (order : nat)
    : result (list float * status) :=
  let nyquist := sampling_rate / lit 2 1 in
  let highpass_branch :=
    match high_freq with
    | None => Raise TypeError
    | Some hf =>
        if hf >=? nyquist * lit 95 100
        then Ok (data, Failure frequency_too_high)
        else
          wn <- py_div hf nyquist ;;
          c <- butter L order [wn] high ;;
          run_filter c data highpass
            {| low_freq := low_freq; high_freq := high_freq;
               order := order; sampling_rate := sampling_rate |}
    end in
  let lowpass_branch (lf : float) :=
    if lf >=? nyquist * lit 95 100
    then Ok (data, Failure frequency_too_high)
    else
      wn <- py_div lf nyquist ;;
      c <- butter L order [wn] low ;;
      run_filter c data lowpass
        {| low_freq := low_freq; high_freq := high_freq;
           order := order; sampling_rate := sampling_rate |} in
  let bandpass_branch (lf hf : float) :=
    if lf >=? hf
    then Ok (data, Failure invalid_band)
    else
      let hf := if hf >=? nyquist * lit 95 100 then nyquist * lit 9 10 else hf in
      let lf := if lf <=? lit 1 1000 then lit 5 1000 else lf in
      wl <- py_div lf nyquist ;;
      wh <- py_div hf nyquist ;;
      c <- butter L order [wl; wh] band ;;
      run_filter c data bandpass
        {| low_freq := Some lf; high_freq := Some hf;
           order := order; sampling_rate := sampling_rate |} in
  match low_freq with
  | None => highpass_branch
  | Some lf =>
      if lf <=? of_Z 0 then highpass_branch
      else
        match high_freq with
        | None => lowpass_branch lf
        | Some hf =>
            if hf >=? nyquist then lowpass_branch lf
            else bandpass_branch lf hf
        end
  end.

(** [apply_bandpass_filter(self, data, sampling_rate, low_freq, high_freq,
    order=None)] *)
Definition apply_bandpass_filter (data : list float) (sampling_rate : float)
    (low_freq high_freq : option float) (order : option nat)
    : list float * status :=
  let order := match order with None => filter_order | Some o => o end in
  if (length data =? 0)%nat then (data, Failure empty_data)
  else
    let continue (data : list float) :=
      match design_and_filter data sampling_rate low_freq high_freq order with
      | Ok r => r
      | Raise _ => (data, Failure unexpected_error)
      end in
    if existsb isnan data || existsb isinf data then
      let clean_data := filter isfinite data in
      if len clean_data <? len data * lit 5 10
      then (data, Failure invalid_data)
      else continue clean_data
    else continue data.

(** [remove_spikes(self, data, threshold=None)] *)
Definition remove_spikes (data : list float) (threshold : option float)
    : list float * nat :=
  let threshold := match threshold with None => spike_threshold | Some t => t end in
  let cleaned_data := data in
  let median := NumPy.median cleaned_data in
  let mad := NumPy.median (NumPy.abs (map (fun x => x - median) cleaned_data)) in
  if mad >? of_Z 0 then
    let z_scores :=
      map (fun d => d / (lit 14826 10000 * mad))
          (NumPy.abs (map (fun x => x - median) cleaned_data)) in
    let spike_indices := NumPy.where_ (map (fun z => z >? threshold) z_scores) in
    let cleaned_data :=
      if (0 <? length spike_indices)%nat then
        let window_size := 5%nat in
        let median_filtered := medfilt cleaned_data window_size in
        NumPy.assign_from cleaned_data spike_indices median_filtered
      else cleaned_data in
    (cleaned_data, length spike_indices)
  else (cleaned_data, 0%nat).

(** The [try] block of [calculate_ms_magnitude], lines 428-527. *)
Definition ms_try (north_data east_data vertical_data : list float)
    (distance_km sampling_rate : float) (earthquake_depth_km : option float)
    : result (option float * ms_info) :=
  if distance_km <? of_Z 200 then Ok (None, ErrorDict Afstand_for_kort)
  else if distance_km >? of_Z 16000 then Ok (None, ErrorDict Afstand_for_lang)
  else
    let nyquist := sampling_rate / lit 2 1 in
    if nyquist <? lit 5 10 then Ok (None, ErrorDict Sampling_rate_for_lav)
    else
      let low_freq := lit 2 100 in
      let high_freq := py_min (lit 5 10) (nyquist * lit 9 10) in
      let filtered_vert :=
        fst (apply_bandpass_filter vertical_data sampling_rate
               (Some low_freq) (Some high_freq) None) in
      let filtered_north :=
        fst (apply_bandpass_filter north_data sampling_rate
               (Some low_freq) (Some high_freq) None) in
      let filtered_east :=
        fst (apply_bandpass_filter east_data sampling_rate
               (Some low_freq) (Some high_freq) None) in
      mv <- NumPy.max (NumPy.abs filtered_vert) ;;
      let max_vert := mv * of_Z 1000 in
      mn <- NumPy.max (NumPy.abs filtered_north) ;;
      let max_north := mn * of_Z 1000 in
      me <- NumPy.max (NumPy.abs filtered_east) ;;
      let max_east := me * of_Z 1000 in
      sq <- NumPy.add (NumPy.square filtered_north) (NumPy.square filtered_east) ;;
      let horizontal_amplitudes := NumPy.scale (map (sqrt L) sq) (of_Z 1000) in
      max_horizontal <- NumPy.max horizontal_amplitudes ;;
      let amplitude_um := py_max max_vert max_horizontal in
      let used_component :=
        if max_vert >=? max_horizontal then vertikal else horizontal in
      let period_s := lit 20 1 in
      let distance_deg := distance_km / lit 111195 1000 in
      let ms_magnitude :=
        log10 L (amplitude_um / period_s)
        + lit 166 100 * log10 L distance_deg + lit 33 10 in
      let corrected := truthy earthquake_depth_km &&
        match earthquake_depth_km with
        | Some d => d >? of_Z 50
        | None => false
        end in
      let depth_correction :=
        match earthquake_depth_km with
        | Some d => if corrected then lit (-35) 10000 * (d - of_Z 50) else of_Z 0
        | None => of_Z 0
        end in
      let ms_magnitude :=
        if corrected then ms_magnitude + depth_correction else ms_magnitude in
      let ms_magnitude := round1 ms_magnitude in
      Ok (Some ms_magnitude,
          Explanation
            {| beregnet_ms := ms_magnitude;
               used_component := used_component;
               max_north := max_north;
               max_east := max_east;
               max_vert := max_vert;
               max_horizontal := max_horizontal;
               period_s := period_s;
               distance_km := distance_km;
               distance_deg := distance_deg;
               filter_low := low_freq;
               filter_high := high_freq;
               depth_correction :=
                 if corrected then Some depth_correction else None |}).

(** [calculate_ms_magnitude(self, north_data, east_data, vertical_data,
    distance_km, sampling_rate, earthquake_depth_km=None)]: the handler
    builds its dictionary with a call of [traceback.format_exc()]. *)
Definition calculate_ms_magnitude (north_data east_data vertical_data : list float)
    (distance_km sampling_rate : float) (earthquake_depth_km : option float)
    : result (option float * ms_info) :=
  try_except
    (ms_try north_data east_data vertical_data
            distance_km sampling_rate earthquake_depth_km)
    (fun e =>
       _ <- traceback_format_exc ;;
       Ok (None, ErrorDict Beregningsfejl)).

End Engine.

End Processor.

(** ** data_manager.py: [StreamlinedDataManager] *)

Module DataManager.

Local Open Scope Q_scope.
Local Open Scope string_scope.
Local Open Scope list_scope.

(** The station dictionary.  Keys a dictionary may lack (the fallback
    stations carry no priorities) are optional and read with the default of
    the [.get] call.  Distances are finite: they are ellipsoid distances in
    metres divided by 1000 and rounded.  Coordinates-derived keys that no
    selection step reads (azimuth, arrival times, channel codes) are left
    out. *)
Record station : Type := {
  network : string;
  station_code : string;
  latitude : Q;
  longitude : Q;
  distance_km : Q;
  network_priority : option Z;
  channel_priority : option Z;
  operational_years : option Z;
  sample_rate : option Q;
  (* [None]: unknown, [Some true]: verified, [Some false]: unavailable *)
  data_verified : option bool;
  verified_channels : option string;
  data_source : option string
}.

Definition set_data_verified (s : station) (v : option bool)
    (channels : option string) : station :=
  {| network := network s; station_code := station_code s;
     latitude := latitude s; longitude := longitude s;
     distance_km := distance_km s;
     network_priority := network_priority s;
     channel_priority := channel_priority s;
     operational_years := operational_years s;
     sample_rate := sample_rate s;
     data_verified := v;
     verified_channels := channels;
     data_source := data_source s |}.

(** [x.get(key, default)] *)
Definition get {A : Type} (field : option A) (default : A) : A :=
  match field with Some v => v | None => default end.

(** [result.get('data_verified', False)] as a truth value *)
Definition verified (s : station) : bool := get (data_verified s) false.

Definition option_eqb {A : Type} (eqb : A -> A -> bool) (a b : option A) : bool :=
  match a, b with
  | Some x, Some y => eqb x y
  | None, None => true
  | _, _ => false
  end.

(** Equality of two station dictionaries. *)
Definition station_eqb (a b : station) : bool :=
  String.eqb (network a) (network b)
  && String.eqb (station_code a) (station_code b)
  && Qeq_bool (latitude a) (latitude b)
  && Qeq_bool (longitude a) (longitude b)
  && Qeq_bool (distance_km a) (distance_km b)
  && option_eqb Z.eqb (network_priority a) (network_priority b)
  && option_eqb Z.eqb (channel_priority a) (channel_priority b)
  && option_eqb Z.eqb (operational_years a) (operational_years b)
  && option_eqb Qeq_bool (sample_rate a) (sample_rate b)
  && option_eqb Bool.eqb (data_verified a) (data_verified b)
  && option_eqb String.eqb (verified_channels a) (verified_channels b)
  && option_eqb String.eqb (data_source a) (data_source b).

(** The earthquake dictionary. *)
Record earthquake : Type := {
  eq_latitude : option Q;
  eq_longitude : option Q;
  eq_depth : option Q;
  (* origin time, seconds since the epoch; [None] when the key is missing *)
  eq_time : option Z
}.

(** The ObsPy inventory returned by the catalog: networks, their stations,
    their channels. *)
Record channel : Type := {
  channel_code : string;
  channel_sample_rate : Q
}.

Record inv_station : Type := {
  inv_code : string;
  inv_latitude : Q;
  inv_longitude : Q;
  channels : list channel;
  (* year of [start_date], when there is one *)
  start_year : option Z
}.

Record inv_network : Type := {
  net_code : string;
  net_stations : list inv_station
}.

Definition inventory : Type := list inv_network.

(** The collaborators outside the repository. *)
Record collaborators : Type := {
  (* the entry of [st.session_state.inventory_cache] for the request *)
  inventory_cache : option inventory;
  (* [self.client.get_stations(...)] for the request *)
  get_stations : result inventory;
  (* [self.client.get_waveforms(network, station, channel)] of the
  30-second probe: the number of traces of the stream *)
  get_waveforms : string -> string -> string -> result nat;
  (* [gps2dist_azimuth(lat1, lon1, lat2, lon2)]: metres and azimuth *)
  gps2dist_azimuth : Q -> Q -> Q -> Q -> result (Q * Q);
  (* the order in which the submitted probes complete *)
  as_completed : list (result station) -> list (result station);
  (* the calendar year of an origin time *)
  year_of : Z -> Z
}.

(** [round(x, 1)] *)
Definition round1 (x : Q) : Q := inject_Z (round_half_even (x * 10)) / 10.

(** *** Sort keys *)

(** Lexicographic [<=] on key tuples. *)
Definition lex2 {A B : Type} (lta eqa : A -> A -> bool) (leb : B -> B -> bool)
    (x y : A * B) : bool :=
  lta (fst x) (fst y) || (eqa (fst x) (fst y) && leb (snd x) (snd y)).

(** [(x.get('network_priority', 99), x.get('channel_priority', 99),
     -x.get('operational_years', 0), x['distance_km'])] *)
Definition quality_key (x : station) : Z * (Z * (Z * Q)) :=
  (get (network_priority x) 99%Z,
   (get (channel_priority x) 99%Z,
    ((- get (operational_years x) 0)%Z, distance_km x))).

Definition quality_leb (x y : station) : bool :=
  lex2 Z.ltb Z.eqb (lex2 Z.ltb Z.eqb (lex2 Z.ltb Z.eqb Qle_bool))
       (quality_key x) (quality_key y).

(** [x['distance_km']] *)
Definition distance_leb (x y : station) : bool :=
  Qle_bool (distance_km x) (distance_km y).

(** [(x.get('network_priority', 99), -x.get('sample_rate', 0),
     x.get('channel_priority', 99))] *)
Definition bucket_key (x : station) : Z * (Q * Z) :=
  (get (network_priority x) 99%Z,
   (- get (sample_rate x) 0, get (channel_priority x) 99%Z)).

Definition bucket_leb (x y : station) : bool :=
  lex2 Z.ltb Z.eqb (lex2 Qltb Qeq_bool Z.leb) (bucket_key x) (bucket_key y).

(** [(not x.get('data_verified', False), x['distance_km'])]:
    [False] sorts before [True]. *)
Definition verified_key (x : station) : bool * Q :=
  (negb (verified x), distance_km x).

Definition bool_ltb (a b : bool) : bool := negb a && b.

Definition verified_leb (x y : station) : bool :=
  lex2 bool_ltb Bool.eqb Qle_bool (verified_key x) (verified_key y).

(** [list.sort(key=...)] and [sorted(..., key=...)] are stable. *)
Definition sort (leb : station -> station -> bool) (l : list station) : list station :=
  NumPy.sort_by leb l.

(** *** [_process_inventory_to_stations] *)

(** The dictionary [network_scores]. *)
Definition network_scores (code : string) : option Z :=
  if String.eqb code "IU" then Some 1%Z
  else if String.eqb code "II" then Some 0%Z
  else if String.eqb code "G" then Some 2%Z
  else if String.eqb code "GE" then Some 2%Z
  else if String.eqb code "GT" then Some 3%Z
  else if String.eqb code "US" then Some 4%Z
  else if String.eqb code "CN" then Some 4%Z
  else None.

(** The loop over [station.channels]; [channel.code[1]] raises on a code
    shorter than two characters. *)
Fixpoint classify_channels (chs hh bh other : list channel)
    : result (list channel * list channel * list channel) :=
  match chs with
  | [] => Ok (hh, bh, other)
  | c :: rest =>
      if String.prefix "HH" (channel_code c)
      then classify_channels rest (hh ++ [c]) bh other
      else if String.prefix "BH" (channel_code c)
      then classify_channels rest hh (bh ++ [c]) other
      else
        match String.get 1 (channel_code c) with
        | None => Raise OtherError
        | Some ch =>
            if Ascii.eqb ch "H"%char
            then classify_channels rest hh bh (other ++ [c])
            else classify_channels rest hh bh other
        end
  end.

Section Discovery.

Variable env : collaborators.

(** The body of the loop over the stations of a network: [Ok None]
    stands for [continue]. *)
Definition process_station (net : inv_network) (st : inv_station)
    (eq_lat eq_lon : Q) (eq_time : Z) (min_distance_km max_distance_km : Q)
    : result (option station) :=
  '(hh_channels, bh_channels, other_channels) <-
     classify_channels (channels st) [] [] [] ;;
  let choice :=
    match hh_channels, bh_channels, other_channels with
    | _ :: _, _, _ => Some (hh_channels, 1%Z, 100)
    | [], _ :: _, _ => Some (bh_channels, 2%Z, 40)
    | [], [], c :: _ => Some (other_channels, 3%Z, channel_sample_rate c)
    | [], [], [] => None
    end in
  match choice with
  | None => Ok None
  | Some (selected_channels, channel_priority, typical_rate) =>
      '(distance_m, azimuth) <-
         gps2dist_azimuth env eq_lat eq_lon (inv_latitude st) (inv_longitude st) ;;
      let distance_km := distance_m / 1000 in
      if Qltb distance_km min_distance_km || Qltb max_distance_km distance_km
      then Ok None
      else
        Ok (Some
          {| network := net_code net;
             station_code := inv_code st;
             latitude := inv_latitude st;
             longitude := inv_longitude st;
             distance_km := round1 distance_km;
             network_priority := Some (get (network_scores (net_code net)) 99%Z);
             channel_priority := Some channel_priority;
             operational_years :=
               Some (match start_year st with
                     | Some y => (year_of env eq_time - y)%Z
                     | None => 0%Z
                     end);
             sample_rate := Some typical_rate;
             data_verified := None;
             verified_channels := None;
             data_source := None |})
  end.

(** [_process_inventory_to_stations]: a station whose processing raises
    is skipped. *)
Definition _process_inventory_to_stations (inv : inventory)
    (eq_lat eq_lon : Q) (eq_time : Z) (min_distance_km max_distance_km : Q)
    : list station :=
  flat_map
    (fun net =>
       flat_map
         (fun st =>
            match process_station net st eq_lat eq_lon eq_time
                    min_distance_km max_distance_km with
            | Ok (Some info) => [info]
            | Ok None => []
            | Raise _ => []
            end)
         (net_stations net))
    inv.

(** *** [_select_distributed_stations] *)

(** Deduplication on [(network, station)], first occurrence kept. *)
Fixpoint unique_by_code (seen : list (string * string)) (l : list station)
    : list station :=
  match l with
  | [] => []
  | s :: r =>
      let key := (network s, station_code s) in
      if existsb (fun k => String.eqb (fst k) (fst key)
                           && String.eqb (snd k) (snd key)) seen
      then unique_by_code seen r
      else s :: unique_by_code (key :: seen) r
  end.

(** [np.linspace(start, stop, num + 1)[i]] *)
Definition linspace (start stop : Q) (num i : nat) : Q :=
  if (i =? num)%nat then stop
  else start + inject_Z (Z.of_nat i) * ((stop - start) / inject_Z (Z.of_nat num)).

(** Built-in [min(available, key=...)]: the first minimal element. *)
Fixpoint min_by {A : Type} (key : A -> Q) (best : A) (l : list A) : A :=
  match l with
  | [] => best
  | x :: r => min_by key (if Qltb (key x) (key best) then x else best) r
  end.

Definition enumerate {A : Type} (l : list A) : list (nat * A) :=
  combine (seq 0 (length l)) l.

Definition mem (j : nat) (s : list nat) : bool := existsb (Nat.eqb j) s.

(** The loop over the bins of the fast algorithm. *)
Fixpoint pick_bins (sorted_stations : list station) (lo hi : Q) (num : nat)
    (bins : list nat) (selected : list station) (selected_indices : list nat)
    : list station * list nat :=
  match bins with
  | [] => (selected, selected_indices)
  | i :: rest =>
      let bin_start := linspace lo hi num i in
      let bin_end := linspace lo hi num (S i) in
      let bin_center := (bin_start + bin_end) / 2 in
      let available_stations :=
        filter (fun js => negb (mem (fst js) selected_indices)
                          && Qle_bool bin_start (distance_km (snd js))
                          && Qle_bool (distance_km (snd js)) bin_end)
               (enumerate sorted_stations) in
      match available_stations with
      | [] => pick_bins sorted_stations lo hi num rest selected selected_indices
      | first :: others =>
          let best :=
            min_by (fun x => Qabs (distance_km (snd x) - bin_center)) first others in
          pick_bins sorted_stations lo hi num rest
            (selected ++ [snd best]) (fst best :: selected_indices)
      end
  end.

(** The fill-up loop of the fast algorithm. *)
Fixpoint fill_up (items : list (nat * station)) (target_count : nat)
    (selected : list station) (selected_indices : list nat) : list station :=
  match items with
  | [] => selected
  | (j, s) :: rest =>
      if negb (mem j selected_indices) && (length selected <? target_count)%nat
      then fill_up rest target_count (selected ++ [s]) (j :: selected_indices)
      else fill_up rest target_count selected selected_indices
  end.

(** The fill-up loop of the bucket algorithm:
    [while len(selected) < target_count and remaining]. *)
Fixpoint fill_from (remaining : list station) (target_count : nat)
    (selected : list station) : list station :=
  match remaining with
  | [] => selected
  | s :: rest =>
      if (length selected <? target_count)%nat
      then fill_from rest target_count (selected ++ [s])
      else selected
  end.

Definition _select_distributed_stations (stations : list station)
    (target_count : nat) : result (list station) :=
  if (length stations <=? target_count)%nat then Ok stations
  else if (100 <? length stations)%nat then
    let unique_stations := unique_by_code [] stations in
    if (length unique_stations <=? target_count)%nat then Ok unique_stations
    else
      let sorted_stations := sort distance_leb unique_stations in
      match sorted_stations with
      | [] => Raise ValueError
      | nearest :: _ =>
          let lo := distance_km nearest in
          let hi := distance_km (last sorted_stations nearest) in
          let '(selected, selected_indices) :=
            pick_bins sorted_stations lo hi target_count (seq 0 target_count) [] [] in
          let selected :=
            if (length selected <? target_count)%nat
            then fill_up (enumerate sorted_stations) target_count
                         selected selected_indices
            else selected in
          Ok (firstn target_count selected)
      end
  else
    let stations_sorted := sort distance_leb stations in
    match stations_sorted with
    | [] => Raise OtherError
    | nearest :: _ =>
    let min_dist := distance_km nearest in
    let max_dist := distance_km (last stations_sorted nearest) in
    if (target_count =? 0)%nat then Raise ZeroDivisionError
    else
      let bucket_size := (max_dist - min_dist) / inject_Z (Z.of_nat target_count) in
      let buckets :=
        flat_map
          (fun i =>
             let bucket_min := min_dist + inject_Z (Z.of_nat i) * bucket_size in
             let bucket_max := min_dist + inject_Z (Z.of_nat (i + 1)) * bucket_size in
             let bucket_stations :=
               filter (fun s => Qle_bool bucket_min (distance_km s)
                                && Qltb (distance_km s) bucket_max)
                      stations_sorted in
             match bucket_stations with
             | [] => []
             | _ => [bucket_stations]
             end)
          (seq 0 target_count) in
      let selected :=
        flat_map
          (fun bucket =>
             match sort bucket_leb bucket with
             | [] => []
             | best :: _ => [best]
             end)
          buckets in
      let remaining :=
        filter (fun s => negb (existsb (station_eqb s) selected)) stations_sorted in
      let selected := fill_from remaining target_count selected in
      Ok (firstn target_count selected)
    end.

(** *** [_validate_stations_parallel] *)

(** The probe [validate_single]: it catches every exception itself. *)
Definition validate_single (s : station) : station :=
  let unavailable := set_data_verified s (Some false) (verified_channels s) in
  let probe (channels : string) (otherwise : station) : station :=
    match get_waveforms env (network s) (station_code s) channels with
    | Ok traces =>
        if (0 <? traces)%nat
        then set_data_verified s (Some true) (Some channels)
        else otherwise
    | Raise _ => otherwise
    end in
  probe "HH?" (probe "BH?" unavailable).

(** The loop [for future in as_completed(futures)] over the futures in
    their order of completion, with the state [(validated,
    verified_count)]. *)
Fixpoint collect (completed : list (result station)) (target_count : nat)
    (validated : list station) (verified_count : nat)
    : list station * nat :=
  match completed with
  | [] => (validated, verified_count)
  | future :: rest =>
      if (target_count * 2 <=? verified_count)%nat
      then (validated, verified_count)
      else
        match future with
        | Ok result =>
            collect rest target_count (validated ++ [result])
                    (if verified result then S verified_count else verified_count)
        | Raise _ => collect rest target_count validated verified_count
        end
  end.

Definition _validate_stations_parallel (stations : list station)
    (target_count : nat) : list station :=
  let futures := map (fun s => Ok (validate_single s)) stations in
  let validated := fst (collect (as_completed env futures) target_count [] 0%nat) in
  sort verified_leb validated.

(** *** [_fallback_station_list_optimized] *)

(** The table [analysis_ready_stations]: net, sta, lat, lon. *)
Definition analysis_ready_stations : list (string * string * Q * Q) :=
  [ ("IU", "KEV", 6976 # 100, 2701 # 100);
    ("II", "BFO", 4833 # 100, 833 # 100);
    ("GE", "STU", 4877 # 100, 919 # 100);
    ("DK", "BSD", 5511 # 100, 1491 # 100);
    ("DK", "COP", 5568 # 100, 1243 # 100);
    ("NS", "BSEG", 6220 # 100, 522 # 100);
    ("UP", "UDD", 6451 # 100, 2104 # 100) ].

Definition _fallback_station_list_optimized (earthquake : earthquake)
    (min_distance_km max_distance_km : Q) (target_stations : nat)
    : list station :=
  let eq_lat := get (eq_latitude earthquake) 0 in
  let eq_lon := get (eq_longitude earthquake) 0 in
  let stations :=
    flat_map
      (fun sta_data =>
         let '(net, sta, lat, lon) := sta_data in
         match gps2dist_azimuth env eq_lat eq_lon lat lon with
         | Ok (distance_m, azimuth) =>
             let distance_km := distance_m / 1000 in
             if Qle_bool min_distance_km distance_km
                && Qle_bool distance_km max_distance_km
             then
               [ {| network := net;
                    station_code := sta;
                    latitude := lat;
                    longitude := lon;
                    distance_km := round1 distance_km;
                    network_priority := None;
                    channel_priority := None;
                    operational_years := None;
                    sample_rate := None;
                    data_verified := None;
                    verified_channels := None;
                    data_source := Some "ANALYSIS_READY_FALLBACK" |} ]
             else []
         | Raise _ => []
         end)
      analysis_ready_stations in
  firstn target_stations (sort distance_leb stations).

(** *** [search_stations] *)

(** [progress_placeholder.warning(...)]: the call is made on the argument
    as it is, also when it is [None]. *)
Definition placeholder_warning (progress_placeholder : option unit) : result unit :=
  match progress_placeholder with
  | Some _ => Ok tt
  | None => Raise AttributeError
  end.

(** [not inventory] *)
Definition falsy (inv : option inventory) : bool :=
  match inv with
  | None | Some [] => true
  | Some _ => false
  end.

(** The [try] block of [search_stations], lines 280-394.  The Streamlit
    progress calls, the pause before the return and the update of the
    inventory cache are not modelled. *)
Definition search_try (earthquake : earthquake) (eq_time : Z)
    (min_distance_km max_distance_km : Q) (target_stations : nat)
    (progress_placeholder : option unit) : result (list station) :=
  let eq_lat := get (eq_latitude earthquake) 0 in
  let eq_lon := get (eq_longitude earthquake) 0 in
  inventory <-
    (if falsy (inventory_cache env) then get_stations env
     else Ok (get (inventory_cache env) [])) ;;
  let all_stations :=
    _process_inventory_to_stations inventory eq_lat eq_lon eq_time
      min_distance_km max_distance_km in
  match all_stations with
  | [] =>
      _ <- placeholder_warning progress_placeholder ;;
      Ok (_fallback_station_list_optimized earthquake
            min_distance_km max_distance_km target_stations)
  | _ :: _ =>
      let all_stations := sort quality_leb all_stations in
      let candidates_count :=
        if (1000 <? length all_stations)%nat
        then Nat.min (length all_stations) (target_stations * 3)
        else Nat.min (length all_stations) (target_stations * 5) in
      let candidates := firstn candidates_count all_stations in
      selected_stations <-
        _select_distributed_stations candidates (target_stations * 2) ;;
      let validated_stations :=
        if (length selected_stations <=? 20)%nat
        then _validate_stations_parallel selected_stations target_stations
        else
          let quick_validate_count := Nat.min (target_stations * 3) 15 in
          let quick_stations := firstn quick_validate_count selected_stations in
          let validated_stations :=
            _validate_stations_parallel quick_stations target_stations in
          let remaining_stations :=
            map (fun station =>
                   set_data_verified station None (verified_channels station))
                (skipn quick_validate_count selected_stations) in
          validated_stations ++ remaining_stations in
      let final_stations := firstn target_stations validated_stations in
      Ok final_stations
  end.

(** [search_stations(self, earthquake, min_distance_km, max_distance_km,
    target_stations, progress_placeholder=None)] *)
Definition search_stations (earthquake : earthquake)
    (min_distance_km max_distance_km : Q) (target_stations : nat)
    (progress_placeholder : option unit) : list station :=
  match eq_time earthquake with
  | None => []
  | Some eq_time =>
      match search_try earthquake eq_time min_distance_km max_distance_km
              target_stations progress_placeholder with
      | Ok final_stations => final_stations
      | Raise _ => []
      end
  end.

End Discovery.

End DataManager.

(** ** Concrete collaborators

    A concrete interpretation of the library functions, for running the
    engine on explicit inputs.  [butter] keeps the design request and rejects
    critical frequencies outside (0, 1); [filtfilt] rejects an input not
    longer than its padding of three times the number of coefficients and
    otherwise has unit gain; the square root and the logarithm are
    fixed-point approximations.  Every property below that is stated for an
    arbitrary [lib] holds of other interpretations as well. *)

Module Concrete.

Import SciPy.

Definition design : Type := (nat * list float * btype)%type.

Definition critical (w : float) : bool :=
  (of_Z 0 <? w)%float && (w <? of_Z 1)%float.

Definition butter (order : nat) (Wn : list float) (bt : btype) : result design :=
  if forallb critical Wn then Ok (order, Wn, bt) else Raise ValueError.

(** Number of coefficients of [b] and of [a]. *)
Definition ntaps (d : design) : nat :=
  match d with
  | (order, _, band) => 2 * order + 1
  | (order, _, _) => order + 1
  end.

Definition filtfilt (d : design) (x : list float) : result (list float) :=
  if (length x <=? 3 * ntaps d)%nat then Raise ValueError else Ok x.

(** Square root, truncated to six decimals. *)
Definition sqrtQ (q : Q) : Q :=
  Z.sqrt (Qfloor (q * inject_Z (10 ^ 12))) # 1000000.

(** Binary logarithm of a value of [1, 2) given in fixed point with 64
    fractional bits: one bit of the result per squaring. *)
Fixpoint log2_bits (n : nat) (x : Z) (acc : Z) : Z :=
  match n with
  | O => acc
  | S n' =>
      let y := (x * x / 2 ^ 64)%Z in
      if (2 ^ 65 <=? y)%Z
      then log2_bits n' (y / 2)%Z (2 * acc + 1)%Z
      else log2_bits n' y (2 * acc)%Z
  end.

(** Decimal logarithm of a positive rational, to about nine decimals. *)
Definition log10Q (q : Q) : Q :=
  let e0 := (Z.log2 (Qnum q) - Z.log2 (Zpos (Qden q)))%Z in
  let scaled (e : Z) : Q :=
    if (0 <=? e)%Z then q / inject_Z (2 ^ e) else q * inject_Z (2 ^ (- e)) in
  let e := if Qltb (scaled e0) 1 then (e0 - 1)%Z else e0 in
  let m := Qfloor (scaled e * inject_Z (2 ^ 64)) in
  let frac := log2_bits 40 m 0 in
  (inject_Z e + (frac # 1099511627776)) * (30102999566 # 100000000000).

Definition scipy : lib :=
  {| SciPy.ba := design;
     SciPy.butter := butter;
     SciPy.filtfilt := filtfilt;
     SciPy.sqrtQ := sqrtQ;
     SciPy.log10Q := log10Q |}.

End Concrete.

(** ** seismic_processor.py: filter presets, timing check, waveform pipeline *)

Module Pipeline.

Import SciPy Processor.
Local Open Scope float_scope.

(** [self.filter_bands] of [__init__]; [None] is the preset without
    filtering. *)
Definition filter_bands : list (string * option (float * float)) :=
  [ ("broadband"%string, None);
    ("p_waves"%string, Some (lit 1 1, lit 10 1));
    ("s_waves"%string, Some (lit 5 10, lit 5 1));
    ("surface"%string, Some (lit 2 100, lit 5 10));
    ("long_period"%string, Some (lit 5 1000, lit 1 10)) ].

(** A dictionary with string keys, as an association list: [key in d] is
    [lookup key d <> None] and [d[key]] its value. *)
Fixpoint lookup {V : Type} (key : string) (d : list (string * V)) : option V :=
  match d with
  | [] => None
  | (k, v) :: rest => if String.eqb key k then Some v else lookup key rest
  end.

(** ['needle' in hay] on strings *)
Fixpoint contains (needle hay : string) : bool :=
  String.prefix needle hay ||
  match hay with
  | EmptyString => false
  | String _ rest => contains needle rest
  end.

(** [int(x)] of a float: truncation; NaN raises [ValueError], an infinity
    [OverflowError] (here [OtherError]). *)
Definition py_int (x : float) : result Z :=
  match x with
  | Fin q => Ok (if Qltb q 0 then Qceiling q else Qfloor q)
  | NaN => Raise ValueError
  | PInf | NInf => Raise OtherError
  end.

(** [a[:k]] *)
Definition slice_to {A : Type} (a : list A) (k : Z) : list A :=
  if (k <? 0)%Z then firstn (length a - Z.to_nat (- k)) a
  else firstn (Z.to_nat k) a.

(** *** [validate_earthquake_timing]

    The values read from the dictionaries: [earthquake.get('time')] is a
    string, a [UTCDateTime] (seconds) or absent; [station.get('p_arrival')]
    is absent, a string, a number or something else;
    [station.get('distance_km', 0)] is a number. *)
Inductive time_value : Type :=
| TStr (s : string)
| TUtc (t : Q)
| TNone.

Inductive value : Type :=
| VNone
| VStr (s : string)
| VNum (x : float)
| VOther.

(** The parsing done by ObsPy and the standard library. *)
Record parsers : Type := {
  (* [UTCDateTime(s)] of a string, in seconds *)
  utc_of_string : string -> result Q;
  (* [re.search(r'UTCDateTime\((.*?)\)', s)]: group 1 of the match *)
  re_search : string -> option string;
  (* [[int(p.strip()) for p in group.split(',')]] *)
  int_params : string -> result (list Z);
  (* [UTCDateTime( *params )], in seconds *)
  utc_of_params : list Z -> result Q
}.

(** The message, without its text; the time difference is the number
    printed in it. *)
Inductive message : Type :=
| Timing_valideret (time_diff : float)
| Stor_timing_forskel (time_diff : float)
| Mangler_p_ankomst
| Kunne_ikke_validere.

Record timing_info : Type := {
  expected_p_time : float;
  observed_p_time : float;
  time_difference : float;
  threshold : float;
  info_distance_km : float
}.

Section Timing.

Variable P : parsers.

(** The [try] block, lines 541-614.  A string that holds the word
    UTCDateTime but does not match the pattern leaves [p_arrival_seconds]
    unassigned: reading it raises [UnboundLocalError] (here
    [OtherError]). *)
Definition timing_try (eq_time : time_value) (distance_km : option float)
    (p_arrival : value) : result (bool * message * option timing_info) :=
  eq_time <-
    match eq_time with
    | TStr s => t <- utc_of_string P s ;; Ok (Some t)
    | TUtc t => Ok (Some t)
    | TNone => Ok None
    end ;;
  let distance_km := match distance_km with Some d => d | None => of_Z 0 end in
  p_arrival_seconds <-
    match p_arrival with
    | VStr s =>
        if contains "UTCDateTime" s then
          match re_search P s with
          | Some group =>
              params <- int_params P group ;;
              p_arrival_utc <- utc_of_params P params ;;
              match eq_time with
              | Some t0 => Ok (Some (Fin (p_arrival_utc - t0)))
              | None => Raise TypeError
              end
          | None => Raise OtherError
          end
        else Ok None
    | VNum x => Ok (Some x)
    | VNone | VOther => Ok None
    end ;;
  match p_arrival_seconds with
  | None => Ok (true, Mangler_p_ankomst, None)
  | Some p_arrival_seconds =>
      let avg_p_velocity := lit 75 10 in
      let expected_p_time := distance_km / avg_p_velocity in
      let time_diff := fabs (p_arrival_seconds - expected_p_time) in
      let threshold := py_max (expected_p_time * lit 1 10) (lit 5 1) in
      let is_valid := time_diff <? threshold in
      Ok (is_valid,
          (if is_valid then Timing_valideret time_diff
           else Stor_timing_forskel time_diff),
          Some {| expected_p_time := expected_p_time;
                  observed_p_time := p_arrival_seconds;
                  time_difference := time_diff;
                  threshold := threshold;
                  info_distance_km := distance_km |})
  end.

Definition validate_earthquake_timing (eq_time : time_value)
    (distance_km : option float) (p_arrival : value)
    : bool * message * option timing_info :=
  match timing_try eq_time distance_km p_arrival with
  | Ok r => r
  | Raise _ => (true, Kunne_ikke_validere, None)
  end.

End Timing.

(** *** The waveform dictionary and the result of the pipeline *)

Inductive channel_name : Type := north | east | vertical.

Definition components : list channel_name := [north; east; vertical].

Definition component_key (c : channel_name) : string :=
  match c with
  | north => "north"
  | east => "east"
  | vertical => "vertical"
  end.

Definition component_mapping (c : channel_name) : list string :=
  match c with
  | north => ["N"; "1"]
  | east => ["E"; "2"]
  | vertical => ["Z"; "3"]
  end%string.

(** The keys of [waveform_data] that the pipeline reads.  The entries
    [waveform_<suffix>] are kept by suffix; arrays are one-dimensional
    arrays of floats. *)
Record waveform : Type := {
  wf_sampling_rate : option float;
  highres : list (string * list float);
  displacement_data : option (list (string * list float));
  (* some key other than these is present *)
  other_keys : bool
}.

(** [not waveform_data] for a dictionary or [None] *)
Definition falsy (w : option waveform) : bool :=
  match w with
  | None => true
  | Some w =>
      match wf_sampling_rate w, highres w, displacement_data w, other_keys w with
      | None, [], None, false => true
      | _, _, _, _ => false
      end
  end.

(** The argument [filter_type]: a pair, a string, or [None] (any other
    hashable value behaves as [None]). *)
Inductive filter_choice : Type :=
| Custom (low_freq high_freq : option float)
| Named (name : string)
| Unnamed.

Inductive filter_name : Type :=
| Custom_name (low_freq high_freq : option float)
| Preset_name (name : string)
| Broadband_name.

Record filter_info : Type := {
  info_type : filter_name;
  info_low_freq : option float;
  info_high_freq : option float;
  info_sampling_rate : float
}.

(** The values of [filter_status]: ['no_data'], ['success'], the reason
    of a failed filter, or ['error: ...'] after an exception. *)
Inductive filter_status : Type :=
| no_data
| status_success
| status_reason (r : reason)
| status_error (e : exn).

Record noise : Type := {
  noise_level : float;
  signal_level : float;
  snr : float
}.

(** The entries of one component in the dictionaries [original_data],
    [filtered_data], [spike_info], [noise_info] and [filter_status]. *)
Record channel_result : Type := {
  original_data : option (list float);
  filtered_data : option (list float);
  spike_info : option nat;
  noise_info : option noise;
  status_of : filter_status
}.

Record processed : Type := {
  filter_info_of : filter_info;
  used_highres : bool;
  channel : channel_name -> channel_result
}.

Section Engine.

Variable L : lib.

(** *** [design_custom_filter] *)

Inductive design : Type :=
| No_filter
| Unknown_filter
| Band (coeffs : ba L) (filter_type : string) (low_freq high_freq : float).

Definition design_custom_filter (filter_type : string) (sampling_rate : float)
    (order : option nat) : result design :=
  let order := match order with None => 4%nat | Some o => o end in
  let nyquist := sampling_rate / lit 2 1 in
  match lookup filter_type filter_bands with
  | Some None => Ok No_filter
  | None => Ok Unknown_filter
  | Some (Some (low_freq, high_freq)) =>
      let high_freq :=
        if high_freq >? nyquist * lit 95 100 then nyquist * lit 9 10
        else high_freq in
      wl <- py_div low_freq nyquist ;;
      wh <- py_div high_freq nyquist ;;
      c <- butter L order [wl; wh] band ;;
      Ok (Band c filter_type low_freq high_freq)
  end.

(** *** [process_waveform_with_filtering] *)

(** [np.std(a)]; NaN on an empty array. *)
Definition std (a : list float) : float :=
  let mean := fold_left fadd a (of_Z 0) / len a in
  let deviations := map (fun x => (x - mean) * (x - mean)) a in
  sqrt L (fold_left fadd deviations (of_Z 0) / len a).

(** Lines 264-279: the cutoffs and the name of the filter. *)
Definition filter_parameters (filter_type : filter_choice)
    : filter_name * option float * option float :=
  match filter_type with
  | Custom low_freq high_freq => (Custom_name low_freq high_freq, low_freq, high_freq)
  | Named name =>
      match lookup name filter_bands with
      | Some None => (Broadband_name, None, None)
      | Some (Some (low_freq, high_freq)) =>
          (Preset_name name, Some low_freq, Some high_freq)
      | None => (Broadband_name, None, None)
      end
  | Unnamed => (Broadband_name, None, None)
  end.

(** Lines 295-306: the first high-resolution entry of the component, else
    its entry of [displacement_data]. *)
Fixpoint first_present (suffixes : list string) (d : list (string * list float))
    : option (list float) :=
  match suffixes with
  | [] => None
  | suffix :: rest =>
      match lookup suffix d with
      | Some data => Some data
      | None => first_present rest d
      end
  end.

Definition find_data (w : waveform) (has_highres : bool) (c : channel_name)
    : option (list float) :=
  let data :=
    if has_highres then first_present (component_mapping c) (highres w)
    else None in
  match data with
  | Some data => Some data
  | None =>
      match displacement_data w with
      | Some d => lookup (component_key c) d
      | None => None
      end
  end.

(** Lines 354-364. *)
Definition noise_of (filtered_data : list float) (sampling_rate : float)
    : result noise :=
  k <- py_int (lit 5 1 * sampling_rate) ;;
  let noise_level := std (slice_to filtered_data k) in
  signal_level <- NumPy.max (NumPy.abs filtered_data) ;;
  let snr :=
    if noise_level >? of_Z 0 then signal_level / noise_level else of_Z 0 in
  Ok {| noise_level := noise_level; signal_level := signal_level; snr := snr |}.

(** One round of the loop over the components, lines 289-371.  On arrays
    of floats only the noise estimate can raise; the handler then records
    the error and puts the original samples back as filtered data. *)
Definition process_component (w : waveform) (has_highres : bool)
    (sampling_rate : float) (low_freq high_freq : option float)
    (remove_spikes_flag calculate_noise : bool) (c : channel_name)
    : channel_result :=
  match find_data w has_highres c with
  | None =>
      {| original_data := None; filtered_data := None; spike_info := None;
         noise_info := None; status_of := no_data |}
  | Some data =>
      let original := data in
      let '(data, spike_count) :=
        if remove_spikes_flag
        then let '(data_cleaned, spike_count) := remove_spikes data None in
             (data_cleaned, Some spike_count)
        else (data, None) in
      let '(filtered, status) :=
        match low_freq, high_freq with
        | None, None => (data, status_success)
        | _, _ =>
            let '(filtered, filter_result) :=
              apply_bandpass_filter L data sampling_rate low_freq high_freq None in
            (filtered,
             match filter_result with
             | Success _ _ => status_success
             | Failure r => status_reason r
             end)
        end in
      let succeeded :=
        match status with status_success => true | _ => false end in
      if calculate_noise && succeeded then
        match noise_of filtered sampling_rate with
        | Ok n =>
            {| original_data := Some original; filtered_data := Some filtered;
               spike_info := spike_count; noise_info := Some n;
               status_of := status |}
        | Raise e =>
            {| original_data := Some original; filtered_data := Some original;
               spike_info := spike_count; noise_info := None;
               status_of := status_error e |}
        end
      else
        {| original_data := Some original; filtered_data := Some filtered;
           spike_info := spike_count; noise_info := None;
           status_of := status |}
  end.

Definition process_waveform_with_filtering (waveform_data : option waveform)
    (filter_type : filter_choice) (remove_spikes_flag calculate_noise : bool)
    : option processed :=
  match waveform_data with
  | None => None
  | Some w =>
      if falsy waveform_data then None
      else
        let has_highres :=
          match highres w with [] => false | _ => true end in
        let sampling_rate :=
          match wf_sampling_rate w with Some r => r | None => lit 100 1 end in
        let '(filter_name, low_freq, high_freq) := filter_parameters filter_type in
        Some {| filter_info_of :=
                  {| info_type := filter_name;
                     info_low_freq := low_freq;
                     info_high_freq := high_freq;
                     info_sampling_rate := sampling_rate |};
                used_highres := has_highres;
                channel :=
                  process_component w has_highres sampling_rate low_freq
                    high_freq remove_spikes_flag calculate_noise |}
  end.

End Engine.

End Pipeline.

(** ** data_manager.py: cache helpers, earthquake catalog, export rows *)

Module Cache.

Local Open Scope Q_scope.

Section Store.

(** Keys and cached values; times are seconds. *)
Variables K D : Type.
Variable eqb : K -> K -> bool.

(** One cache, [{key: (data, timestamp)}], in insertion order. *)
Definition cache : Type := list (K * (D * Q)).

(** The four caches of [st.session_state]; an absent one is [None]. *)
Inductive cache_type : Type :=
| earthquake_cache
| station_cache
| waveform_cache
| inventory_cache.

Definition cache_type_eqb (a b : cache_type) : bool :=
  match a, b with
  | earthquake_cache, earthquake_cache
  | station_cache, station_cache
  | waveform_cache, waveform_cache
  | inventory_cache, inventory_cache => true
  | _, _ => false
  end.

Definition session_state : Type := cache_type -> option cache.

(** [st.session_state.get(cache_type, {})] *)
Definition get (st : session_state) (t : cache_type) : cache :=
  match st t with Some c => c | None => [] end.

(** [st.session_state[cache_type] = c] and [del st.session_state[cache_type]] *)
Definition set (st : session_state) (t : cache_type) (c : option cache)
    : session_state :=
  fun t' => if cache_type_eqb t t' then c else st t'.

(** [cache[key]] *)
Fixpoint lookup (key : K) (c : cache) : option (D * Q) :=
  match c with
  | [] => None
  | (k, v) :: rest => if eqb key k then Some v else lookup key rest
  end.

(** [cache[key] = v]: a present key keeps its place, a new one goes last. *)
Fixpoint store (key : K) (v : D * Q) (c : cache) : cache :=
  match c with
  | [] => [(key, v)]
  | (k, w) :: rest =>
      if eqb key k then (k, v) :: rest else (k, w) :: store key v rest
  end.

(** [_check_cache(self, cache_type, key, max_age_hours=24)], with the
    reading [now] of [datetime.now()]. *)
Definition _check_cache (st : session_state) (t : cache_type) (key : K)
    (max_age_hours : option Q) (now : Q) : option D :=
  let max_age_hours := match max_age_hours with Some h => h | None => 24 end in
  match lookup key (get st t) with
  | Some (data, timestamp) =>
      let age := (now - timestamp) / 3600 in
      if Qltb age max_age_hours then Some data else None
  | None => None
  end.

(** [sorted(cache.items(), key=lambda x: x[1][1], reverse=True)]: newest
    first, entries of equal age in their former order. *)
Definition newest_first (x y : K * (D * Q)) : bool :=
  Qle_bool (snd (snd y)) (snd (snd x)).

(** [_clean_cache(self, cache_type, max_entries=50)] *)
Definition _clean_cache (st : session_state) (t : cache_type)
    (max_entries : option nat) : session_state :=
  let max_entries := match max_entries with Some n => n | None => 50%nat end in
  let c := get st t in
  if (max_entries <? length c)%nat then
    let sorted_items := NumPy.sort_by newest_first c in
    set st t (Some (firstn max_entries sorted_items))
  else st.

(** [_update_cache(self, cache_type, key, data)] *)
Definition _update_cache (st : session_state) (t : cache_type) (key : K)
    (data : D) (now : Q) : session_state :=
  let st := match st t with None => set st t (Some []) | Some _ => st end in
  let st := set st t (Some (store key (data, now) (get st t))) in
  _clean_cache st t None.

Definition cache_types : list cache_type :=
  [earthquake_cache; station_cache; waveform_cache; inventory_cache].

(** [clear_all_cache(self)] *)
Definition clear_all_cache (st : session_state) : session_state :=
  fold_left (fun st t => match st t with Some _ => set st t None | None => st end)
            cache_types st.

(** [get_cache_stats(self)] *)
Definition get_cache_stats (st : session_state) : list (cache_type * nat) :=
  map (fun t => (t, length (get st t))) cache_types.

End Store.

End Cache.

Module Catalog.

Local Open Scope Q_scope.

(** The attributes of ObsPy's event objects that the code reads; times
    are seconds, depths metres. *)
Record origin : Type := {
  origin_time : Q;
  origin_latitude : option Q;
  origin_longitude : option Q;
  origin_depth : option Q
}.

Record magnitude : Type := {
  mag : option Q;
  mag_type : option string
}.

Record event : Type := {
  preferred_origin : option origin;
  origins : list origin;
  preferred_magnitude : option magnitude;
  magnitudes : list magnitude;
  event_descriptions : list string;
  resource_id : string
}.

(** The text of ['location']: a description, or the coordinates that are
    formatted into it. *)
Inductive location : Type :=
| Described (text : string)
| Coordinates (lat lon : Q).

(** The dictionary of one earthquake; ['time'] is the instant whose ISO
    string the code stores, ['depth'] is in kilometres. *)
Record eq_dict : Type := {
  time : Q;
  latitude : Q;
  longitude : Q;
  depth : Q;
  magnitude_value : Q;
  magnitude_type : string;
  location_of : location;
  event_id : string
}.

(** [l[0]]; [IndexError] is [OtherError]. *)
Definition first {A : Type} (l : list A) : result A :=
  match l with
  | x :: _ => Ok x
  | [] => Raise OtherError
  end.

(** [x or y] where [x] is an object or [None] *)
Definition py_or {A : Type} (x : option A) (y : result A) : result A :=
  match x with
  | Some v => Ok v
  | None => y
  end.

(** [float(x)] and [f'{x:.2f}'] for a number or [None] *)
Definition to_float (x : option Q) : result Q :=
  match x with
  | Some q => Ok q
  | None => Raise TypeError
  end.

(** [s.split('/')[-1]] *)
Fixpoint last_segment_from (acc s : string) : string :=
  match s with
  | EmptyString => acc
  | String c rest =>
      if Ascii.eqb c "/" then last_segment_from EmptyString rest
      else last_segment_from (acc ++ String c EmptyString) rest
  end.

Definition last_segment (s : string) : string := last_segment_from EmptyString s.

(** The body of the loop of [_process_catalog], lines 213-234. *)
Definition event_to_dict (event : event) : result eq_dict :=
  origin <- py_or (preferred_origin event) (first (origins event)) ;;
  magnitude <- py_or (preferred_magnitude event) (first (magnitudes event)) ;;
  location <-
    match event_descriptions event with
    | text :: _ => Ok (Described text)
    | [] =>
        lat <- to_float (origin_latitude origin) ;;
        lon <- to_float (origin_longitude origin) ;;
        Ok (Coordinates lat lon)
    end ;;
  lat <- to_float (origin_latitude origin) ;;
  lon <- to_float (origin_longitude origin) ;;
  let depth :=
    match origin_depth origin with
    | Some d => if Qzerob d then 10 else d / 1000
    | None => 10
    end in
  m <- to_float (mag magnitude) ;;
  Ok {| time := origin_time origin;
        latitude := lat;
        longitude := lon;
        depth := depth;
        magnitude_value := m;
        magnitude_type :=
          match mag_type magnitude with
          | None | Some EmptyString => "M"
          | Some t => t
          end;
        location_of := location;
        event_id := last_segment (resource_id event) |}.

(** The sort key [e.preferred_origin().time]. *)
Definition sort_key (e : event) : result Q :=
  match preferred_origin e with
  | Some o => Ok (origin_time o)
  | None => Raise AttributeError
  end.

Fixpoint decorate (catalog : list event) : result (list (Q * event)) :=
  match catalog with
  | [] => Ok []
  | e :: rest =>
      k <- sort_key e ;;
      keyed <- decorate rest ;;
      Ok ((k, e) :: keyed)
  end.

(** [reverse=True]: latest first, equal keys in their former order. *)
Definition later_first (x y : Q * event) : bool := Qle_bool (fst y) (fst x).

Definition _process_catalog (catalog : list event) : result (list eq_dict) :=
  keyed <- decorate catalog ;;
  let sorted_events := map snd (NumPy.sort_by later_first keyed) in
  Ok (flat_map
        (fun event =>
           match event_to_dict event with
           | Ok eq_dict => [eq_dict]
           | Raise _ => []
           end)
        sorted_events).

(** *** [fetch_latest_earthquakes] *)

Record request : Type := {
  magnitude_range : Q * Q;
  year_range : option (Z * Z);
  depth_range : Q * Q;
  limit : Z;
  days : option Z
}.

(** The arguments of [client.get_events]. *)
Record query : Type := {
  starttime : Q;
  endtime : Q;
  minmagnitude : Q;
  maxmagnitude : Q;
  mindepth : Q;
  maxdepth : Q;
  query_limit : Z
}.

(** The cache key: the request and the two ends of the time frame, which
    the code formats into one string. *)
Definition cache_key : Type := ((Q * Q) * option (Z * Z) * (Q * Q) * Z * Q * Q)%type.

Definition pair_eqb (a b : Q * Q) : bool :=
  Qeq_bool (fst a) (fst b) && Qeq_bool (snd a) (snd b).

Definition years_eqb (a b : option (Z * Z)) : bool :=
  match a, b with
  | None, None => true
  | Some (a0, a1), Some (b0, b1) => (a0 =? b0)%Z && (a1 =? b1)%Z
  | _, _ => false
  end.

Definition key_eqb (a b : cache_key) : bool :=
  let '(am, ay, ad, al, as_, ae) := a in
  let '(bm, by_, bd, bl, bs, be) := b in
  pair_eqb am bm && years_eqb ay by_ && pair_eqb ad bd && (al =? bl)%Z
  && Qeq_bool as_ bs && Qeq_bool ae be.

(** The clock and the FDSN client. *)
Record services : Type := {
  (* [UTCDateTime.now()] *)
  utc_now : Q;
  (* [UTCDateTime(year, month, day, hour, minute, second)] *)
  utc_of_date : Z -> Z -> Z -> Z -> Z -> Z -> result Q;
  (* [datetime.now()] as read by [_check_cache] and by [_update_cache] *)
  check_now : Q;
  update_now : Q;
  (* [self.client.get_events(...)] *)
  get_events : query -> result (list event)
}.

Definition state : Type := Cache.session_state cache_key (list eq_dict).

Section Fetch.

Variable S : services.

(** Lines 148-156: the time frame. *)
Definition time_frame (r : request) : result (Q * Q) :=
  let truthy_days :=
    match days r with Some d => negb (d =? 0)%Z | None => false end in
  if truthy_days then
    let endtime := utc_now S in
    Ok (endtime - inject_Z (match days r with Some d => d | None => 0 end * 86400),
        endtime)
  else
    match year_range r with
    | Some (first_year, last_year) =>
        starttime <- utc_of_date S first_year 1 1 0 0 0 ;;
        endtime <- utc_of_date S last_year 12 31 23 59 59 ;;
        Ok (starttime, endtime)
    | None =>
        let endtime := utc_now S in
        Ok (endtime - inject_Z (180 * 86400), endtime)
    end.

(** The [try] block, lines 147-186, with the session state passed
    through. *)
Definition fetch_try (st : state) (r : request) : result (list eq_dict * state) :=
  '(starttime, endtime) <- time_frame r ;;
  let key : cache_key :=
    (magnitude_range r, year_range r, depth_range r, limit r, starttime, endtime) in
  let cached :=
    Cache._check_cache key_eqb st (Cache.earthquake_cache) key None (check_now S) in
  match cached with
  | Some (e :: rest) => Ok (e :: rest, st)
  | _ =>
      catalog <-
        get_events S
          {| starttime := starttime;
             endtime := endtime;
             minmagnitude := fst (magnitude_range r);
             maxmagnitude := snd (magnitude_range r);
             mindepth := fst (depth_range r);
             maxdepth := snd (depth_range r);
             query_limit := limit r |} ;;
      earthquakes <- _process_catalog catalog ;;
      let st :=
        match earthquakes with
        | [] => st
        | _ => Cache._update_cache key_eqb st (Cache.earthquake_cache) key
                 earthquakes (update_now S)
        end in
      Ok (earthquakes, st)
  end.

Definition fetch_latest_earthquakes (st : state) (r : request)
    : list eq_dict * state :=
  match fetch_try st r with
  | Ok out => out
  | Raise _ => ([], st)
  end.

End Fetch.

End Catalog.

Module Excel.

Local Open Scope float_scope.

(** [list(range(start, stop, step))] for a positive step; [fuel] bounds
    the number of elements. *)
Fixpoint range_from (fuel start stop step : nat) : list nat :=
  match fuel with
  | O => []
  | S fuel' =>
      if (start <? stop)%nat
      then start :: range_from fuel' (start + step) stop step
      else []
  end.

Definition range (start stop step : nat) : list nat :=
  range_from stop start stop step.

(** Lines 1240-1249 of [export_to_excel]: the samples that are written. *)
Definition indices (samples : nat) (max_samples : Z) : list nat :=
  if ((Z.of_nat samples >? max_samples) && (max_samples >? 0))%Z then
    let factor := (samples / Z.to_nat max_samples)%nat in
    firstn (Z.to_nat max_samples) (range 0 samples factor)
  else seq 0 samples.

(** Lines 1251-1291: the rows of the time series sheet, each with its
    time cell (when the sample exists) and one cell per data column; a
    column shorter than the index gives [0.0]. *)
Definition timeseries_rows (time_array : list float) (columns : list (list float))
    (max_samples : Z) : list (option float * list float) :=
  map (fun idx =>
         (nth_error time_array idx,
          map (fun data_array =>
                 match nth_error data_array idx with
                 | Some v => v
                 | None => of_Z 0
                 end)
              columns))
      (indices (length time_array) max_samples).

End Excel.

(** ** Vocabulary of the further properties *)

Section ShapeVocabulary.

Import DataManager.
Local Open Scope Q_scope.

(** The distance lies in the requested window, up to the rounding to one
    decimal. *)
Definition in_window (lo hi : Q) (s : station) : Prop :=
  lo - (1 # 20) <= distance_km s <= hi + (1 # 20).

(** Every sample is a finite number. *)
Definition finite (a : list float) : Prop := Forall (fun x => isfinite x = true) a.

End ShapeVocabulary.

(** ** data_manager.py: [_validate_stations_parallel] with its clock

    The probes run in the worker threads of the pool, whatever the loop of
    the caller does.  Times are seconds after the submission.  The
    environment gives the submitted futures in their order of completion,
    each with the time at which it completes; [as_completed] hands a future
    to the loop at that time, and leaving the [with] block waits for the
    pool. *)

Module Concurrent.

Import DataManager.
Local Open Scope Q_scope.

Record progress : Type := {
  validated : list station;
  verified_count : nat;
  (* the futures that the loop has taken from [as_completed] *)
  consumed : nat;
  (* the time at which the loop stands *)
  clock : Q
}.

(** Waiting until [t] at time [now]. *)
Definition wait_until (now t : Q) : Q := if Qle_bool now t then t else now.

(** The loop [for future in as_completed(futures)], lines 683-703: the
    iterator blocks until the next future has completed; the body begins
    with the test of the early stop. *)
Fixpoint collect (completed : list (Q * result station)) (target_count : nat)
    (p : progress) : progress :=
  match completed with
  | [] => p
  | (finished_at, future) :: rest =>
      let p :=
        {| validated := validated p;
           verified_count := verified_count p;
           consumed := S (consumed p);
           clock := wait_until (clock p) finished_at |} in
      if (target_count * 2 <=? verified_count p)%nat then p
      else
        match future with
        | Ok result =>
            collect rest target_count
              {| validated := validated p ++ [result];
                 verified_count :=
                   if verified result then S (verified_count p)
                   else verified_count p;
                 consumed := consumed p;
                 clock := clock p |}
        | Raise _ => collect rest target_count p
        end
  end.

(** Leaving [with ThreadPoolExecutor(max_workers=10) as executor] calls
    [executor.shutdown(wait=True)], which returns when every submitted
    probe has completed. *)
Definition shutdown (completed : list (Q * result station)) (now : Q) : Q :=
  fold_left (fun now future => wait_until now (fst future)) completed now.

(** The returned list, with the time at which the loop is left, the number
    of futures it took, and the time at which the function returns. *)
Record outcome : Type := {
  stations_out : list station;
  loop_left_at : Q;
  futures_consumed : nat;
  returned_at : Q
}.

Section Pool.

Variable env : collaborators.

(** [as_completed(futures)] with the completion times. *)
Variable as_completed_at : list (result station) -> list (Q * result station).

Definition _validate_stations_parallel (stations : list station)
    (target_count : nat) : outcome :=
  let futures := map (fun s => Ok (validate_single env s)) stations in
  let completed := as_completed_at futures in
  let p :=
    collect completed target_count
      {| validated := []; verified_count := 0; consumed := 0; clock := 0 |} in
  let exit := shutdown completed (clock p) in
  {| stations_out := sort verified_leb (validated p);
     loop_left_at := clock p;
     futures_consumed := consumed p;
     returned_at := exit |}.

End Pool.

End Concurrent.

Module Connection.

(** What one round of the loop of [connect_to_iris] meets: the
    constructor [Client("IRIS", timeout=30)] raises, the test query
    [get_stations] raises, or both succeed. *)
Inductive attempt_outcome : Type :=
| client_raises
| test_raises
| connected.

(** The state that the method leaves: [self.client] (the attempt that
    built it, if any) and the number of calls of [time.sleep]. *)
Record connection : Type := {
  client : option nat;
  sleeps : nat
}.

Definition max_retries : nat := 3.

(** The loop [for attempt in range(max_retries)] from [attempt] on, with
    [rounds] rounds left. *)
Fixpoint connect_from (outcome : nat -> attempt_outcome) (rounds attempt : nat)
    (c : connection) : bool * connection :=
  match rounds with
  | O => (false, c)
  | S rounds' =>
      match outcome attempt with
      | connected => (true, {| client := Some attempt; sleeps := sleeps c |})
      | failure =>
          let c :=
            match failure with
            | test_raises => {| client := Some attempt; sleeps := sleeps c |}
            | _ => c
            end in
          if (attempt <? max_retries - 1)%nat
          then connect_from outcome rounds' (S attempt)
                 {| client := client c; sleeps := S (sleeps c) |}
          else (false, c)
      end
  end.

(** [connect_to_iris(self)], called from [__init__] right after
    [self.client = None]. *)
Definition connect_to_iris (outcome : nat -> attempt_outcome) : bool * connection :=
  connect_from outcome max_retries 0 {| client := None; sleeps := 0 |}.

End Connection.

Section SearchVocabulary.

Import Catalog.

(** The query that is sent for a request and a time frame, and the key
    under which its result is cached. *)
Definition query_of (r : request) (frame : Q * Q) : query :=
  {| starttime := fst frame;
     endtime := snd frame;
     minmagnitude := fst (magnitude_range r);
     maxmagnitude := snd (magnitude_range r);
     mindepth := fst (depth_range r);
     maxdepth := snd (depth_range r);
     query_limit := limit r |}.

Definition key_of (r : request) (frame : Q * Q) : cache_key :=
  (magnitude_range r, year_range r, depth_range r, limit r, fst frame, snd frame).

End SearchVocabulary.

(** ** Vocabulary of the specification *)

Section SignalVocabulary.

Import SciPy Processor.
Local Open Scope float_scope.

Variable L : lib.

(** [np.max] of a non-empty array. *)
Definition peak (x : list float) : float :=
  fold_left NumPy.maximum (tl x) (hd NaN x).

(** The amplitude of the specification, in micrometres: the larger of the
    vertical peak and the peak of the horizontal vector
    [sqrt(north^2 + east^2)], taken sample by sample. *)
Definition spec_amplitude_um (vert north east : list float) : float :=
  py_max
    (peak (NumPy.abs vert) * of_Z 1000)
    (peak (NumPy.scale
             (map (sqrt L)
                  (NumPy.zip_with fadd (NumPy.square north) (NumPy.square east)))
             (of_Z 1000))).

(** The magnitude of the specification:
    [log10(A / 20) + 1.66 * log10(distance_km / 111.195) + 3.3], plus
    [-0.0035 * (depth_km - 50)] exactly when a depth above 50 km is given,
    rounded to one decimal. *)
Definition spec_ms (A distance_km : float) (depth_km : option float) : float :=
  let ms :=
    log10 L (A / lit 20 1)
    + lit 166 100 * log10 L (distance_km / lit 111195 1000) + lit 33 10 in
  round1
    match depth_km with
    | Some h => if h >? of_Z 50 then ms + lit (-35) 10000 * (h - of_Z 50) else ms
    | None => ms
    end.

(** The value the specification expects at 1500 km for an amplitude of
    [a_um] micrometres. *)
Definition expected_ms (a_um : Z) : float :=
  log10 L (of_Z a_um / lit 20 1)
  + lit 166 100 * log10 L (lit 1500 1 / lit 111195 1000) + lit 33 10.

(** Equality of finite values. *)
Definition same (x y : float) : bool :=
  match x, y with
  | Fin a, Fin b => Qeq_bool a b
  | _, _ => false
  end.

(** [|x - y| > tol] on finite values. *)
Definition differs_by_more_than (tol : Q) (x y : float) : bool :=
  match x, y with
  | Fin a, Fin b => Qltb tol (Qabs (a - b))
  | _, _ => false
  end.

End SignalVocabulary.

Section DiscoveryVocabulary.

Import DataManager.
Local Open Scope Q_scope.


(** Number of completed probes that report a verified station. *)
Definition count_verified (completed : list (result station)) : nat :=
  length (filter (fun r => match r with Ok s => verified s | Raise _ => false end)
                 completed).

End DiscoveryVocabulary.

(** ** Inputs of the explicit runs *)

Section SignalInputs.

Local Open Scope float_scope.

(** Twenty finite samples, 1.0 to 20.0. *)
Definition ramp20 : list float := map (fun k => of_Z (Z.of_nat k)) (seq 1 20).

(** Seven samples with one spike of 100 among values between -3 and 12. *)
Definition spiky : list float := map of_Z [4; 3; 12; 3; 100; -3; -3]%Z.

(** A trace of three samples, in mm. *)
Definition short_trace : list float := map of_Z [3; -4; 1]%Z.

(** A trace of three samples of which two are NaN. *)
Definition gappy_trace : list float := [NaN; NaN; lit 1 1].

(** [sin(2 pi k / 20)] for [k = 0 .. 20], in millionths. *)
Definition sine_table : list Z :=
  [ 0; 309017; 587785; 809017; 951057; 1000000; 951057; 809017; 587785; 309017;
    0; -309017; -587785; -809017; -951057; -1000000; -951057; -809017; -587785;
    -309017; 0 ]%Z.

(** One period of a 20 s sinusoid sampled at 1 Hz, of amplitude [a_um]
    micrometres, in mm. *)
Definition sinusoid (a_um : Z) : list float :=
  map (fun s => Fin ((a_um * s # 1000000) / 1000)) sine_table.

(** Two periods of the same sinusoid, 41 samples. *)
Definition two_periods (a_um : Z) : list float :=
  sinusoid a_um ++ tl (sinusoid a_um).

End SignalInputs.

Section DiscoveryInputs.

Import DataManager.
Local Open Scope Q_scope.
Local Open Scope string_scope.
Local Open Scope list_scope.

(** An earthquake on the equator at the Greenwich meridian. *)
Definition equator_quake : earthquake :=
  {| eq_latitude := Some 0; eq_longitude := Some 0;
     eq_depth := Some 10; eq_time := Some 0%Z |}.

Definition equator_station (code_lon : string * Z) : inv_station :=
  {| inv_code := fst code_lon;
     inv_latitude := 0;
     inv_longitude := inject_Z (snd code_lon);
     channels := [ {| channel_code := "BHZ"; channel_sample_rate := 40 |} ];
     start_year := None |}.

(** Fifteen stations of the network IU at longitudes 20 to 34 degrees and
    six stations of the network XX at longitudes 10 to 15 degrees, all on
    the equator. *)
Definition equator_inventory : inventory :=
  [ {| net_code := "IU";
       net_stations := map equator_station
         [ ("A01", 20); ("A02", 21); ("A03", 22); ("A04", 23); ("A05", 24);
           ("A06", 25); ("A07", 26); ("A08", 27); ("A09", 28); ("A10", 29);
           ("A11", 30); ("A12", 31); ("A13", 32); ("A14", 33); ("A15", 34) ]%Z |};
    {| net_code := "XX";
       net_stations := map equator_station
         [ ("B01", 10); ("B02", 11); ("B03", 12); ("B04", 13); ("B05", 14);
           ("B06", 15) ]%Z |} ].

(** A world in which the catalog answers with [equator_inventory], every
    station but A15 has data, distances along the equator are 111319.49 m
    per degree, and the probes complete in the order of their submission. *)
Definition equator_world : collaborators :=
  {| inventory_cache := None;
     get_stations := Ok equator_inventory;
     get_waveforms := fun net sta chan =>
       if String.eqb sta "A15" then Ok 0%nat else Ok 3%nat;
     gps2dist_azimuth := fun lat1 lon1 lat2 lon2 =>
       Ok ((11131949 # 100) * Qabs (lon2 - lon1), 90);
     as_completed := fun futures => futures;
     year_of := fun _ => 2024%Z |}.

(** The three nearest IU stations of [equator_inventory], as the catalog
    step delivers them. *)
Definition three_stations : list station :=
  _process_inventory_to_stations equator_world
    [ {| net_code := "IU";
         net_stations :=
           map equator_station [("A01", 20); ("A02", 21); ("A03", 22)]%Z |} ]
    0 0 0%Z 1000 5000.

(** What the caller sees of a station: code, status, and distance in tenths
    of a kilometre. *)
Definition summary (s : station) : string * option bool * Z :=
  (station_code s, data_verified s, Qfloor (distance_km s * 10)).

(** An earthquake in south-eastern Turkey (37.17 N, 37.03 E). *)
Definition turkey_quake : earthquake :=
  {| eq_latitude := Some (3717 # 100); eq_longitude := Some (3703 # 100);
     eq_depth := Some 10; eq_time := Some 0%Z |}.

(** Great-circle distances in metres from [turkey_quake] to the seven
    stations of the fallback table, by station coordinates. *)
Definition turkey_distances : list (Q * Q * Q) :=
  [ (6976 # 100, 2701 # 100, 3673279); (4833 # 100, 833 # 100, 2629877);
    (4877 # 100, 919 # 100, 2585343); (5511 # 100, 1491 # 100, 2600726);
    (5568 # 100, 1243 # 100, 2761991); (6220 # 100, 522 # 100, 3531476);
    (6451 # 100, 2104 # 100, 3219271) ].

Definition turkey_gps2dist (lat1 lon1 lat2 lon2 : Q) : result (Q * Q) :=
  match find (fun row => Qeq_bool (fst (fst row)) lat2 && Qeq_bool (snd (fst row)) lon2)
             turkey_distances with
  | Some row => Ok (snd row, 0)
  | None => Raise ValueError
  end.

(** A world in which the catalog query raises. *)
Definition offline_world : collaborators :=
  {| inventory_cache := None;
     get_stations := Raise OtherError;
     get_waveforms := fun net sta chan => Raise OtherError;
     gps2dist_azimuth := turkey_gps2dist;
     as_completed := fun futures => futures;
     year_of := fun _ => 2023%Z |}.

(** A world in which the catalog answers with one station that has no
    seismic channel. *)
Definition empty_world : collaborators :=
  {| inventory_cache := None;
     get_stations :=
       Ok [ {| net_code := "XX";
               net_stations :=
                 [ {| inv_code := "LOG1";
                      inv_latitude := 40; inv_longitude := 20;
                      channels := [ {| channel_code := "LOG";
                                       channel_sample_rate := 0 |} ];
                      start_year := None |} ] |} ];
     get_waveforms := fun net sta chan => Raise OtherError;
     gps2dist_azimuth := turkey_gps2dist;
     as_completed := fun futures => futures;
     year_of := fun _ => 2023%Z |}.

End DiscoveryInputs.

(** ** Inputs of the further properties *)

Section PipelineInputs.

Import Pipeline.
Local Open Scope float_scope.

(** Parsers that accept nothing: no string is a time. *)
Definition strict_parsers : parsers :=
  {| utc_of_string := fun _ => Raise ValueError;
     re_search := fun _ => None;
     int_params := fun _ => Raise ValueError;
     utc_of_params := fun _ => Raise ValueError |}.

(** A record at 20 Hz with a high-resolution vertical trace and the three
    components of displacement. *)
Definition ramp_record : waveform :=
  {| wf_sampling_rate := Some (lit 20 1);
     highres := [("Z"%string, ramp20)];
     displacement_data :=
       Some [("north"%string, spiky); ("vertical"%string, short_trace)];
     other_keys := true |}.

End PipelineInputs.

Section SearchInputs.

Import Catalog.
Local Open Scope Q_scope.

(** Two located events and one without a preferred origin. *)
Definition located (seconds : Q) (metres : option Q) (id : string) : event :=
  {| preferred_origin :=
       Some {| origin_time := seconds; origin_latitude := Some 38;
               origin_longitude := Some 37; origin_depth := metres |};
     origins := [];
     preferred_magnitude := Some {| mag := Some (78 # 10); mag_type := Some "Mw"%string |};
     magnitudes := [];
     event_descriptions := ["TURKEY"%string];
     resource_id := id |}.

Definition orphan : event :=
  {| preferred_origin := None;
     origins := [ {| origin_time := 50; origin_latitude := Some 1;
                     origin_longitude := Some 2; origin_depth := Some 5000 |} ];
     preferred_magnitude := Some {| mag := Some 6; mag_type := None |};
     magnitudes := [];
     event_descriptions := [];
     resource_id := "smi:local/orphan"%string |}.

Definition two_quakes : list event :=
  [ located 100 (Some 0) "smi:service.iris.edu/fdsnws/event/1/query?eventid=11";
    located 200 (Some 35000) "smi:service.iris.edu/fdsnws/event/1/query?eventid=12" ]%string.

(** A client that answers every query with the same catalog, at the given
    clock readings. *)
Definition answering (catalog : list event) (now stamp : Q) : services :=
  {| utc_now := now;
     utc_of_date := fun year month day _ _ _ =>
       Ok (inject_Z (year * 372 + month * 31 + day) * 86400);
     check_now := stamp;
     update_now := stamp;
     get_events := fun _ => Ok catalog |}.

(** A client that is out of reach. *)
Definition unreachable (now stamp : Q) : services :=
  {| utc_now := now;
     utc_of_date := fun year month day _ _ _ =>
       Ok (inject_Z (year * 372 + month * 31 + day) * 86400);
     check_now := stamp;
     update_now := stamp;
     get_events := fun _ => Raise OtherError |}.

Definition fresh_session : state := fun _ => None.

Definition by_years : request :=
  {| magnitude_range := (6, 10); year_range := Some (2023, 2023)%Z;
     depth_range := (0, 700); limit := 100; days := None |}.

Definition by_days : request :=
  {| magnitude_range := (6, 10); year_range := None;
     depth_range := (0, 700); limit := 100; days := Some 30%Z |}.

End SearchInputs.

Section PoolInputs.

Import DataManager.
Local Open Scope Q_scope.
Local Open Scope string_scope.
Local Open Scope list_scope.



End PoolInputs.

(** * Properties *)

Unset Implicit Arguments.

(** ** Facts on the numeric model *)

Section FloatFacts.

Local Open Scope Q_scope.

Lemma Qltb_true (x y : Q) : Qltb x y = true <-> x < y.
Proof.
  unfold Qltb. rewrite negb_true_iff.
  split; intro H.
  - apply Qnot_le_lt. intro Hle. apply Qle_bool_iff in Hle. congruence.
  - destruct (Qle_bool y x) eqn:E; trivial.
    apply Qle_bool_iff in E. apply Qle_not_lt in E. contradiction.
Qed.

Lemma Qltb_false (x y : Q) : Qltb x y = false <-> y <= x.
Proof.
  unfold Qltb. rewrite negb_false_iff. apply Qle_bool_iff.
Qed.

Lemma Qle_bool_false (x y : Q) : Qle_bool x y = false <-> y < x.
Proof.
  rewrite <- Qltb_true. unfold Qltb. now rewrite negb_true_iff.
Qed.

Lemma Qle_bool_total (x y : Q) : Qle_bool x y = false -> Qle_bool y x = true.
Proof.
  intro H. apply Qle_bool_false in H. apply Qle_bool_iff. now apply Qlt_le_weak.
Qed.

Lemma Qle_bool_trans (x y z : Q) :
  Qle_bool x y = true -> Qle_bool y z = true -> Qle_bool x z = true.
Proof.
  rewrite !Qle_bool_iff. apply Qle_trans.
Qed.

(** A positive number is not [<= 0]. *)
Lemma positive_not_le_zero (x : float) :
  fltb (of_Z 0) x = true -> fleb x (of_Z 0) = false.
Proof.
  destruct x; simpl; try congruence.
  unfold Qltb. now rewrite negb_true_iff.
Qed.

(** If [n <= h <= l] and [l] is positive then [0.95 * n <= l]. *)
Lemma scaled_nyquist_below (n h l : float) :
  fltb (of_Z 0) l = true ->
  fleb h l = true ->
  fleb n h = true ->
  fleb (fmul n (lit 95 100)) l = true.
Proof.
  destruct n as [n| | |], h as [h| | |], l as [l| | |];
    simpl; try congruence; intros Hpos Hhl Hnh.
  apply Qltb_true in Hpos.
  apply Qle_bool_iff in Hhl, Hnh. apply Qle_bool_iff.
  unfold inject_Z in Hpos. lra.
Qed.

End FloatFacts.

(** ** The band filter *)

Section BandFilter.

Import SciPy Processor.
Local Open Scope float_scope.

Variable L : lib.

(** [len(clean) < len(data) * 0.5] compares twice the one length with the
    other. *)
Lemma half_length_test (a b : list float) :
  (len a <? len b * lit 5 10) = (2 * length a <? length b)%nat.
Proof.
  unfold len, of_Z, lit, fmul, fltb.
  destruct (Nat.ltb_spec (2 * length a) (length b)) as [E|E].
  - apply Qltb_true. unfold Qlt. simpl. lia.
  - apply Qltb_false. unfold Qle. simpl. lia.
Qed.

(** The outcome of [run_filter] is a success of the requested kind, one of
    the two filter failures, or an exception other than [ValueError]. *)
Lemma run_filter_cases (c : ba L) (data : list float) (ft : filter_type)
    (p : parameters) :
  (exists y, filtfilt L c data = Ok y /\
             existsb isnan y || existsb isinf y = false /\
             run_filter L c data ft p = Ok (y, Success ft p)) \/
  run_filter L c data ft p = Ok (data, Failure filter_produced_invalid) \/
  run_filter L c data ft p = Ok (data, Failure filter_error) \/
  (exists e, run_filter L c data ft p = Raise e).
Proof.
  unfold run_filter.
  destruct (filtfilt L c data) as [y|e].
  - destruct (existsb isnan y || existsb isinf y) eqn:E.
    + right; left; reflexivity.
    + left; exists y; auto.
  - destruct e; try (right; right; right; eexists; reflexivity).
    right; right; left; reflexivity.
Qed.

(** An explicit band request with [low >= high], seen from the point where
    the filter is chosen. *)
Lemma design_rejects_inverted_band (data : list float) (sr lf hf : float) (n : nat) :
  (of_Z 0 <? lf) = true ->
  (lf >=? hf) = true ->
  design_and_filter L data sr (Some lf) (Some hf) n =
    Ok (data, Failure (if hf >=? sr / lit 2 1 then frequency_too_high else invalid_band)).
Proof.
  intros Hpos Hinv.
  unfold design_and_filter.
  rewrite (positive_not_le_zero _ Hpos).
  destruct (hf >=? sr / lit 2 1) eqn:Hny.
  - unfold fgeb in *.
    now rewrite (scaled_nyquist_below _ _ _ Hpos Hinv Hny).
  - now rewrite Hinv.
Qed.

End BandFilter.

Section BandFilterOutcome.

Import SciPy Processor.
Local Open Scope float_scope.

Variable L : lib.

(** What [run_filter] hands back: the samples it was given, or the output of
    [filtfilt] on them. *)
Lemma run_filter_output (c : ba L) (data : list float) (ft : filter_type)
    (p : parameters) (out : list float) (st : status) :
  run_filter L c data ft p = Ok (out, st) ->
  (out = data /\ success st = false) \/
  (filtfilt L c data = Ok out /\ st = Success ft p).
Proof.
  unfold run_filter.
  destruct (filtfilt L c data) as [y|e].
  - destruct (existsb isnan y || existsb isinf y); intro H; inversion H; auto.
  - destruct e; intro H; inversion H; auto.
Qed.

Ltac branch_output :=
  match goal with
  | |- context [Py.bind (py_div ?a ?b) _] =>
      destruct (py_div a b); simpl; [branch_output | trivial]
  | |- context [Py.bind (butter ?l ?n ?w ?t) _] =>
      destruct (butter l n w t); simpl; [branch_output | trivial]
  | |- context [run_filter ?l ?c ?d ?ft ?p] =>
      let H := fresh in
      let o := fresh "o" in
      let s := fresh "s" in
      destruct (run_filter l c d ft p) as [[o s]|] eqn:H; [ | trivial ];
      apply run_filter_output in H;
      destruct H as [[-> H]|[H ->]]; [ now destruct s | eauto ]
  | |- _ => trivial
  end.

(** Whatever filter is chosen, a failure hands back the samples that entered
    the design step and a success hands back what [filtfilt] made of them. *)
Lemma design_and_filter_output (data : list float) (sr : float)
    (low high : option float) (n : nat) :
  match design_and_filter L data sr low high n with
  | Ok (out, Failure _) => out = data
  | Ok (out, Success _ _) => exists c, filtfilt L c data = Ok out
  | Raise _ => True
  end.
Proof.
  unfold design_and_filter.
  destruct low as [lf|]; [destruct (lf <=? of_Z 0) | ].
  1, 3: destruct high as [hf|]; [ | trivial ];
        destruct (hf >=? sr / lit 2 1 * lit 95 100); [ trivial | branch_output ].
  destruct high as [hf|]; [destruct (hf >=? sr / lit 2 1) | ].
  1, 3: destruct (lf >=? sr / lit 2 1 * lit 95 100); [ trivial | branch_output ].
  destruct (lf >=? hf); [ trivial | ].
  branch_output.
Qed.

End BandFilterOutcome.

Section BandFilterClaims.

Import SciPy Processor.
Local Open Scope float_scope.

Variable L : lib.

(** Claim C3, as the code has it.  An explicit band request with
    [0 < low] and [low >= high] never returns a success status.  The reason
    is the one of the first check that answers: [empty_data] on an empty
    array, [invalid_data] when more than half of the samples are not finite,
    [frequency_too_high] when [high] is at or above the Nyquist frequency
    (the request is then read as a low-pass request and [low] is above
    0.95 times Nyquist), and [invalid_band] otherwise. *)
Theorem inverted_band_never_succeeds (data : list float) (sr lf hf : float)
    (n : option nat) :
  (of_Z 0 <? lf) = true ->
  (lf >=? hf) = true ->
  snd (apply_bandpass_filter L data sr (Some lf) (Some hf) n) =
    Failure
      (if (length data =? 0)%nat then empty_data
       else if (existsb isnan data || existsb isinf data)
               && (2 * length (filter isfinite data) <? length data)%nat
            then invalid_data
       else if hf >=? sr / lit 2 1 then frequency_too_high
       else invalid_band).
Proof.
  intros Hpos Hinv.
  unfold apply_bandpass_filter.
  destruct (length data =? 0)%nat; [ reflexivity | ].
  rewrite half_length_test.
  destruct (existsb isnan data || existsb isinf data); cbn [andb].
  - destruct (2 * length (filter isfinite data) <? length data)%nat;
      [ reflexivity | ].
    now rewrite design_rejects_inverted_band.
  - now rewrite design_rejects_inverted_band.
Qed.

(** At 20 Hz the request [(low, high) = (1, 11)] is answered by the
    low-pass branch. *)
Lemma lowpass_at_or_above_nyquist (samples : list float) (n : option nat) :
  match snd (apply_bandpass_filter L samples (lit 20 1)
               (Some (lit 1 1)) (Some (lit 11 1)) n) with
  | Success ft p =>
      ft = lowpass /\ low_freq p = Some (lit 1 1) /\ high_freq p = Some (lit 11 1)
  | Failure r =>
      r <> invalid_band /\ r <> frequency_too_high
  end.
Proof.
  assert (Hd : forall d m,
    match design_and_filter L d (lit 20 1) (Some (lit 1 1)) (Some (lit 11 1)) m with
    | Ok (_, Success ft p) =>
        ft = lowpass /\ low_freq p = Some (lit 1 1) /\ high_freq p = Some (lit 11 1)
    | Ok (_, Failure r) => r <> invalid_band /\ r <> frequency_too_high
    | Raise _ => True
    end).
  { intros d m. unfold design_and_filter. simpl.
    destruct (butter L m [Fin (1 / (20 / 2))] low) as [c|]; simpl; [ | trivial ].
    unfold run_filter.
    destruct (filtfilt L c d) as [y|e].
    - destruct (existsb isnan y || existsb isinf y); simpl;
        repeat split; congruence.
    - destruct e; simpl; trivial; split; congruence. }
  unfold apply_bandpass_filter.
  destruct (length samples =? 0)%nat; cbn [snd]; [ split; congruence | ].
  destruct (existsb isnan samples || existsb isinf samples).
  - destruct (len (filter isfinite samples) <? len samples * lit 5 10); cbn [snd];
      [ split; congruence | ].
    match goal with |- context [design_and_filter L ?d ?s ?l ?h ?m] =>
      specialize (Hd d m); destruct (design_and_filter L d s l h m) as [[o [ft p|r]]|]
    end; cbn [snd]; auto; split; congruence.
  - match goal with |- context [design_and_filter L ?d ?s ?l ?h ?m] =>
      specialize (Hd d m); destruct (design_and_filter L d s l h m) as [[o [ft p|r]]|]
    end; cbn [snd]; auto; split; congruence.
Qed.

(** At 20 Hz a request [(1, high)] with [high] from 0.95 times the Nyquist
    frequency up to, but not including, the Nyquist frequency is answered by
    the band-pass branch with the high cutoff set to 0.9 times Nyquist. *)
Lemma clamp_below_nyquist (samples : list float) (n : option nat) (hf : float) :
  (hf >=? lit 20 1 / lit 2 1 * lit 95 100) = true ->
  (hf >=? lit 20 1 / lit 2 1) = false ->
  match snd (apply_bandpass_filter L samples (lit 20 1)
               (Some (lit 1 1)) (Some hf) n) with
  | Success ft p =>
      ft = bandpass /\ low_freq p = Some (lit 1 1) /\
      high_freq p = Some (lit 20 1 / lit 2 1 * lit 9 10)
  | Failure r =>
      r <> invalid_band /\ r <> frequency_too_high
  end.
Proof.
  intros Hclamp Hbelow.
  assert (Hband : (lit 1 1 >=? hf) = false).
  { destruct hf as [h| | |]; try discriminate; try reflexivity.
    unfold fgeb, fleb, fdiv, fmul, lit in *.
    change (Qzerob (2 # 1)) with false in Hclamp. cbv iota in Hclamp.
    apply Qle_bool_iff in Hclamp. apply Qle_bool_false.
    assert (E : ((20 # 1) / (2 # 1) * (95 # 100) == 19 # 2)%Q) by reflexivity.
    rewrite E in Hclamp. lra. }
  assert (Hd : forall d m,
    match design_and_filter L d (lit 20 1) (Some (lit 1 1)) (Some hf) m with
    | Ok (_, Success ft p) =>
        ft = bandpass /\ low_freq p = Some (lit 1 1) /\
        high_freq p = Some (lit 20 1 / lit 2 1 * lit 9 10)
    | Ok (_, Failure r) => r <> invalid_band /\ r <> frequency_too_high
    | Raise _ => True
    end).
  { intros d m. unfold design_and_filter.
    change (lit 1 1 <=? of_Z 0) with false. cbv iota.
    rewrite Hbelow, Hband, Hclamp.
    change (lit 1 1 <=? lit 1 1000) with false. cbv iota.
    destruct (py_div (lit 1 1) (lit 20 1 / lit 2 1)) as [wl|]; cbn [Py.bind]; [ | trivial ].
    destruct (py_div _ _) as [wh|]; cbn [Py.bind]; [ | trivial ].
    destruct (butter L m [wl; wh] band) as [c|]; cbn [Py.bind]; [ | trivial ].
    unfold run_filter.
    destruct (filtfilt L c d) as [y|e].
    - destruct (existsb isnan y || existsb isinf y); cbn;
        repeat split; congruence.
    - destruct e; cbn; trivial; split; congruence. }
  unfold apply_bandpass_filter.
  destruct (length samples =? 0)%nat; cbn [snd]; [ split; congruence | ].
  destruct (existsb isnan samples || existsb isinf samples).
  - destruct (len (filter isfinite samples) <? len samples * lit 5 10); cbn [snd];
      [ split; congruence | ].
    match goal with |- context [design_and_filter L ?d ?s ?l ?h ?m] =>
      specialize (Hd d m); destruct (design_and_filter L d s l h m) as [[o [ft p|r]]|]
    end; cbn [snd]; auto; split; congruence.
  - match goal with |- context [design_and_filter L ?d ?s ?l ?h ?m] =>
      specialize (Hd d m); destruct (design_and_filter L d s l h m) as [[o [ft p|r]]|]
    end; cbn [snd]; auto; split; congruence.
Qed.

(** Claim C2, as the code has it.  With a sampling rate of 20 Hz the cutoff
    [high = 11] is at or above the Nyquist frequency of 10 Hz, so the request
    [(low, high) = (1, 11)] is answered by the low-pass branch: it is never
    rejected as an invalid band or a too high frequency, and a success status
    reports the filter type [lowpass] with [high_freq] left at 11.  The clamp
    to 0.9 times Nyquist (9.0 Hz) is applied, in a band-pass filter, to the
    cutoffs from 0.95 times Nyquist up to but excluding Nyquist. *)
Theorem high_cutoff_near_nyquist (samples : list float) (n : option nat) :
  match snd (apply_bandpass_filter L samples (lit 20 1)
               (Some (lit 1 1)) (Some (lit 11 1)) n) with
  | Success ft p =>
      ft = lowpass /\ low_freq p = Some (lit 1 1) /\ high_freq p = Some (lit 11 1)
  | Failure r =>
      r <> invalid_band /\ r <> frequency_too_high
  end /\
  forall hf : float,
    (hf >=? lit 20 1 / lit 2 1 * lit 95 100) = true ->
    (hf >=? lit 20 1 / lit 2 1) = false ->
    match snd (apply_bandpass_filter L samples (lit 20 1)
                 (Some (lit 1 1)) (Some hf) n) with
    | Success ft p =>
        ft = bandpass /\ low_freq p = Some (lit 1 1) /\
        high_freq p = Some (lit 20 1 / lit 2 1 * lit 9 10)
    | Failure r =>
        r <> invalid_band /\ r <> frequency_too_high
    end.
Proof.
  split.
  - apply lowpass_at_or_above_nyquist.
  - intros hf Hclamp Hbelow. now apply clamp_below_nyquist.
Qed.

(** When the collaborators design and apply the low-pass filter without
    complaint, the request of claim C2 succeeds with the low-pass output. *)
Lemma above_nyquist_request_succeeds (samples y : list float) (c : ba L) :
  samples <> [] ->
  forallb isfinite samples = true ->
  butter L filter_order [lit 1 1 / (lit 20 1 / lit 2 1)] low = Ok c ->
  filtfilt L c samples = Ok y ->
  forallb isfinite y = true ->
  apply_bandpass_filter L samples (lit 20 1) (Some (lit 1 1)) (Some (lit 11 1)) None =
    (y, Success lowpass
          {| low_freq := Some (lit 1 1); high_freq := Some (lit 11 1);
             order := 4; sampling_rate := lit 20 1 |}).
Proof.
  intros Hne Hfin Hb Hf Hy.
  assert (Hclean : forall l, forallb isfinite l = true ->
                   existsb isnan l || existsb isinf l = false).
  { induction l as [|x l IH]; simpl; [ reflexivity | ].
    intro H. apply andb_true_iff in H. destruct H as [Hx Hl].
    apply IH in Hl. apply orb_false_iff in Hl. destruct Hl as [-> ->].
    now destruct x. }
  unfold apply_bandpass_filter.
  destruct samples as [|s0 samples']; [ congruence | ].
  cbn [length Nat.eqb].
  rewrite (Hclean _ Hfin).
  unfold design_and_filter. simpl in Hb |- *.
  rewrite Hb. simpl. unfold run_filter. rewrite Hf.
  now rewrite (Hclean _ Hy).
Qed.

(** Claim C10.  On a non-empty input that holds non-finite samples, at
    least half of the samples being finite, the sequence handed back has the
    length of the finite part of the input, which is shorter than the input;
    on success it is the output of [filtfilt] on the finite samples alone.
    [filtfilt] is assumed to keep the length of its input. *)
Theorem nonfinite_samples_are_dropped (data : list float) (sr : float)
    (low high : option float) (n : option nat) :
  (forall c x y, filtfilt L c x = Ok y -> length y = length x) ->
  data <> [] ->
  forallb isfinite data = false ->
  (length data <= 2 * length (filter isfinite data))%nat ->
  let out := fst (apply_bandpass_filter L data sr low high n) in
  let st := snd (apply_bandpass_filter L data sr low high n) in
  length out = length (filter isfinite data) /\
  (length out < length data)%nat /\
  (success st = true -> exists c, filtfilt L c (filter isfinite data) = Ok out).
Proof.
  intros Hlen Hne Hbad Hhalf.
  assert (Hdirty : existsb isnan data || existsb isinf data = true).
  { clear - Hbad. induction data as [|x l IH]; simpl in *; [ discriminate | ].
    destruct x; simpl in *; auto using orb_true_r. }
  assert (Hshort : (length (filter isfinite data) < length data)%nat).
  { clear - Hbad. induction data as [|x l IH]; simpl in *; [ discriminate | ].
    destruct (isfinite x); simpl in *.
    - apply IH in Hbad. lia.
    - pose proof (filter_length_le isfinite l). lia. }
  unfold apply_bandpass_filter.
  destruct data as [|x0 data']; [ congruence | ].
  cbn [length Nat.eqb].
  rewrite Hdirty, half_length_test.
  destruct (Nat.ltb_spec (2 * length (filter isfinite (x0 :: data')))
                         (length (x0 :: data'))) as [E|E]; [ simpl in *; lia | ].
  pose proof (design_and_filter_output L (filter isfinite (x0 :: data')) sr low high
                (match n with Some o => o | None => filter_order end)) as Hout.
  destruct (design_and_filter L (filter isfinite (x0 :: data')) sr low high
              (match n with Some o => o | None => filter_order end))
    as [[o [ft p|r]]|e]; cbn [fst snd success].
  - destruct Hout as [c Hc]. rewrite (Hlen _ _ _ Hc).
    repeat split; eauto.
  - subst o. repeat split; auto; discriminate.
  - repeat split; auto; discriminate.
Qed.

End BandFilterClaims.

(** ** Runs of the band filter on explicit inputs *)

Section BandFilterRuns.

Import SciPy Processor.
Local Open Scope float_scope.

Lemma concrete_filtfilt_length (c : ba Concrete.scipy) (x y : list float) :
  filtfilt Concrete.scipy c x = Ok y -> length y = length x.
Proof.
  simpl. unfold Concrete.filtfilt.
  destruct (length x <=? 3 * Concrete.ntaps c)%nat; intro H; inversion H.
  reflexivity.
Qed.

(** Claim C2 as stated fails on the code: the request
    [apply_bandpass_filter(ramp20, 20, 1, 11)] succeeds as a low-pass filter
    and reports [high_freq = 11]; nothing is clamped to 9.0 and no band-pass
    filter is applied. *)
Lemma above_nyquist_request_not_clamped :
  snd (apply_bandpass_filter Concrete.scipy ramp20 (lit 20 1)
         (Some (lit 1 1)) (Some (lit 11 1)) None) =
  Success lowpass
    {| low_freq := Some (lit 1 1); high_freq := Some (lit 11 1);
       order := 4; sampling_rate := lit 20 1 |}.
Proof. vm_compute. reflexivity. Qed.

(** Claim C3 as stated fails on the code in its second half: the inverted
    band [(low, high) = (12, 11)] at 20 Hz is refused with the reason
    [frequency_too_high], not [invalid_band]. *)
Lemma inverted_band_other_reason :
  apply_bandpass_filter Concrete.scipy [lit 1 1] (lit 20 1)
    (Some (lit 12 1)) (Some (lit 11 1)) None =
  ([lit 1 1], Failure frequency_too_high).
Proof. vm_compute. reflexivity. Qed.

(** The theorem of claim C3 at [(low, high) = (5, 3)], 20 Hz, one sample. *)
Lemma inverted_band_never_succeeds_witness :
  (of_Z 0 <? lit 5 1) = true /\
  (lit 5 1 >=? lit 3 1) = true /\
  snd (apply_bandpass_filter Concrete.scipy [lit 1 1] (lit 20 1)
         (Some (lit 5 1)) (Some (lit 3 1)) None) = Failure invalid_band.
Proof.
  split; [ reflexivity | split; [ reflexivity | ] ].
  apply (inverted_band_never_succeeds Concrete.scipy [lit 1 1] (lit 20 1)
           (lit 5 1) (lit 3 1) None); reflexivity.
Defined.

(** The theorem of claim C10 on 41 samples of which the first is NaN: the
    band filter succeeds on the 40 finite samples. *)
Lemma nonfinite_samples_are_dropped_witness :
  let data := NaN :: ramp20 ++ ramp20 in
  let run := apply_bandpass_filter Concrete.scipy data (lit 20 1)
               (Some (lit 1 1)) (Some (lit 5 1)) None in
  forallb isfinite data = false /\
  (length data <= 2 * length (filter isfinite data))%nat /\
  success (snd run) = true /\
  length (fst run) = 40%nat /\ (length (fst run) < length data)%nat.
Proof.
  split; [ reflexivity | split; [ vm_compute; lia | split; [ reflexivity | ] ] ].
  destruct (nonfinite_samples_are_dropped Concrete.scipy
              (NaN :: ramp20 ++ ramp20) (lit 20 1)
              (Some (lit 1 1)) (Some (lit 5 1)) None
              concrete_filtfilt_length) as (H1 & H2 & _).
  - discriminate.
  - reflexivity.
  - vm_compute; lia.
  - split; assumption.
Defined.

End BandFilterRuns.

(** ** Spike removal *)

Section Spikes.

Import Processor.
Local Open Scope float_scope.

(** Claim C9, as the code has it.  A pass of [remove_spikes] that reports
    zero spikes hands back its input unchanged, and a further pass with the
    same threshold reports zero again.  (After a pass that did replace
    samples the median and the MAD are computed anew from the cleaned data,
    and further samples can exceed the threshold.) *)
Theorem remove_spikes_fixpoint (data cleaned : list float) (threshold : option float) :
  remove_spikes data threshold = (cleaned, 0%nat) ->
  cleaned = data /\ remove_spikes cleaned threshold = (cleaned, 0%nat).
Proof.
  intro H.
  assert (Heq : cleaned = data).
  { revert H. unfold remove_spikes.
    destruct (_ >? of_Z 0); [ | intro H; now inversion H ].
    match goal with |- context [NumPy.where_ ?m] => destruct (NumPy.where_ m) end;
      cbn [length Nat.ltb Nat.leb]; intro H; inversion H.
    reflexivity. }
  subst cleaned. auto.
Qed.

(** Claim C9 as stated fails on the code: the first pass replaces the sample
    100 (median 3, MAD 6) by the window median 3; on the cleaned data the MAD
    is 1, so the sample 12 now exceeds the threshold and the second pass
    reports one spike. *)
Lemma second_pass_reports_spike :
  remove_spikes spiky None = (map of_Z [4; 3; 12; 3; 3; -3; -3]%Z, 1%nat) /\
  remove_spikes (fst (remove_spikes spiky None)) None =
    (map of_Z [4; 3; 3; 3; 3; -3; -3]%Z, 1%nat).
Proof. vm_compute. split; reflexivity. Qed.

(** The theorem of claim C9 on the samples 1 to 5 (median 3, MAD 1, no
    sample beyond the threshold). *)
Lemma remove_spikes_fixpoint_witness :
  let data := map of_Z [1; 2; 3; 4; 5]%Z in
  remove_spikes data None = (data, 0%nat) /\
  (data = data /\ remove_spikes data None = (data, 0%nat)).
Proof.
  split; [ reflexivity | ].
  apply (remove_spikes_fixpoint (map of_Z [1; 2; 3; 4; 5]%Z)
           (map of_Z [1; 2; 3; 4; 5]%Z) None).
  reflexivity.
Defined.

End Spikes.

(** ** The surface-wave magnitude *)

Section Magnitude.

Import SciPy Processor.
Local Open Scope float_scope.

Variable L : lib.

Lemma max_nonempty (x : list float) :
  x <> [] -> NumPy.max x = Ok (peak x).
Proof.
  destruct x; [ congruence | reflexivity ].
Qed.

Lemma deep_is_truthy (h : float) :
  (h >? of_Z 50) = true -> truthy (Some h) = true.
Proof.
  destruct h as [q| | |]; simpl; try congruence.
  intro H. apply Qltb_true in H.
  unfold Qzerob. destruct (Qeq_bool q 0) eqn:E; [ | reflexivity ].
  apply Qeq_bool_iff in E. rewrite E in H. discriminate.
Qed.

(** The formula step inside the [try] block: on non-empty sequences, the
    horizontal ones equally long, no call raises and the block returns
    [spec_ms] of [spec_amplitude_um]. *)
Lemma ms_try_formula (north east vertical : list float)
    (distance_km sampling_rate : float) (depth_km : option float) :
  (distance_km <? of_Z 200) = false ->
  (distance_km >? of_Z 16000) = false ->
  (sampling_rate / lit 2 1 <? lit 5 10) = false ->
  let high := py_min (lit 5 10) (sampling_rate / lit 2 1 * lit 9 10) in
  let band x :=
    fst (apply_bandpass_filter L x sampling_rate (Some (lit 2 100)) (Some high) None) in
  band vertical <> [] ->
  band north <> [] ->
  length (band north) = length (band east) ->
  exists info,
    ms_try L north east vertical distance_km sampling_rate depth_km =
      Ok (Some (spec_ms L (spec_amplitude_um L (band vertical) (band north) (band east))
                          distance_km depth_km),
          Explanation info).
Proof.
  intros Hshort Hlong Hrate high band Hv Hn Hlen.
  assert (He : band east <> []).
  { intro E. rewrite E in Hlen. destruct (band north); [ congruence | discriminate ]. }
  unfold ms_try.
  rewrite Hshort, Hlong, Hrate.
  fold high. fold (band vertical). fold (band north). fold (band east).
  assert (Hne : forall x, x <> [] -> NumPy.abs x <> []).
  { intros [|a x]; [ congruence | discriminate ]. }
  rewrite (max_nonempty _ (Hne _ Hv)), (max_nonempty _ (Hne _ Hn)),
          (max_nonempty _ (Hne _ He)).
  cbn [Py.bind].
  unfold NumPy.add, NumPy.square. rewrite !length_map.
  apply Nat.eqb_eq in Hlen. rewrite Hlen.
  cbn [Py.bind].
  rewrite max_nonempty.
  2:{ destruct (band north) as [|a x]; [ congruence | ].
      destruct (band east) as [|b y]; [ congruence | discriminate ]. }
  cbn [Py.bind].
  eexists. f_equal. f_equal. f_equal.
  unfold spec_ms, spec_amplitude_um, NumPy.square.
  destruct depth_km as [h|]; [ | reflexivity ].
  destruct (h >? of_Z 50) eqn:Hdeep.
  - now rewrite (deep_is_truthy _ Hdeep).
  - now rewrite andb_false_r.
Qed.

(** Claim C1, as the code has it.  In the formula step (distance within
    200..16000 km, Nyquist frequency at least 0.5 Hz) the magnitude returned
    is [spec_ms] of the amplitude [spec_amplitude_um] computed on the three
    sequences that the calls of [apply_bandpass_filter] hand back: the
    band-filtered components when a call succeeds, the samples it was given
    (without their non-finite values) when it reports a failure, since the
    status is discarded.  The sequences are taken non-empty and the
    horizontal ones equally long, which is when a magnitude is returned. *)
Theorem ms_magnitude_formula (north east vertical : list float)
    (distance_km sampling_rate : float) (depth_km : option float) :
  (distance_km <? of_Z 200) = false ->
  (distance_km >? of_Z 16000) = false ->
  (sampling_rate / lit 2 1 <? lit 5 10) = false ->
  let high := py_min (lit 5 10) (sampling_rate / lit 2 1 * lit 9 10) in
  let band x :=
    fst (apply_bandpass_filter L x sampling_rate (Some (lit 2 100)) (Some high) None) in
  band vertical <> [] ->
  band north <> [] ->
  length (band north) = length (band east) ->
  exists info,
    calculate_ms_magnitude L north east vertical distance_km sampling_rate depth_km =
      Ok (Some (spec_ms L (spec_amplitude_um L (band vertical) (band north) (band east))
                          distance_km depth_km),
          Explanation info).
Proof.
  intros Hshort Hlong Hrate high band Hv Hn Hlen.
  destruct (ms_try_formula north east vertical distance_km sampling_rate depth_km
              Hshort Hlong Hrate Hv Hn Hlen) as [info Hrun].
  exists info.
  unfold calculate_ms_magnitude.
  fold high in Hrun. fold band in Hrun.
  rewrite Hrun. reflexivity.
Qed.

(** Whatever goes wrong inside the [try] block, the handler does not return:
    it raises [NameError]. *)
Lemma handler_raises (north east vertical : list float)
    (distance_km sampling_rate : float) (depth_km : option float) (e : exn) :
  ms_try L north east vertical distance_km sampling_rate depth_km = Raise e ->
  calculate_ms_magnitude L north east vertical distance_km sampling_rate depth_km =
    Raise NameError.
Proof.
  unfold calculate_ms_magnitude. now intros ->.
Qed.

(** In particular an empty vertical component, within the distance and
    sampling bounds, ends in [NameError]. *)
Lemma empty_vertical_raises (north east : list float)
    (distance_km sampling_rate : float) (depth_km : option float) :
  (distance_km <? of_Z 200) = false ->
  (distance_km >? of_Z 16000) = false ->
  (sampling_rate / lit 2 1 <? lit 5 10) = false ->
  calculate_ms_magnitude L north east [] distance_km sampling_rate depth_km =
    Raise NameError.
Proof.
  intros Hshort Hlong Hrate.
  apply handler_raises with (e := ValueError).
  unfold ms_try. now rewrite Hshort, Hlong, Hrate.
Qed.

End Magnitude.

(** ** Runs of the magnitude computation on explicit inputs *)

Section MagnitudeRuns.

Import SciPy Processor.
Local Open Scope float_scope.

(** Claim C1 as stated fails on the code: at 1500 km and 1 Hz the three
    band-filter calls on [gappy_trace] report [invalid_data] and hand back
    the unfiltered samples; the status is discarded and a magnitude (NaN) is
    returned that was not computed on band-filtered components. *)
Lemma magnitude_without_filtering :
  apply_bandpass_filter Concrete.scipy gappy_trace (lit 1 1)
    (Some (lit 2 100)) (Some (py_min (lit 5 10) (lit 1 1 / lit 2 1 * lit 9 10))) None
    = (gappy_trace, Failure invalid_data) /\
  exists info,
    calculate_ms_magnitude Concrete.scipy gappy_trace gappy_trace gappy_trace
      (lit 1500 1) (lit 1 1) None = Ok (Some NaN, Explanation info).
Proof.
  split; [ vm_compute; reflexivity | ].
  eexists. vm_compute. reflexivity.
Qed.

(** The same on finite samples: the three-sample trace is too short for
    [filtfilt], the calls report [filter_error], and the magnitude 7.6 is
    computed from the raw peak amplitudes (4 mm vertical, 5.657 mm
    horizontal). *)
Lemma magnitude_of_short_trace :
  snd (apply_bandpass_filter Concrete.scipy short_trace (lit 1 1)
         (Some (lit 2 100)) (Some (py_min (lit 5 10) (lit 1 1 / lit 2 1 * lit 9 10))) None)
    = Failure filter_error /\
  exists info,
    calculate_ms_magnitude Concrete.scipy short_trace short_trace short_trace
      (lit 1500 1) (lit 1 1) None = Ok (Some (lit 76 10), Explanation info).
Proof.
  split; [ vm_compute; reflexivity | ].
  eexists. vm_compute. reflexivity.
Qed.

(** The theorem of claim C1 on the short trace, at 1500 km, 1 Hz and a depth
    of 60 km. *)
Lemma ms_magnitude_formula_witness :
  let high := py_min (lit 5 10) (lit 1 1 / lit 2 1 * lit 9 10) in
  let band x :=
    fst (apply_bandpass_filter Concrete.scipy x (lit 1 1)
           (Some (lit 2 100)) (Some high) None) in
  (lit 1500 1 <? of_Z 200) = false /\
  (lit 1500 1 >? of_Z 16000) = false /\
  (lit 1 1 / lit 2 1 <? lit 5 10) = false /\
  band short_trace <> [] /\
  length (band short_trace) = length (band short_trace) /\
  exists info,
    calculate_ms_magnitude Concrete.scipy short_trace short_trace short_trace
      (lit 1500 1) (lit 1 1) (Some (lit 60 1)) =
      Ok (Some (spec_ms Concrete.scipy
                  (spec_amplitude_um Concrete.scipy (band short_trace)
                     (band short_trace) (band short_trace))
                  (lit 1500 1) (Some (lit 60 1))),
          Explanation info).
Proof.
  repeat (split; [ first [ reflexivity | discriminate ] | ]).
  apply (ms_magnitude_formula Concrete.scipy short_trace short_trace short_trace
           (lit 1500 1) (lit 1 1) (Some (lit 60 1)));
    first [ reflexivity | discriminate ].
Defined.

(** Claim C8 fails on the code.  With the vertical component switched off
    the caller passes an empty array; [np.max] raises on it, the handler
    looks up [traceback], which the module never imports, and [NameError]
    leaves [calculate_ms_magnitude]. *)
Theorem empty_component_escapes :
  calculate_ms_magnitude Concrete.scipy short_trace short_trace []
    (lit 1500 1) (lit 100 1) (Some (of_Z 0)) = Raise NameError.
Proof. vm_compute. reflexivity. Qed.

End MagnitudeRuns.

(** ** Sorting *)

Section StableSort.

Variable A : Type.
Variable leb : A -> A -> bool.
Hypothesis leb_total : forall x y, leb x y = false -> leb y x = true.
Hypothesis leb_trans : forall x y z, leb x y = true -> leb y z = true -> leb x z = true.

Let le (x y : A) : Prop := leb x y = true.

Lemma insert_by_Forall (P : A -> Prop) (x : A) (l : list A) :
  P x -> Forall P l -> Forall P (NumPy.insert_by leb x l).
Proof.
  intros Hx Hl. induction Hl as [|y l Hy Hl IH]; simpl.
  - auto.
  - destruct (leb x y); auto.
Qed.

Lemma insert_by_sorted (x : A) (l : list A) :
  StronglySorted le l -> StronglySorted le (NumPy.insert_by leb x l).
Proof.
  induction 1 as [|y l Hs IH Hy]; simpl.
  - constructor; [ constructor | constructor ].
  - destruct (leb x y) eqn:E.
    + constructor; [ constructor; assumption | ].
      constructor; [ exact E | ].
      eapply Forall_impl; [ | exact Hy ].
      intros z Hz. exact (leb_trans _ _ _ E Hz).
    + constructor; [ exact IH | ].
      apply insert_by_Forall; [ | exact Hy ].
      exact (leb_total _ _ E).
Qed.

Lemma sort_by_sorted (l : list A) : StronglySorted le (NumPy.sort_by leb l).
Proof.
  induction l as [|x l IH]; simpl.
  - constructor.
  - now apply insert_by_sorted.
Qed.

End StableSort.

Section SortShape.

Variable A : Type.
Variable leb : A -> A -> bool.

Lemma insert_by_Forall_any (P : A -> Prop) (x : A) (l : list A) :
  P x -> Forall P l -> Forall P (NumPy.insert_by leb x l).
Proof.
  intros Hx Hl. induction Hl as [|y l Hy Hl IH]; simpl.
  - auto.
  - destruct (leb x y); auto.
Qed.

Lemma sort_by_Forall (P : A -> Prop) (l : list A) :
  Forall P l -> Forall P (NumPy.sort_by leb l).
Proof.
  induction 1; simpl; [ constructor | now apply insert_by_Forall_any ].
Qed.

Lemma insert_by_length (x : A) (l : list A) :
  length (NumPy.insert_by leb x l) = S (length l).
Proof.
  induction l as [|y l IH]; simpl; [ reflexivity | ].
  destruct (leb x y); simpl; congruence.
Qed.

Lemma sort_by_length (l : list A) : length (NumPy.sort_by leb l) = length l.
Proof.
  induction l as [|x l IH]; simpl; [ reflexivity | ].
  now rewrite insert_by_length, IH.
Qed.

Lemma firstn_Forall (P : A -> Prop) (n : nat) (l : list A) :
  Forall P l -> Forall P (firstn n l).
Proof.
  intro H. revert n. induction H; intros [|n]; simpl; constructor; auto.
Qed.

Lemma StronglySorted_firstn (R : A -> A -> Prop) (n : nat) (l : list A) :
  StronglySorted R l -> StronglySorted R (firstn n l).
Proof.
  intro H. revert n. induction H as [|x l Hs IH Hx]; intros [|n]; simpl;
    try constructor; auto.
  now apply firstn_Forall.
Qed.

Lemma StronglySorted_weaken (R1 R2 : A -> A -> Prop) (P : A -> Prop) (l : list A) :
  (forall a b, P a -> P b -> R1 a b -> R2 a b) ->
  Forall P l -> StronglySorted R1 l -> StronglySorted R2 l.
Proof.
  intros Himp HP Hs. induction Hs as [|x l Hs IH Hx].
  - constructor.
  - inversion HP as [|? ? Px Pl]; subst.
    constructor; [ auto | ].
    rewrite Forall_forall in *. intros y Hy. auto.
Qed.

End SortShape.

(** ** Station discovery *)

Section DiscoveryFacts.

Import DataManager.
Local Open Scope Q_scope.



Lemma distance_leb_total (x y : station) :
  distance_leb x y = false -> distance_leb y x = true.
Proof. apply Qle_bool_total. Qed.

Lemma distance_leb_trans (x y z : station) :
  distance_leb x y = true -> distance_leb y z = true -> distance_leb x z = true.
Proof. apply Qle_bool_trans. Qed.


(** Once twice the target is reached the loop reads nothing more. *)
Lemma collect_stops (pre rest : list (result station)) (target : nat) :
  forall (validated : list station) (verified_count : nat),
  (target * 2 <= verified_count + count_verified pre)%nat ->
  collect (pre ++ rest) target validated verified_count =
  collect pre target validated verified_count.
Proof.
  induction pre as [|future pre IH]; intros validated vc H.
  - unfold count_verified in H. simpl in H.
    destruct rest as [|future rest]; [ reflexivity | ].
    simpl. destruct (Nat.leb_spec (target * 2) vc); [ reflexivity | lia ].
  - cbn [app collect].
    destruct (target * 2 <=? vc)%nat; [ reflexivity | ].
    unfold count_verified in H. cbn [filter] in H.
    destruct future as [s|e].
    + apply IH. unfold count_verified.
      destruct (verified s); cbn [length] in H; lia.
    + apply IH. exact H.
Qed.

(** The selection never returns more stations than asked for. *)
Lemma select_length (stations selected : list station) (target_count : nat) :
  _select_distributed_stations stations target_count = Ok selected ->
  (length selected <= target_count)%nat.
Proof.
  unfold _select_distributed_stations.
  destruct (Nat.leb_spec (length stations) target_count) as [Hle|Hgt].
  - intro H. inversion H. subst. exact Hle.
  - destruct (100 <? length stations)%nat.
    + destruct (Nat.leb_spec (length (unique_by_code [] stations)) target_count)
        as [Hu|Hu].
      * intro H. inversion H. subst. assumption.
      * destruct (sort distance_leb (unique_by_code [] stations)); [ discriminate | ].
        destruct (pick_bins _ _ _ _ _ _ _).
        intro H. inversion H. apply firstn_le_length.
    + destruct (sort distance_leb stations); [ discriminate | ].
      destruct (target_count =? 0)%nat; [ discriminate | ].
      intro H. inversion H. apply firstn_le_length.
Qed.

End DiscoveryFacts.

Section DiscoveryClaims.

Import DataManager.
Local Open Scope Q_scope.

Variable env : collaborators.





(** A catalog query that raises ends the search with the empty list. *)
Lemma catalog_exception_gives_empty (quake : earthquake) (lo hi : Q)
    (target : nat) (placeholder : option unit) (e : exn) :
  falsy (inventory_cache env) = true ->
  get_stations env = Raise e ->
  search_stations env quake lo hi target placeholder = [].
Proof.
  intros Hcache Hquery. unfold search_stations, search_try.
  destruct (eq_time quake); [ | reflexivity ].
  now rewrite Hcache, Hquery.
Qed.

(** With no station left after processing and no placeholder passed, the
    fallback list is not reached. *)
Lemma no_placeholder_no_fallback (quake : earthquake) (lo hi : Q)
    (target : nat) (t : Z) (inv : inventory) :
  eq_time quake = Some t ->
  (if falsy (inventory_cache env) then get_stations env
   else Ok (get (inventory_cache env) [])) = Ok inv ->
  _process_inventory_to_stations env inv
    (get (eq_latitude quake) 0) (get (eq_longitude quake) 0) t lo hi = [] ->
  search_stations env quake lo hi target None = [].
Proof.
  intros Htime Hinv Hnone. unfold search_stations, search_try.
  rewrite Htime, Hinv. cbn [Py.bind]. now rewrite Hnone.
Qed.

(** The returned list and the early stop.  When the probes complete in the
    order [pre ++ rest] and [pre] already holds twice the target of verified
    stations, the list that the verification step returns is the one it
    returns on [pre] alone: no result of [rest] enters it.  When the
    function returns is the matter of [Concurrent]. *)
Theorem early_stop (stations : list station) (target_count : nat)
    (pre rest : list (result station)) :
  as_completed env (map (fun s => Ok (validate_single env s)) stations) = pre ++ rest ->
  (target_count * 2 <= count_verified pre)%nat ->
  _validate_stations_parallel env stations target_count =
    sort verified_leb (fst (collect pre target_count [] 0%nat)).
Proof.
  intros Hdone Henough.
  unfold _validate_stations_parallel.
  rewrite Hdone, collect_stops; [ reflexivity | lia ].
Qed.


End DiscoveryClaims.

(** ** Runs of the station discovery on explicit inputs *)

Section DiscoveryRuns.

Import DataManager.
Local Open Scope Q_scope.
Local Open Scope string_scope.
Local Open Scope list_scope.

(** The run of [search_stations] for sixteen stations between 1000 and
    5000 km: fourteen verified stations by distance, the unavailable A15 at
    3784.9 km, and after it the unprobed B01 at 1113.2 km. *)
Lemma sixteen_stations_run :
  map summary (search_stations equator_world equator_quake 1000 5000 16 None) =
  [ ("A01", Some true, 22264); ("A02", Some true, 23377);
    ("A03", Some true, 24490); ("A04", Some true, 25603);
    ("A05", Some true, 26717); ("A06", Some true, 27830);
    ("A07", Some true, 28943); ("A08", Some true, 30056);
    ("A09", Some true, 31169); ("A10", Some true, 32283);
    ("A11", Some true, 33396); ("A12", Some true, 34509);
    ("A13", Some true, 35622); ("A14", Some true, 36735);
    ("A15", Some false, 37849); ("B01", None, 11132) ]%Z.
Proof. vm_compute. reflexivity. Qed.




(** [early_stop] in [equator_world] for a target of one station and three
    submitted stations: after the first two completions, both verified, the
    result of the third does not enter the list. *)
Lemma early_stop_witness :
  let completed := map (fun s => Ok (validate_single equator_world s)) three_stations in
  as_completed equator_world completed = firstn 2 completed ++ skipn 2 completed /\
  (1 * 2 <= count_verified (firstn 2 completed))%nat /\
  map summary (_validate_stations_parallel equator_world three_stations 1) =
    [ ("A01", Some true, 22264); ("A02", Some true, 23377) ]%Z.
Proof.
  intro completed.
  assert (Hdone : as_completed equator_world completed =
                  firstn 2 completed ++ skipn 2 completed)
    by (symmetry; apply firstn_skipn).
  assert (Henough : (1 * 2 <= count_verified (firstn 2 completed))%nat)
    by (vm_compute; lia).
  split; [ exact Hdone | split; [ exact Henough | ] ].
  rewrite (early_stop equator_world three_stations 1
             (firstn 2 completed) (skipn 2 completed) Hdone Henough).
  vm_compute. reflexivity.
Defined.

(** Claim C4 fails on the code.  With the catalog query raising,
    [search_stations] returns the empty list although the fallback table
    holds stations in the distance window (STU, BSD and BFO are the three
    nearest).  With a catalog answer that holds no usable station and the
    default [progress_placeholder=None] the warning call raises and the
    result is empty as well; the fallback list is returned only when a
    placeholder is passed. *)
Theorem catalog_failure_returns_nothing :
  search_stations offline_world turkey_quake 1000 5000 3 None = [] /\
  search_stations offline_world turkey_quake 1000 5000 3 (Some tt) = [] /\
  search_stations empty_world turkey_quake 1000 5000 3 None = [] /\
  map summary (search_stations empty_world turkey_quake 1000 5000 3 (Some tt)) =
    [ ("STU", None, 25853); ("BSD", None, 26007); ("BFO", None, 26299) ]%Z /\
  map summary (_fallback_station_list_optimized offline_world turkey_quake 1000 5000 3) =
    [ ("STU", None, 25853); ("BSD", None, 26007); ("BFO", None, 26299) ]%Z.
Proof. vm_compute. repeat split; reflexivity. Qed.

End DiscoveryRuns.

(** ** The synthetic sinusoid *)

Section Sinusoid.

Import SciPy Processor.
Local Open Scope float_scope.

Lemma round_half_even_close (q : Q) :
  (Qabs (inject_Z (round_half_even q) - q) <= 1 # 2)%Q.
Proof.
  unfold round_half_even.
  pose proof (Qfloor_le q) as Hlo.
  pose proof (Qlt_floor q) as Hhi.
  rewrite inject_Z_plus in Hhi.
  change (inject_Z 1) with 1%Q in Hhi.
  set (f := Qfloor q) in *.
  destruct (Qltb (q - inject_Z f) (1 # 2)) eqn:E1.
  - apply Qltb_true in E1. apply Qabs_Qle_condition. split; lra.
  - apply Qltb_false in E1.
    assert (Hup : (Qabs (inject_Z (f + 1) - q) <= 1 # 2)%Q).
    { rewrite inject_Z_plus. change (inject_Z 1) with 1%Q.
      apply Qabs_Qle_condition. split; lra. }
    destruct (Qltb (1 # 2) (q - inject_Z f)) eqn:E2; [ exact Hup | ].
    apply Qltb_false in E2.
    destruct (Z.even f); [ | exact Hup ].
    apply Qabs_Qle_condition. split; lra.
Qed.

Lemma round1_close (y : Q) :
  exists m, round1 (Fin y) = Fin m /\ (Qabs (m - y) <= 5 # 100)%Q.
Proof.
  eexists. split; [ reflexivity | ].
  pose proof (round_half_even_close (y * inject_Z 10)) as H.
  apply Qabs_Qle_condition in H. apply Qabs_Qle_condition.
  change (inject_Z 10) with (10 # 1)%Q in *.
  set (r := inject_Z (round_half_even (y * (10 # 1)))) in *.
  assert (Hdiv : (r / (10 # 1) == r * (1 # 10))%Q) by (unfold Qdiv; reflexivity).
  rewrite Hdiv. split; lra.
Qed.

Variable L : lib.

(** Claim C7, as the code has it.  With one and the same signal in the
    three components, at 1500 km and depth 0, the value returned lies within
    0.05 (the rounding to one decimal) of
    [log10(A'/20) + 1.66 log10(1500/111.195) + 3.3], where [A'] is the
    amplitude the code uses: the larger of the vertical peak and the peak of
    the horizontal vector of the sequences handed back by the band filter.
    For identical components the horizontal vector is [sqrt 2] times the
    signal, so [A'] is not the injected amplitude [A]. *)
Theorem identical_components_magnitude (x : list float) (sampling_rate : float) (y : Q) :
  (sampling_rate / lit 2 1 <? lit 5 10) = false ->
  let high := py_min (lit 5 10) (sampling_rate / lit 2 1 * lit 9 10) in
  let f := fst (apply_bandpass_filter L x sampling_rate
                  (Some (lit 2 100)) (Some high) None) in
  f <> [] ->
  log10 L (spec_amplitude_um L f f f / lit 20 1)
  + lit 166 100 * log10 L (lit 1500 1 / lit 111195 1000) + lit 33 10 = Fin y ->
  exists m info,
    calculate_ms_magnitude L x x x (lit 1500 1) sampling_rate (Some (of_Z 0)) =
      Ok (Some (Fin m), Explanation info) /\
    (Qabs (m - y) <= 5 # 100)%Q.
Proof.
  intros Hrate high f Hf Hy.
  destruct (ms_try_formula L x x x (lit 1500 1) sampling_rate (Some (of_Z 0)))
    as [info Hrun]; try reflexivity; try assumption.
  destruct (round1_close y) as (m & Hm & Hclose).
  exists m, info. split; [ | exact Hclose ].
  unfold calculate_ms_magnitude.
  rewrite Hrun. cbn [try_except]. unfold spec_ms. cbn [fgtb fltb of_Z].
  fold high. fold f. rewrite Hy.
  change (Qltb (inject_Z 50) (inject_Z 0)) with false. cbv iota.
  now rewrite Hm.
Qed.

End Sinusoid.

Section SinusoidRuns.

Import SciPy Processor.
Local Open Scope float_scope.

(** Claim C7 as stated fails on the code.  One period of the sinusoid of
    amplitude 20 micrometres, sampled at 1 Hz, in all three components: the
    21 samples are too few for [filtfilt], the raw samples are used, the
    vertical peak is 20 and the horizontal peak 28.28 micrometres, and the
    value returned is 5.3, which is more than 0.05 away from the expected
    5.176. *)
Lemma sinusoid_magnitude_off :
  exists info,
    calculate_ms_magnitude Concrete.scipy (sinusoid 20) (sinusoid 20) (sinusoid 20)
      (lit 1500 1) (lit 1 1) (Some (of_Z 0)) = Ok (Some (lit 53 10), Explanation info) /\
    same (max_vert info) (lit 20 1) = true /\
    same (max_horizontal info) (lit 28284 1000) = true /\
    differs_by_more_than (5 # 100) (lit 53 10) (expected_ms Concrete.scipy 20) = true /\
    differs_by_more_than (12 # 100) (lit 53 10) (expected_ms Concrete.scipy 20) = true.
Proof.
  eexists. vm_compute. repeat split; reflexivity.
Qed.

(** The same with two periods, which [filtfilt] accepts: with the unit gain
    of the concrete interpretation the band filter succeeds and the value
    returned is 5.3 again. *)
Lemma two_periods_magnitude :
  snd (apply_bandpass_filter Concrete.scipy (two_periods 20) (lit 1 1)
         (Some (lit 2 100)) (Some (py_min (lit 5 10) (lit 1 1 / lit 2 1 * lit 9 10))) None)
    = Success bandpass
        {| low_freq := Some (lit 2 100);
           high_freq := Some (py_min (lit 5 10) (lit 1 1 / lit 2 1 * lit 9 10));
           order := 4; sampling_rate := lit 1 1 |} /\
  exists info,
    calculate_ms_magnitude Concrete.scipy (two_periods 20) (two_periods 20) (two_periods 20)
      (lit 1500 1) (lit 1 1) (Some (of_Z 0)) = Ok (Some (lit 53 10), Explanation info).
Proof.
  split; [ vm_compute; reflexivity | ].
  eexists. vm_compute. reflexivity.
Qed.

(** The theorem of claim C7 on one period of the sinusoid: the value
    returned is within 0.05 of the formula at the amplitude the code uses. *)
Lemma identical_components_magnitude_witness :
  let f := fst (apply_bandpass_filter Concrete.scipy (sinusoid 20) (lit 1 1)
                  (Some (lit 2 100))
                  (Some (py_min (lit 5 10) (lit 1 1 / lit 2 1 * lit 9 10))) None) in
  (lit 1 1 / lit 2 1 <? lit 5 10) = false /\
  f <> [] /\
  exists y m info,
    log10 Concrete.scipy (spec_amplitude_um Concrete.scipy f f f / lit 20 1)
    + lit 166 100 * log10 Concrete.scipy (lit 1500 1 / lit 111195 1000) + lit 33 10
      = Fin y /\
    calculate_ms_magnitude Concrete.scipy (sinusoid 20) (sinusoid 20) (sinusoid 20)
      (lit 1500 1) (lit 1 1) (Some (of_Z 0)) = Ok (Some (Fin m), Explanation info) /\
    (Qabs (m - y) <= 5 # 100)%Q.
Proof.
  intro f.
  assert (Hf : f <> []) by (vm_compute; discriminate).
  assert (Hy : exists y,
    log10 Concrete.scipy (spec_amplitude_um Concrete.scipy f f f / lit 20 1)
    + lit 166 100 * log10 Concrete.scipy (lit 1500 1 / lit 111195 1000) + lit 33 10
      = Fin y) by (eexists; vm_compute; reflexivity).
  destruct Hy as [y Hy].
  split; [ reflexivity | split; [ exact Hf | ] ].
  destruct (identical_components_magnitude Concrete.scipy (sinusoid 20) (lit 1 1) y)
    as (m & info & Hrun & Hclose); [ reflexivity | exact Hf | exact Hy | ].
  exists y, m, info. auto.
Defined.

End SinusoidRuns.

(** * Further properties of the signal processing engine *)

Section MagnitudeOutcomes.

Import SciPy Processor.
Local Open Scope float_scope.

Variable L : lib.

(** The outcomes of [calculate_ms_magnitude].  A magnitude comes with its
    explanation and only inside the distance and sampling bounds; the three
    refusals come in the order of the checks; the only exception that leaves
    the function is [NameError], and the dictionary of the handler
    ([Beregningsfejl]) is never returned. *)
Theorem ms_outcomes (north east vertical : list float)
    (distance_km sampling_rate : float) (depth_km : option float) :
  let in_bounds :=
    (distance_km <? of_Z 200) = false /\
    (distance_km >? of_Z 16000) = false /\
    (sampling_rate / lit 2 1 <? lit 5 10) = false in
  match calculate_ms_magnitude L north east vertical
          distance_km sampling_rate depth_km with
  | Ok (Some m, Explanation info) => in_bounds /\ beregnet_ms info = m
  | Ok (None, ErrorDict Afstand_for_kort) => (distance_km <? of_Z 200) = true
  | Ok (None, ErrorDict Afstand_for_lang) =>
      (distance_km <? of_Z 200) = false /\ (distance_km >? of_Z 16000) = true
  | Ok (None, ErrorDict Sampling_rate_for_lav) =>
      (distance_km <? of_Z 200) = false /\ (distance_km >? of_Z 16000) = false /\
      (sampling_rate / lit 2 1 <? lit 5 10) = true
  | Raise NameError => in_bounds
  | _ => False
  end.
Proof.
  unfold calculate_ms_magnitude, ms_try.
  destruct (distance_km <? of_Z 200) eqn:Hshort; [ reflexivity | ].
  destruct (distance_km >? of_Z 16000) eqn:Hlong; [ cbn; auto | ].
  destruct (sampling_rate / lit 2 1 <? lit 5 10) eqn:Hrate; [ cbn; auto | ].
  repeat match goal with
  | |- context [Py.bind (NumPy.max ?x) _] =>
      destruct (NumPy.max x); cbn [Py.bind try_except traceback_format_exc];
      [ | cbn; auto ]
  | |- context [Py.bind (NumPy.add ?x ?y) _] =>
      destruct (NumPy.add x y); cbn [Py.bind try_except traceback_format_exc];
      [ | cbn; auto ]
  end.
  cbn. auto.
Qed.

End MagnitudeOutcomes.

Section SpikeInvariants.

Import SciPy Processor.
Local Open Scope float_scope.

Lemma set_item_length (a : list float) (i : nat) (v : float) :
  length (NumPy.set_item a i v) = length a.
Proof.
  revert i. induction a as [|x a IH]; intros [|i]; simpl; auto.
Qed.

Lemma set_item_nth (a : list float) (i j : nat) (v d : float) :
  nth j (NumPy.set_item a i v) d = nth j a d \/
  (j = i /\ nth j (NumPy.set_item a i v) d = v).
Proof.
  revert i j. induction a as [|x a IH]; intros [|i] [|j]; simpl; auto.
  destruct (IH i j) as [H|[-> H]]; auto.
Qed.

Lemma assign_from_length (idx : list nat) (a b : list float) :
  length (NumPy.assign_from a idx b) = length a.
Proof.
  unfold NumPy.assign_from. revert a.
  induction idx as [|i idx IH]; intro a; simpl; [ reflexivity | ].
  now rewrite IH, set_item_length.
Qed.

Lemma assign_from_nth (idx : list nat) (a b : list float) (j : nat) :
  nth j (NumPy.assign_from a idx b) NaN = nth j a NaN \/
  nth j (NumPy.assign_from a idx b) NaN = nth j b NaN.
Proof.
  unfold NumPy.assign_from.
  assert (H : forall acc, (nth j acc NaN = nth j a NaN \/ nth j acc NaN = nth j b NaN) ->
    nth j (fold_left (fun acc i => NumPy.set_item acc i (nth i b NaN)) idx acc) NaN
      = nth j a NaN \/
    nth j (fold_left (fun acc i => NumPy.set_item acc i (nth i b NaN)) idx acc) NaN
      = nth j b NaN).
  { induction idx as [|i idx IH]; intros acc Hacc; simpl; [ exact Hacc | ].
    apply IH.
    destruct (set_item_nth acc i j (nth i b NaN) NaN) as [E|[-> E]]; rewrite E; auto. }
  apply H. auto.
Qed.

Lemma where_from_length (mask : list bool) (i : nat) :
  (length (NumPy.where_from i mask) <= length mask)%nat.
Proof.
  revert i. induction mask as [|b mask IH]; intro i; simpl; [ lia | ].
  destruct b; simpl; specialize (IH (S i)); lia.
Qed.

(** [remove_spikes] keeps the number of samples, reports no more spikes
    than there are samples, and leaves at every position either the sample
    that was there or the median of the window of five around it. *)
Theorem remove_spikes_shape (data : list float) (threshold : option float) :
  let cleaned := fst (remove_spikes data threshold) in
  let spike_count := snd (remove_spikes data threshold) in
  length cleaned = length data /\
  (spike_count <= length data)%nat /\
  forall i,
    nth i cleaned NaN = nth i data NaN \/
    nth i cleaned NaN = nth i (medfilt data 5) NaN.
Proof.
  unfold remove_spikes.
  destruct (_ >? of_Z 0); cbn [fst snd]; [ | repeat split; auto; lia ].
  match goal with |- context [NumPy.where_ ?m] => set (idx := NumPy.where_ m) end.
  assert (Hidx : (length idx <= length data)%nat).
  { subst idx. unfold NumPy.where_.
    etransitivity; [ apply where_from_length | ].
    unfold NumPy.abs. now rewrite !length_map. }
  destruct (0 <? length idx)%nat.
  - repeat split; [ apply assign_from_length | exact Hidx | ].
    intro i. apply assign_from_nth.
  - repeat split; auto.
Qed.

Lemma median_of_nan (a : list float) :
  existsb isnan a = true -> NumPy.median a = NaN.
Proof.
  unfold NumPy.median. now intros ->.
Qed.

(** An array that holds a NaN passes through [remove_spikes] unchanged, with
    zero spikes reported: the median and the MAD are NaN and the test
    [mad > 0] fails. *)
Theorem remove_spikes_ignores_nan_data (data : list float) (threshold : option float) :
  existsb isnan data = true ->
  remove_spikes data threshold = (data, 0%nat).
Proof.
  intro Hnan. unfold remove_spikes.
  rewrite (median_of_nan data Hnan).
  rewrite median_of_nan; [ reflexivity | ].
  unfold NumPy.abs. rewrite map_map.
  clear - Hnan. induction data as [|x data IH]; simpl in *; [ discriminate | ].
  assert (Hx : isnan (fabs (x - NaN)) = true) by (now destruct x).
  now rewrite Hx.
Qed.

(** The theorem on three samples with a NaN in the middle and a spike at
    the end. *)
Lemma remove_spikes_ignores_nan_data_witness :
  existsb isnan [lit 1 1; NaN; lit 1000 1] = true /\
  remove_spikes [lit 1 1; NaN; lit 1000 1] None = ([lit 1 1; NaN; lit 1000 1], 0%nat).
Proof.
  split; [ reflexivity | ].
  apply (remove_spikes_ignores_nan_data [lit 1 1; NaN; lit 1000 1] None).
  reflexivity.
Defined.

End SpikeInvariants.

Section BandFilterInvariants.

Import SciPy Processor.
Local Open Scope float_scope.

Variable L : lib.

Lemma clean_is_finite (l : list float) :
  existsb isnan l || existsb isinf l = false <-> forallb isfinite l = true.
Proof.
  induction l as [|x l IH]; simpl; [ tauto | ].
  destruct x; simpl; rewrite ?orb_true_r; try tauto; intuition congruence.
Qed.

(** What [run_filter] hands back, with the state of its output. *)
Lemma run_filter_validated (c : ba L) (data out : list float) (ft : filter_type)
    (p : parameters) (st : status) :
  run_filter L c data ft p = Ok (out, st) ->
  (out = data /\ success st = false) \/
  (filtfilt L c data = Ok out /\ forallb isfinite out = true /\ st = Success ft p).
Proof.
  unfold run_filter.
  destruct (filtfilt L c data) as [y|e].
  - destruct (existsb isnan y || existsb isinf y) eqn:E; intro H; inversion H; subst;
      auto.
    right. repeat split; auto. now apply clean_is_finite.
  - destruct e; intro H; inversion H; auto.
Qed.

Ltac validated_branch :=
  match goal with
  | |- context [Py.bind (py_div ?a ?b) _] =>
      destruct (py_div a b); cbn [Py.bind]; [ validated_branch | trivial ]
  | |- context [Py.bind (butter ?l ?n ?w ?t) _] =>
      destruct (butter l n w t); cbn [Py.bind]; [ validated_branch | trivial ]
  | |- context [run_filter ?l ?c ?d ?ft ?p] =>
      let H := fresh in
      let o := fresh "o" in
      let s := fresh "s" in
      destruct (run_filter l c d ft p) as [[o s]|] eqn:H; [ | trivial ];
      apply run_filter_validated in H;
      destruct H as [[-> H]|(H & Hfin & ->)]; [ now destruct s | eauto ]
  | |- _ => trivial
  end.

Lemma design_and_filter_validated (data : list float) (sr : float)
    (low high : option float) (n : nat) :
  match design_and_filter L data sr low high n with
  | Ok (out, Failure _) => out = data
  | Ok (out, Success _ _) =>
      forallb isfinite out = true /\ exists c, filtfilt L c data = Ok out
  | Raise _ => True
  end.
Proof.
  unfold design_and_filter.
  destruct low as [lf|]; [destruct (lf <=? of_Z 0) | ].
  1, 3: destruct high as [hf|]; [ | trivial ];
        destruct (hf >=? sr / lit 2 1 * lit 95 100); [ trivial | validated_branch ].
  destruct high as [hf|]; [destruct (hf >=? sr / lit 2 1) | ].
  1, 3: destruct (lf >=? sr / lit 2 1 * lit 95 100); [ trivial | validated_branch ].
  destruct (lf >=? hf); [ trivial | ].
  validated_branch.
Qed.

(** On an input without NaN and infinities, a failure of
    [apply_bandpass_filter] hands the input back unchanged, and a success
    hands back the output of [filtfilt] on the input, every sample of which
    is finite. *)
Theorem filter_result_is_input_or_finite (data : list float) (sr : float)
    (low high : option float) (n : option nat) :
  forallb isfinite data = true ->
  let out := fst (apply_bandpass_filter L data sr low high n) in
  let st := snd (apply_bandpass_filter L data sr low high n) in
  if success st
  then forallb isfinite out = true /\ exists c, filtfilt L c data = Ok out
  else out = data.
Proof.
  intro Hfin. apply clean_is_finite in Hfin.
  unfold apply_bandpass_filter.
  destruct (length data =? 0)%nat; [ reflexivity | ].
  rewrite Hfin.
  pose proof (design_and_filter_validated data sr low high
                (match n with Some o => o | None => filter_order end)) as Hout.
  destruct (design_and_filter L data sr low high
              (match n with Some o => o | None => filter_order end))
    as [[o [ft p|r]]|e]; cbn [fst snd success]; auto.
Qed.

End BandFilterInvariants.

Section BandFilterInvariantRuns.

Import SciPy Processor.
Local Open Scope float_scope.

(** The theorem on the ramp of twenty samples, band 1 to 5 Hz at 20 Hz
    (too short for the band-pass design, so the input comes back) and low
    cutoff 1 Hz alone (the low-pass filter succeeds). *)
Lemma filter_result_is_input_or_finite_witness :
  forallb isfinite ramp20 = true /\
  fst (apply_bandpass_filter Concrete.scipy ramp20 (lit 20 1)
         (Some (lit 1 1)) (Some (lit 5 1)) None) = ramp20 /\
  forallb isfinite
    (fst (apply_bandpass_filter Concrete.scipy ramp20 (lit 20 1)
            (Some (lit 1 1)) None None)) = true.
Proof.
  split; [ reflexivity | split ].
  - exact (filter_result_is_input_or_finite Concrete.scipy ramp20 (lit 20 1)
             (Some (lit 1 1)) (Some (lit 5 1)) None eq_refl).
  - exact (proj1 (filter_result_is_input_or_finite Concrete.scipy ramp20 (lit 20 1)
                    (Some (lit 1 1)) None None eq_refl)).
Defined.

End BandFilterInvariantRuns.

Section AppliedBand.

Import SciPy Processor.
Local Open Scope float_scope.

Variable L : lib.

Lemma run_filter_kind (c : ba L) (data out : list float) (ft ft' : filter_type)
    (p p' : parameters) :
  run_filter L c data ft p = Ok (out, Success ft' p') -> ft' = ft /\ p' = p.
Proof.
  unfold run_filter.
  destruct (filtfilt L c data) as [y|e].
  - destruct (existsb isnan y || existsb isinf y); intro H; inversion H; auto.
  - destruct e; intro H; inversion H.
Qed.

(** Below the Nyquist frequency, the high cutoff after the adjustment is
    below 0.95 times Nyquist. *)
Lemma clamped_high_below_guard (nyq hf : float) :
  (hf >=? nyq) = false ->
  ((if hf >=? nyq * lit 95 100 then nyq * lit 9 10 else hf)
     >=? nyq * lit 95 100) = false.
Proof.
  intro Hbelow.
  destruct (hf >=? nyq * lit 95 100) eqn:Hnear; [ | exact Hnear ].
  destruct nyq as [n| | |], hf as [h| | |]; simpl in *; try congruence.
  apply Qle_bool_iff in Hnear. apply Qle_bool_false in Hbelow.
  apply Qle_bool_false. lra.
Qed.

Lemma raised_low_above_guard (lf : float) :
  ((if lf <=? lit 1 1000 then lit 5 1000 else lf) <=? lit 1 1000) = false.
Proof.
  destruct (lf <=? lit 1 1000) eqn:E; [ reflexivity | exact E ].
Qed.

Ltac other_kind H :=
  repeat match type of H with
  | context [Py.bind (py_div ?a ?b) _] =>
      destruct (py_div a b); cbn [Py.bind] in H; [ | discriminate ]
  | context [Py.bind (butter ?l ?n ?w ?t) _] =>
      destruct (butter l n w t); cbn [Py.bind] in H; [ | discriminate ]
  end;
  try discriminate;
  try (apply run_filter_kind in H; destruct H as [H _]; discriminate).

Lemma design_bandpass_guarded (data out : list float) (sr : float)
    (low high : option float) (n : nat) (p : parameters) :
  design_and_filter L data sr low high n = Ok (out, Success bandpass p) ->
  exists l h,
    low_freq p = Some l /\ high_freq p = Some h /\
    (l <=? lit 1 1000) = false /\
    (h >=? sr / lit 2 1 * lit 95 100) = false.
Proof.
  unfold design_and_filter. intro H.
  destruct low as [lf|]; [ destruct (lf <=? of_Z 0) | ].
  1, 3: destruct high as [hf|]; [ | discriminate ];
        destruct (hf >=? sr / lit 2 1 * lit 95 100); other_kind H.
  destruct high as [hf|]; [ destruct (hf >=? sr / lit 2 1) eqn:Hny | ].
  1, 3: destruct (lf >=? sr / lit 2 1 * lit 95 100); other_kind H.
  destruct (lf >=? hf); [ discriminate | ].
  repeat match type of H with
  | context [Py.bind (py_div ?a ?b) _] =>
      destruct (py_div a b); cbn [Py.bind] in H; [ | discriminate ]
  | context [Py.bind (butter ?l ?n ?w ?t) _] =>
      destruct (butter l n w t); cbn [Py.bind] in H; [ | discriminate ]
  end.
  apply run_filter_kind in H. destruct H as [_ ->]. cbn [low_freq high_freq].
  eexists _, _. split; [ reflexivity | split; [ reflexivity | ] ].
  split; [ apply raised_low_above_guard | now apply clamped_high_below_guard ].
Qed.

(** Whenever [apply_bandpass_filter] reports a band-pass filter, the band it
    reports has its low cutoff above 0.001 Hz and its high cutoff below 0.95
    times the Nyquist frequency. *)
Theorem applied_band_is_guarded (data : list float) (sr : float)
    (low high : option float) (n : option nat) (p : parameters) :
  snd (apply_bandpass_filter L data sr low high n) = Success bandpass p ->
  exists l h,
    low_freq p = Some l /\ high_freq p = Some h /\
    (l <=? lit 1 1000) = false /\
    (h >=? sr / lit 2 1 * lit 95 100) = false.
Proof.
  unfold apply_bandpass_filter.
  destruct (length data =? 0)%nat; [ discriminate | ].
  assert (Hd : forall d,
    snd match design_and_filter L d sr low high
                (match n with Some o => o | None => filter_order end) with
        | Ok r => r
        | Raise _ => (d, Failure unexpected_error)
        end = Success bandpass p ->
    exists l h,
      low_freq p = Some l /\ high_freq p = Some h /\
      (l <=? lit 1 1000) = false /\
      (h >=? sr / lit 2 1 * lit 95 100) = false).
  { intros d. 
    destruct (design_and_filter L d sr low high _) as [[o s]|e] eqn:E;
      cbn [snd]; [ | discriminate ].
    intros ->. eapply design_bandpass_guarded. exact E. }
  destruct (existsb isnan data || existsb isinf data); [ | apply Hd ].
  destruct (len (filter isfinite data) <? len data * lit 5 10);
    [ discriminate | apply Hd ].
Qed.

End AppliedBand.

Section AppliedBandRuns.

Import SciPy Processor.
Local Open Scope float_scope.

(** The theorem on two periods of the sinusoid at 1 Hz with the band
    0.0005 to 0.48 Hz: both cutoffs are adjusted, to 0.005 and 0.45 Hz. *)
Lemma applied_band_is_guarded_witness :
  let p := {| low_freq := Some (lit 5 1000);
              high_freq := Some (lit 1 1 / lit 2 1 * lit 9 10);
              order := 4; sampling_rate := lit 1 1 |} in
  snd (apply_bandpass_filter Concrete.scipy (two_periods 20) (lit 1 1)
         (Some (lit 5 10000)) (Some (lit 48 100)) None) = Success bandpass p /\
  exists l h,
    low_freq p = Some l /\ high_freq p = Some h /\
    (l <=? lit 1 1000) = false /\
    (h >=? lit 1 1 / lit 2 1 * lit 95 100) = false.
Proof.
  intro p.
  assert (Hrun : snd (apply_bandpass_filter Concrete.scipy (two_periods 20) (lit 1 1)
                        (Some (lit 5 10000)) (Some (lit 48 100)) None)
                 = Success bandpass p) by (vm_compute; reflexivity).
  split; [ exact Hrun | ].
  exact (applied_band_is_guarded Concrete.scipy (two_periods 20) (lit 1 1)
           (Some (lit 5 10000)) (Some (lit 48 100)) None p Hrun).
Defined.

End AppliedBandRuns.

(** * Further properties of the station discovery *)

Section StationLists.

Import DataManager.
Local Open Scope Q_scope.

Variable env : collaborators.

Lemma round1_near (x : Q) : x - (1 # 20) <= round1 x <= x + (1 # 20).
Proof.
  unfold round1.
  pose proof (round_half_even_close (x * 10)) as H.
  apply Qabs_Qle_condition in H.
  set (r := inject_Z (round_half_even (x * 10))) in *.
  assert (Hdiv : r / 10 == r * (1 # 10)) by (unfold Qdiv; reflexivity).
  rewrite Hdiv. split; lra.
Qed.

Lemma flat_map_length_le {A B : Type} (f : A -> list B) (l : list A) :
  (forall a, length (f a) <= 1)%nat -> (length (flat_map f l) <= length l)%nat.
Proof.
  intro Hf. induction l as [|a l IH]; simpl; [ lia | ].
  rewrite length_app. specialize (Hf a). lia.
Qed.

(** The fallback list: at most [target_stations] and at most seven
    stations, in ascending distance, each inside the distance window, of
    unknown verification status and marked as a fallback station. *)
Theorem fallback_list_shape (quake : earthquake) (lo hi : Q) (target : nat) :
  let l := _fallback_station_list_optimized env quake lo hi target in
  (length l <= Nat.min target 7)%nat /\
  StronglySorted (fun a b => distance_km a <= distance_km b) l /\
  Forall (fun s => in_window lo hi s /\
                   data_verified s = None /\
                   data_source s = Some "ANALYSIS_READY_FALLBACK"%string) l.
Proof.
  unfold _fallback_station_list_optimized, sort.
  match goal with |- context [flat_map ?f analysis_ready_stations] =>
    set (stations := flat_map f analysis_ready_stations);
    assert (Hlen : (length stations <= 7)%nat);
    [ subst stations;
      change 7%nat with (length analysis_ready_stations);
      apply flat_map_length_le | ];
    [ | assert (Hall : Forall (fun s => in_window lo hi s /\
                   data_verified s = None /\
                   data_source s = Some "ANALYSIS_READY_FALLBACK"%string) stations);
        [ subst stations; apply Forall_flat_map, Forall_forall | ] ]
  end.
  - intros [[[net sta] lat] lon].
    destruct (gps2dist_azimuth env _ _ lat lon) as [[distance_m azimuth]|];
      [ | simpl; lia ].
    destruct (_ && _); simpl; lia.
  - intros [[[net sta] lat] lon] _.
    destruct (gps2dist_azimuth env _ _ lat lon) as [[distance_m azimuth]|];
      [ | constructor ].
    destruct (Qle_bool lo (distance_m / 1000)) eqn:Hlo; [ | constructor ].
    destruct (Qle_bool (distance_m / 1000) hi) eqn:Hhi; [ | constructor ].
    constructor; [ | constructor ].
    apply Qle_bool_iff in Hlo, Hhi.
    pose proof (round1_near (distance_m / 1000)) as Hnear.
    unfold in_window. cbn [distance_km data_verified data_source].
    repeat split; lra.
  - cbv zeta. split; [ | split ].
    + rewrite length_firstn, sort_by_length. lia.
    + apply StronglySorted_firstn.
      eapply StronglySorted_weaken
        with (R1 := fun a b => distance_leb a b = true) (P := fun _ => True).
      * intros a b _ _ Hab. now apply Qle_bool_iff.
      * apply Forall_forall. trivial.
      * apply sort_by_sorted; [ exact distance_leb_total | exact distance_leb_trans ].
    + now apply firstn_Forall, sort_by_Forall.
Qed.

(** The stations made from an inventory: no more than the inventory holds,
    each inside the distance window, of unknown verification status, and
    with the channel tier and the sampling rate of one of the three channel
    families (HH: 1 and 100 Hz, BH: 2 and 40 Hz, other: 3). *)
Theorem inventory_stations_shape (inv : inventory) (eq_lat eq_lon : Q)
    (eq_time : Z) (lo hi : Q) :
  let l := _process_inventory_to_stations env inv eq_lat eq_lon eq_time lo hi in
  (length l <= length (flat_map net_stations inv))%nat /\
  Forall (fun s =>
            in_window lo hi s /\
            data_verified s = None /\
            (channel_priority s = Some 1%Z /\ sample_rate s = Some 100 \/
             channel_priority s = Some 2%Z /\ sample_rate s = Some 40 \/
             channel_priority s = Some 3%Z)) l.
Proof.
  cbv zeta. unfold _process_inventory_to_stations. split.
  - induction inv as [|net inv IH]; simpl; [ lia | ].
    rewrite !length_app.
    assert (H : (length (flat_map
               (fun st => match process_station env net st eq_lat eq_lon eq_time lo hi with
                          | Ok (Some info) => [info]
                          | _ => []
                          end) (net_stations net)) <= length (net_stations net))%nat).
    { apply flat_map_length_le. intro st.
      destruct (process_station env net st eq_lat eq_lon eq_time lo hi) as [[info|]|];
        simpl; lia. }
    match goal with |- (length ?a + _ <= _)%nat =>
      match type of H with (length ?b <= _)%nat => change a with b end end.
    lia.
  - apply Forall_flat_map, Forall_forall. intros net _.
    apply Forall_flat_map, Forall_forall. intros st _.
    destruct (process_station env net st eq_lat eq_lon eq_time lo hi)
      as [[info|]|] eqn:E; try constructor; [ | constructor ].
    unfold process_station in E.
    destruct (classify_channels (channels st) [] [] []) as [[[hh bh] other]|];
      cbn [Py.bind] in E; [ | discriminate ].
    assert (Hwin : forall prio rate,
      (Py.bind (gps2dist_azimuth env eq_lat eq_lon (inv_latitude st) (inv_longitude st))
         (fun x => let '(distance_m, azimuth) := x in
            if Qltb (distance_m / 1000) lo || Qltb hi (distance_m / 1000)
            then Ok None
            else Ok (Some
              {| network := net_code net; station_code := inv_code st;
                 latitude := inv_latitude st; longitude := inv_longitude st;
                 distance_km := round1 (distance_m / 1000);
                 network_priority := Some (get (network_scores (net_code net)) 99%Z);
                 channel_priority := Some prio;
                 operational_years :=
                   Some match start_year st with
                        | Some y => (year_of env eq_time - y)%Z
                        | None => 0%Z
                        end;
                 sample_rate := Some rate;
                 data_verified := None; verified_channels := None;
                 data_source := None |})) = Ok (Some info)) ->
      in_window lo hi info /\ data_verified info = None /\
      channel_priority info = Some prio /\ sample_rate info = Some rate).
    { intros prio rate H.
      destruct (gps2dist_azimuth env eq_lat eq_lon _ _) as [[distance_m azimuth]|];
        cbn [Py.bind] in H; [ | discriminate ].
      destruct (Qltb (distance_m / 1000) lo) eqn:Hlo; [ discriminate | ].
      destruct (Qltb hi (distance_m / 1000)) eqn:Hhi; [ discriminate | ].
      cbn [orb] in H. inversion H; subst info. cbn.
      apply Qltb_false in Hlo, Hhi.
      pose proof (round1_near (distance_m / 1000)).
      unfold in_window. cbn [distance_km]. repeat split; lra. }
    destruct hh as [|h hh]; [ destruct bh as [|b bh]; [ destruct other as [|o other] | ] | ].
    + discriminate.
    + destruct (Hwin 3%Z (channel_sample_rate o) E)
        as (H1 & H2 & H3 & H4). auto 6.
    + destruct (Hwin 2%Z 40 E) as (H1 & H2 & H3 & H4). auto 6.
    + destruct (Hwin 1%Z 100 E) as (H1 & H2 & H3 & H4). auto 6.
Qed.

End StationLists.

Section Selection.

Import DataManager.
Local Open Scope Q_scope.

Lemma insert_by_In {A : Type} (le : A -> A -> bool) (x y : A) (l : list A) :
  In x (NumPy.insert_by le y l) -> x = y \/ In x l.
Proof.
  induction l as [|z l IH]; simpl.
  - intros [H|[]]; auto.
  - destruct (le y z); simpl; intuition.
Qed.

Lemma sort_by_In {A : Type} (le : A -> A -> bool) (x : A) (l : list A) :
  In x (NumPy.sort_by le l) -> In x l.
Proof.
  induction l as [|y l IH]; simpl; [ tauto | ].
  intro H. apply insert_by_In in H. intuition.
Qed.

Lemma unique_by_code_In (x : station) (l : list station) :
  forall seen, In x (unique_by_code seen l) -> In x l.
Proof.
  induction l as [|s l IH]; intro seen; simpl; [ tauto | ].
  destruct (existsb _ seen); simpl; intros H.
  - right. eapply IH. exact H.
  - destruct H as [H|H]; [ now left | right; eapply IH; exact H ].
Qed.

Lemma min_by_In {A : Type} (key : A -> Q) (l : list A) :
  forall best, In (min_by key best l) (best :: l).
Proof.
  induction l as [|x l IH]; intro best; simpl; [ now left | ].
  specialize (IH (if Qltb (key x) (key best) then x else best)).
  destruct (Qltb (key x) (key best)); simpl in IH; intuition.
Qed.

Lemma enumerate_In {A : Type} (j : nat) (x : A) (l : list A) :
  In (j, x) (enumerate l) -> In x l.
Proof.
  unfold enumerate. apply in_combine_r.
Qed.

Lemma pick_bins_incl (sorted_stations : list station) (lo hi : Q) (num : nat)
    (bins : list nat) :
  forall selected idx,
    incl selected sorted_stations ->
    incl (fst (pick_bins sorted_stations lo hi num bins selected idx)) sorted_stations.
Proof.
  induction bins as [|i bins IH]; intros selected idx Hsel; simpl; [ exact Hsel | ].
  match goal with |- context [filter ?f (enumerate sorted_stations)] =>
    remember (filter f (enumerate sorted_stations)) as avail eqn:E
  end.
  destruct avail as [|first others]; [ now apply IH | ].
  apply IH. apply incl_app; [ exact Hsel | ].
  intros s [<-|[]].
  pose proof (min_by_In
    (fun x => Qabs (distance_km (snd x) -
                    (linspace lo hi num i + linspace lo hi num (S i)) / 2))
    others first) as Hmin.
  assert (Hin : forall js, In js (first :: others) -> In (snd js) sorted_stations).
  { intros [j s] Hjs. rewrite E in Hjs. apply filter_In in Hjs.
    destruct Hjs as [Hjs _]. now apply enumerate_In in Hjs. }
  now apply Hin.
Qed.

Lemma fill_up_incl (all : list station) (items : list (nat * station)) (target : nat) :
  forall selected idx,
    (forall j s, In (j, s) items -> In s all) ->
    incl selected all ->
    incl (fill_up items target selected idx) all.
Proof.
  induction items as [|[j s] items IH]; intros selected idx Hitems Hsel; simpl;
    [ exact Hsel | ].
  destruct (negb (mem j idx) && (length selected <? target)%nat).
  - apply IH.
    + intros j' s' H. eapply Hitems. right. exact H.
    + apply incl_app; [ exact Hsel | ].
      intros x [<-|[]]. eapply Hitems. left. reflexivity.
  - apply IH; [ | exact Hsel ].
    intros j' s' H. eapply Hitems. right. exact H.
Qed.

Lemma fill_from_incl (all remaining : list station) (target : nat) :
  forall selected,
    incl remaining all -> incl selected all ->
    incl (fill_from remaining target selected) all.
Proof.
  induction remaining as [|s remaining IH]; intros selected Hrem Hsel; simpl;
    [ exact Hsel | ].
  destruct (length selected <? target)%nat; [ | exact Hsel ].
  apply IH.
  - intros x Hx. apply Hrem. now right.
  - apply incl_app; [ exact Hsel | ].
    intros x [<-|[]]. apply Hrem. now left.
Qed.

Lemma firstn_incl {A : Type} (n : nat) (l : list A) : incl (firstn n l) l.
Proof.
  revert n. induction l as [|x l IH]; intros [|n]; simpl.
  - intros y [].
  - intros y [].
  - intros y [].
  - intros y [<-|H]; [ now left | right; now apply (IH n) ].
Qed.

(** The selection returns stations of its input only, never more than
    [target_count] of them, and the whole input, in its order, when the
    input is not larger than [target_count]. *)
Theorem selection_is_subset (stations selected : list station) (target_count : nat) :
  _select_distributed_stations stations target_count = Ok selected ->
  incl selected stations /\
  (length selected <= target_count)%nat /\
  ((length stations <= target_count)%nat -> selected = stations).
Proof.
  intro Hsel.
  split; [ | split; [ now apply select_length with (stations := stations) | ] ].
  - revert Hsel. unfold _select_distributed_stations.
    destruct (length stations <=? target_count)%nat.
    { intros [= <-]. apply incl_refl. }
    destruct (100 <? length stations)%nat.
    + destruct (length (unique_by_code [] stations) <=? target_count)%nat.
      { intros [= <-]. intros x Hx. eapply unique_by_code_In. exact Hx. }
      assert (Hsorted : incl (sort distance_leb (unique_by_code [] stations)) stations).
      { intros x Hx. apply sort_by_In in Hx. eapply unique_by_code_In. exact Hx. }
      destruct (sort distance_leb (unique_by_code [] stations)) as [|nearest rest] eqn:E;
        [ discriminate | ].
      pose proof (pick_bins_incl (nearest :: rest) (distance_km nearest)
                    (distance_km (last (nearest :: rest) nearest)) target_count
                    (seq 0 target_count) [] [] (incl_nil_l _)) as Hpick.
      destruct (pick_bins _ _ _ _ _ _ _) as [picked idx]. cbn [fst] in Hpick.
      assert (Hfill : incl (fill_up (enumerate (nearest :: rest)) target_count
                                    picked idx) (nearest :: rest)).
      { apply fill_up_incl; [ | exact Hpick ].
        intros j s Hjs. now apply enumerate_In in Hjs. }
      remember (fill_up (enumerate (nearest :: rest)) target_count picked idx)
        as filled eqn:Efilled.
      clear Efilled. intros [= <-].
      eapply incl_tran; [ apply firstn_incl | ].
      eapply incl_tran; [ | exact Hsorted ].
      destruct (length picked <? target_count)%nat; [ exact Hfill | exact Hpick ].
    + assert (Hsorted : incl (sort distance_leb stations) stations).
      { intros x Hx. now apply sort_by_In in Hx. }
      destruct (sort distance_leb stations) as [|nearest rest] eqn:E; [ discriminate | ].
      destruct (target_count =? 0)%nat; [ discriminate | ].
      cbv zeta.
      match goal with
      | |- Ok (firstn _ (fill_from ?r _ ?s)) = _ -> _ =>
          assert (Hfill : incl (fill_from r target_count s) (nearest :: rest));
            [ apply fill_from_incl
            | remember (fill_from r target_count s) as filled eqn:Efilled;
              clear Efilled; intros [= <-];
              eapply incl_tran; [ apply firstn_incl | ];
              eapply incl_tran; [ exact Hfill | exact Hsorted ] ]
      end.
      * intros x Hx. apply filter_In in Hx. tauto.
      * intros x Hx. apply in_flat_map in Hx. destruct Hx as (bucket & Hb & Hx).
        apply in_flat_map in Hb. destruct Hb as (i & _ & Hb).
        match type of Hb with In _ (match ?f with _ => _ end) =>
          remember f as content eqn:Ec end.
        destruct content as [|c0 content]; [ destruct Hb | ].
        destruct Hb as [<-|[]].
        destruct (sort bucket_leb (c0 :: content)) as [|best others] eqn:Eb;
          [ destruct Hx | ].
        destruct Hx as [<-|[]].
        assert (Hbest : In best (c0 :: content)).
        { apply (sort_by_In bucket_leb). unfold sort in Eb. rewrite Eb. now left. }
        rewrite Ec in Hbest. apply filter_In in Hbest. tauto.
  - intro Hle. revert Hsel. unfold _select_distributed_stations.
    apply Nat.leb_le in Hle. rewrite Hle. intro H. now inversion H.
Qed.

Lemma selection_is_subset_witness :
  let selected := firstn 2 three_stations in
  _select_distributed_stations three_stations 2 = Ok selected /\
  incl selected three_stations /\
  (length selected <= 2)%nat.
Proof.
  intro selected.
  assert (Hrun : _select_distributed_stations three_stations 2 = Ok selected)
    by (vm_compute; reflexivity).
  split; [ exact Hrun | ].
  destruct (selection_is_subset three_stations selected 2 Hrun) as (Hin & Hlen & _).
  split; assumption.
Defined.

End Selection.

Section Verification.

Import DataManager.
Local Open Scope Q_scope.

Variable env : collaborators.

Lemma filter_insert_by_length {A : Type} (le : A -> A -> bool) (f : A -> bool)
    (x : A) (l : list A) :
  length (filter f (NumPy.insert_by le x l)) = length (filter f (x :: l)).
Proof.
  induction l as [|y l IH]; [ reflexivity | ].
  cbn [NumPy.insert_by]. destruct (le x y); [ reflexivity | ].
  cbn [filter] in *. destruct (f y), (f x); cbn [length] in *; lia.
Qed.

Lemma filter_sort_by_length {A : Type} (le : A -> A -> bool) (f : A -> bool)
    (l : list A) :
  length (filter f (NumPy.sort_by le l)) = length (filter f l).
Proof.
  induction l as [|x l IH]; [ reflexivity | ].
  cbn [NumPy.sort_by]. rewrite filter_insert_by_length.
  cbn [filter]. destruct (f x); cbn [length]; lia.
Qed.

Lemma collect_counts (completed : list (result station)) (target : nat) :
  forall (validated : list station) (vc : nat),
    vc = length (filter verified validated) ->
    (vc <= target * 2)%nat ->
    (length (filter verified (fst (collect completed target validated vc)))
       <= target * 2)%nat.
Proof.
  induction completed as [|future completed IH]; intros validated vc Hvc Hle;
    cbn [collect].
  - cbn [fst]. lia.
  - destruct (Nat.leb_spec (target * 2) vc) as [Hstop|Hgo]; [ cbn [fst]; lia | ].
    destruct future as [r|e]; [ | now apply IH ].
    apply IH.
    + rewrite filter_app, length_app. cbn [filter].
      destruct (verified r); cbn [length]; lia.
    + destruct (verified r); lia.
Qed.

Lemma collect_Forall (P : station -> Prop) (completed : list (result station))
    (target : nat) :
  forall (validated : list station) (vc : nat),
    Forall P validated ->
    (forall r, In (Ok r) completed -> P r) ->
    Forall P (fst (collect completed target validated vc)).
Proof.
  induction completed as [|future completed IH]; intros validated vc Hv Hc;
    cbn [collect]; [ exact Hv | ].
  destruct (target * 2 <=? vc)%nat; [ exact Hv | ].
  destruct future as [r|e].
  - apply IH.
    + apply Forall_app. split; [ exact Hv | ].
      constructor; [ | constructor ]. apply Hc. now left.
    + intros r' Hr'. apply Hc. now right.
  - apply IH; [ exact Hv | ].
    intros r' Hr'. apply Hc. now right.
Qed.

(** The probe of one station swallows every failure of the waveform
    service, changes nothing but the two verification fields, and always
    leaves a definite answer: verified with the channel family that
    answered (HH before BH), or not verified. *)
Lemma validate_single_fields (s : station) :
  let r := validate_single env s in
  set_data_verified s (data_verified r) (verified_channels r) = r /\
  (data_verified r = Some true /\
     (verified_channels r = Some "HH?"%string \/
      verified_channels r = Some "BH?"%string) \/
   data_verified r = Some false /\ verified_channels r = verified_channels s).
Proof.
  unfold validate_single.
  destruct (get_waveforms env (network s) (station_code s) "HH?") as [hh|e1];
    [ destruct (0 <? hh)%nat | ];
    (try (cbn; split; [ reflexivity | left; split; [ reflexivity | now left ] ]));
    (destruct (get_waveforms env (network s) (station_code s) "BH?") as [bh|e2];
      [ destruct (0 <? bh)%nat | ]);
    cbn; split; try reflexivity;
    solve [ left; split; [ reflexivity | now right ]
          | right; split; reflexivity ].
Qed.

(** The verification step never reports more than twice [target_count]
    verified stations.  When the completion order lists submitted probes
    only, every returned station is an input station whose two verification
    fields alone were rewritten, and each carries a definite answer. *)
Theorem verification_result (stations : list station) (target_count : nat) :
  let futures := map (fun s => Ok (validate_single env s)) stations in
  let result := _validate_stations_parallel env stations target_count in
  incl (as_completed env futures) futures ->
  (length (filter verified result) <= target_count * 2)%nat /\
  Forall (fun r =>
            exists s, In s stations /\
              set_data_verified s (data_verified r) (verified_channels r) = r /\
              data_verified r <> None /\
              (verified r = true ->
               verified_channels r = Some "HH?"%string \/
               verified_channels r = Some "BH?"%string))
         result.
Proof.
  intros futures result Hdone. subst result.
  unfold _validate_stations_parallel, sort. fold futures. split.
  - rewrite filter_sort_by_length. apply collect_counts; [ reflexivity | lia ].
  - apply sort_by_Forall. apply collect_Forall; [ constructor | ].
    intros r Hr. apply Hdone in Hr. unfold futures in Hr.
    apply in_map_iff in Hr. destruct Hr as (s & Hs & Hin).
    injection Hs as <-. exists s. split; [ exact Hin | ].
    destruct (validate_single_fields s) as (Hsame & [(Hv & Hch)|(Hv & Hch)]).
    + split; [ exact Hsame | ]. split; [ congruence | ]. intros _. exact Hch.
    + split; [ exact Hsame | ]. split; [ congruence | ].
      unfold verified. rewrite Hv. discriminate.
Qed.

End Verification.

Section VerificationRuns.

Import DataManager.

Lemma verification_result_witness :
  let futures := map (fun s => Ok (validate_single equator_world s)) three_stations in
  incl (as_completed equator_world futures) futures /\
  (length (filter verified
             (_validate_stations_parallel equator_world three_stations 1))
     <= 1 * 2)%nat.
Proof.
  intro futures.
  assert (Hdone : incl (as_completed equator_world futures) futures)
    by apply incl_refl.
  split; [ exact Hdone | ].
  exact (proj1 (verification_result equator_world three_stations 1 Hdone)).
Defined.

End VerificationRuns.

(** * Further properties: filter presets, timing check, waveform pipeline *)

Section DesignFacts.

Import SciPy Processor Pipeline.
Local Open Scope float_scope.

Variable L : lib.

Lemma preset_bands (name : string) (band : float * float) :
  lookup name filter_bands = Some (Some band) ->
  exists lo hi, band = (Fin lo, Fin hi) /\ (0 < lo)%Q /\ (lo < hi)%Q.
Proof.
  unfold filter_bands. cbn [lookup].
  repeat (destruct (String.eqb name _);
          [ intros [= <-]; try (eexists; eexists; split; [ reflexivity | split; reflexivity ])
          | ]);
    discriminate.
Qed.

(** A preset band designed by [design_custom_filter] at a positive
    sampling rate keeps the low cutoff of the preset, and its high cutoff is
    the preset's or nine tenths of the Nyquist frequency; in both cases it
    is at most 95 % of the Nyquist frequency.  The coefficients are those of
    [butter] for the two cutoffs divided by the Nyquist frequency. *)
Theorem designed_band_below_nyquist (name label : string) (rate : Q)
    (order : option nat) (c : ba L) (low high : float) :
  (0 < rate)%Q ->
  design_custom_filter L name (Fin rate) order = Ok (Band L c label low high) ->
  exists preset_high,
    label = name /\
    lookup name filter_bands = Some (Some (low, preset_high)) /\
    (high = preset_high \/ high = Fin rate / lit 2 1 * lit 9 10) /\
    (high <=? Fin rate / lit 2 1 * lit 95 100) = true /\
    butter L (match order with Some o => o | None => 4%nat end)
      [low / (Fin rate / lit 2 1); high / (Fin rate / lit 2 1)] band = Ok c.
Proof.
  intros Hrate. unfold design_custom_filter.
  destruct (lookup name filter_bands) as [[[lo hi]|]|] eqn:Eband; try discriminate.
  destruct (preset_bands name (lo, hi) Eband) as (ql & qh & [= -> ->] & Hlo & Hlh).
  assert (Hny : Fin rate / lit 2 1 = Fin (rate / (2 # 1))).
  { unfold lit. cbn [fdiv]. reflexivity. }
  rewrite Hny.
  assert (Hnz : Qzerob (rate / (2 # 1)) = false).
  { unfold Qzerob. destruct (Qeq_bool (rate / (2 # 1)) 0) eqn:E; [ | reflexivity ].
    apply Qeq_bool_eq in E.
    assert (E2 : (rate / (2 # 1) == rate * (1 # 2))%Q) by (unfold Qdiv; reflexivity).
    rewrite E2 in E. lra. }
  set (hi' := if Fin qh >? Fin (rate / (2 # 1)) * lit 95 100
              then Fin (rate / (2 # 1)) * lit 9 10 else Fin qh).
  unfold py_div at 1. rewrite Hnz. cbn [Py.bind].
  unfold py_div at 1. rewrite Hnz. cbn [Py.bind].
  destruct (butter L _ _ band) as [c'|e] eqn:Eb; cbn [Py.bind]; [ | discriminate ].
  intros [= <- <- <- <-]. exists (Fin qh).
  split; [ reflexivity | ]. split; [ reflexivity | ].
  split; [ subst hi'; destruct (_ >? _); auto | ].
  split; [ | exact Eb ].
  subst hi'. unfold lit, fgtb. cbn [fmul fltb fleb].
  destruct (Qltb ((rate / (2 # 1)) * (95 # 100)) qh) eqn:E; cbn [fleb].
  - apply Qle_bool_iff.
    assert (E2 : (rate / (2 # 1) == rate * (1 # 2))%Q) by (unfold Qdiv; reflexivity).
    rewrite E2. lra.
  - unfold Qltb in E. apply negb_false_iff in E. exact E.
Qed.

End DesignFacts.

Section DesignRuns.

Import SciPy Processor Pipeline.
Local Open Scope float_scope.

(** The theorem on the preset of the P waves at 20 Hz, where the high
    cutoff of 10 Hz is lowered to 9 Hz. *)
Lemma designed_band_below_nyquist_witness :
  let nyquist := Fin 20 / lit 2 1 in
  let high := nyquist * lit 9 10 in
  (0 < 20)%Q /\
  design_custom_filter Concrete.scipy "p_waves" (Fin 20) None
    = Ok (Band Concrete.scipy (4%nat, [lit 1 1 / nyquist; high / nyquist], band)
            "p_waves" (lit 1 1) high) /\
  (high <=? nyquist * lit 95 100) = true.
Proof.
  intros nyquist high.
  assert (Hrate : (0 < 20)%Q) by reflexivity.
  assert (Hrun : design_custom_filter Concrete.scipy "p_waves" (Fin 20) None
            = Ok (Band Concrete.scipy
                    (4%nat, [lit 1 1 / nyquist; high / nyquist], band)
                    "p_waves" (lit 1 1) high)) by reflexivity.
  split; [ exact Hrate | ]. split; [ exact Hrun | ].
  destruct (designed_band_below_nyquist Concrete.scipy "p_waves" "p_waves" 20 None
              _ (lit 1 1) high Hrate Hrun) as (preset & _ & _ & _ & Hle & _).
  exact Hle.
Defined.

End DesignRuns.

Section TimingFacts.

Import Pipeline.
Local Open Scope float_scope.

Variable P : parsers.

(** The timing check only rejects on a comparison it has made: a negative
    verdict comes with the figures of the comparison, in which the observed
    difference is not below the tolerance and the tolerance is not below
    5 s.  Missing, unreadable and unparsable arrivals are all accepted. *)
Theorem timing_rejection (eq_time : time_value) (distance_km : option float)
    (p_arrival : value) :
  let outcome := validate_earthquake_timing P eq_time distance_km p_arrival in
  fst (fst outcome) = false ->
  exists info,
    snd outcome = Some info /\
    snd (fst outcome) = Stor_timing_forskel (time_difference info) /\
    (time_difference info <? threshold info) = false /\
    (threshold info <? lit 5 1) = false /\
    exists x, p_arrival = VNum x \/
              (exists s, p_arrival = VStr s /\ contains "UTCDateTime" s = true).
Proof.
  cbv zeta. unfold validate_earthquake_timing, timing_try.
  set (parsed := match eq_time with
                 | TStr s => t <- utc_of_string P s;; Ok (Some t)
                 | TUtc t => Ok (Some t)
                 | TNone => Ok None
                 end).
  destruct parsed as [t0|e]; cbn [Py.bind fst snd]; [ | discriminate ].
  set (seconds := match p_arrival with
                  | VStr s => _
                  | VNum x => _
                  | _ => _
                  end).
  assert (Hnum : forall p, seconds = Ok (Some p) ->
            exists x, p_arrival = VNum x \/
              (exists s, p_arrival = VStr s /\ contains "UTCDateTime" s = true)).
  { subst seconds. intros p. destruct p_arrival as [|s|x|]; try discriminate.
    - destruct (contains "UTCDateTime" s) eqn:E; [ | discriminate ].
      intros _. exists NaN. right. now exists s.
    - intros _. exists x. now left. }
  destruct seconds as [[p|]|e]; cbn [Py.bind fst snd]; try discriminate.
  intro Hbad. eexists. split; [ reflexivity | ].
  cbn [time_difference threshold].
  split; [ rewrite Hbad; reflexivity | ]. split; [ exact Hbad | ].
  split; [ | now apply (Hnum p) ].
  unfold py_max. destruct (lit 5 1 >? _) eqn:E; [ reflexivity | exact E ].
Qed.

End TimingFacts.

Section TimingRuns.

Import Pipeline.
Local Open Scope float_scope.

(** The theorem on a station at 750 km (expected arrival after 100 s,
    tolerance 10 s) with an arrival read at 120 s. *)
Lemma timing_rejection_witness :
  let outcome :=
    validate_earthquake_timing strict_parsers (TUtc 0) (Some (lit 750 1))
      (VNum (lit 120 1)) in
  fst (fst outcome) = false /\
  exists info,
    snd outcome = Some info /\
    (time_difference info <? threshold info) = false.
Proof.
  intro outcome.
  assert (Hbad : fst (fst outcome) = false) by (vm_compute; reflexivity).
  split; [ exact Hbad | ].
  destruct (timing_rejection strict_parsers (TUtc 0) (Some (lit 750 1))
              (VNum (lit 120 1)) Hbad) as (info & Hinfo & _ & Hdiff & _).
  exists info. split; assumption.
Defined.

End TimingRuns.

Section PipelineFacts.

Import SciPy Processor Pipeline.
Local Open Scope float_scope.

Variable L : lib.

Lemma finite_forallb (a : list float) : finite a <-> forallb isfinite a = true.
Proof.
  unfold finite. rewrite forallb_forall, Forall_forall. reflexivity.
Qed.

Lemma nth_finite (a : list float) (i : nat) (d : float) :
  finite a -> isfinite d = true -> isfinite (nth i a d) = true.
Proof.
  intros Ha Hd. destruct (nth_in_or_default i a d) as [Hin| ->]; [ | exact Hd ].
  unfold finite in Ha. rewrite Forall_forall in Ha. now apply Ha.
Qed.

Lemma medfilt_finite (data : list float) (k : nat) :
  finite data -> finite (medfilt data k).
Proof.
  intro Hd. unfold medfilt, finite. apply Forall_forall. intros x Hx.
  apply in_map_iff in Hx. destruct Hx as (i & <- & _).
  apply nth_finite; [ | reflexivity ].
  apply sort_by_Forall. unfold window. apply Forall_forall. intros y Hy.
  apply in_map_iff in Hy. destruct Hy as (j & <- & _).
  destruct (i + j <? k / 2)%nat; [ reflexivity | ].
  now apply nth_finite.
Qed.

Lemma set_item_finite (a : list float) (i : nat) (v : float) :
  finite a -> isfinite v = true -> finite (NumPy.set_item a i v).
Proof.
  intros Ha Hv. revert i. induction Ha as [|x a Hx Ha IH]; intros [|i]; simpl;
    constructor; auto.
  apply IH.
Qed.

Lemma where_from_bound (mask : list bool) :
  forall i j, In j (NumPy.where_from i mask) -> (j < i + length mask)%nat.
Proof.
  induction mask as [|b mask IH]; intros i j; simpl; [ tauto | ].
  destruct b; simpl; [ intros [<-|H] | intro H ]; try lia;
    apply IH in H; lia.
Qed.

Lemma assign_from_finite (idx : list nat) (a b : list float) :
  finite a -> Forall (fun i => isfinite (nth i b NaN) = true) idx ->
  finite (NumPy.assign_from a idx b).
Proof.
  unfold NumPy.assign_from. intros Ha Hidx. revert a Ha.
  induction Hidx as [|i idx Hi Hidx IH]; intros a Ha; simpl; [ exact Ha | ].
  apply IH. now apply set_item_finite.
Qed.

Lemma remove_spikes_finite (data : list float) (threshold : option float) :
  finite data -> finite (fst (remove_spikes data threshold)).
Proof.
  intro Hd. unfold remove_spikes.
  destruct (_ >? of_Z 0); cbn [fst]; [ | exact Hd ].
  match goal with |- context [NumPy.where_ ?m] => set (mask := m) end.
  destruct (0 <? length (NumPy.where_ mask))%nat; [ | exact Hd ].
  apply assign_from_finite; [ exact Hd | ].
  apply Forall_forall. intros i Hi.
  apply where_from_bound in Hi.
  assert (Hlen : length mask = length data).
  { subst mask. unfold NumPy.abs. now rewrite !length_map. }
  assert (Hmed : length (medfilt data 5) = length data).
  { unfold medfilt. now rewrite length_map, length_seq. }
  pose proof (medfilt_finite data 5 Hd) as Hfin.
  unfold finite in Hfin. rewrite Forall_forall in Hfin.
  apply Hfin, nth_In. lia.
Qed.

Lemma apply_bandpass_finite (data : list float) (sr : float)
    (low high : option float) (n : option nat) :
  finite data -> finite (fst (apply_bandpass_filter L data sr low high n)).
Proof.
  intro Hd. pose proof Hd as Hfin.
  apply finite_forallb, clean_is_finite in Hfin.
  unfold apply_bandpass_filter.
  destruct (length data =? 0)%nat; [ exact Hd | ].
  rewrite Hfin.
  pose proof (design_and_filter_validated L data sr low high
                (match n with Some o => o | None => filter_order end)) as Hout.
  destruct (design_and_filter L data sr low high
              (match n with Some o => o | None => filter_order end))
    as [[o [ft p|r]]|e]; cbn [fst].
  - now apply finite_forallb.
  - now subst o.
  - exact Hd.
Qed.

Lemma find_data_highres_first (w : waveform) (c : channel_name) :
  find_data w (match highres w with [] => false | _ => true end) c =
  match first_present (component_mapping c) (highres w) with
  | Some d => Some d
  | None =>
      match displacement_data w with
      | Some dd => lookup (component_key c) dd
      | None => None
      end
  end.
Proof.
  unfold find_data. destruct (highres w) as [|entry rest]; [ | reflexivity ].
  now destruct c.
Qed.

(** The entries of one component after [process_component], by cases on what
    the loop did. *)
Lemma process_component_cases (w : waveform) (has_highres : bool) (sr : float)
    (low high : option float) (rs cn : bool) (c : channel_name) :
  let r := process_component L w has_highres sr low high rs cn c in
  match find_data w has_highres c with
  | None =>
      original_data r = None /\ filtered_data r = None /\ spike_info r = None /\
      noise_info r = None /\ status_of r = no_data
  | Some d =>
      let cleaned := if rs then fst (remove_spikes d None) else d in
      original_data r = Some d /\
      spike_info r = (if rs then Some (snd (remove_spikes d None)) else None) /\
      ((filtered_data r =
          Some (match low, high with
                | None, None => cleaned
                | _, _ => fst (apply_bandpass_filter L cleaned sr low high None)
                end) /\
        (status_of r = status_success \/
         (exists why, status_of r = status_reason why /\
                      (low <> None \/ high <> None)) /\ noise_info r = None) /\
        (noise_info r <> None -> cn = true /\ status_of r = status_success)) \/
       (filtered_data r = Some d /\ noise_info r = None /\ cn = true /\
        exists e, status_of r = status_error e))
  end.
Proof.
  cbv zeta. unfold process_component.
  destruct (find_data w has_highres c) as [d|]; [ | repeat split ].
  destruct rs.
  - destruct (remove_spikes d None) as [cleaned count] eqn:Espikes. cbn [fst snd].
    destruct low as [lf|], high as [hf|];
      try (destruct (apply_bandpass_filter L cleaned sr _ _ None)
             as [filtered [ft p|why]] eqn:Efilter; cbn [fst]);
      destruct cn; cbn [andb];
      try (destruct (noise_of L _ sr) as [n|e]);
      cbn [original_data filtered_data spike_info noise_info status_of];
      (split; [ reflexivity | split; [ reflexivity | ] ]);
      try (left; split; [ reflexivity | ];
           split; [ first [ now left
                          | right; split; [ eexists; split; [ reflexivity | ];
                                            first [ left; discriminate
                                                  | right; discriminate ]
                                          | reflexivity ] ]
                  | first [ intros _; split; reflexivity
                          | intro Habs; now contradiction Habs ] ]);
      try (right; repeat split; eexists; reflexivity).
  - destruct low as [lf|], high as [hf|];
      try (destruct (apply_bandpass_filter L d sr _ _ None)
             as [filtered [ft p|why]] eqn:Efilter; cbn [fst]);
      destruct cn; cbn [andb];
      try (destruct (noise_of L _ sr) as [n|e]);
      cbn [original_data filtered_data spike_info noise_info status_of];
      (split; [ reflexivity | split; [ reflexivity | ] ]);
      try (left; split; [ reflexivity | ];
           split; [ first [ now left
                          | right; split; [ eexists; split; [ reflexivity | ];
                                            first [ left; discriminate
                                                  | right; discriminate ]
                                          | reflexivity ] ]
                  | first [ intros _; split; reflexivity
                          | intro Habs; now contradiction Habs ] ]);
      try (right; repeat split; eexists; reflexivity).
Qed.

(** The dictionaries returned by [process_waveform_with_filtering] agree
    on every component: its original samples are the input samples, taken
    from the high-resolution entry when there is one and from the
    displacement data otherwise; filtered samples and a status other than
    no_data are present exactly when original samples are; a spike count
    is present exactly when spikes were to be removed; a noise estimate
    only with a successful filter.  Nothing is returned only for an empty
    input. *)
Theorem pipeline_entries (w : waveform) (filter_type : filter_choice)
    (rs cn : bool) :
  match process_waveform_with_filtering L (Some w) filter_type rs cn with
  | None => falsy (Some w) = true
  | Some out =>
      forall c,
        let r := channel out c in
        original_data r =
          match first_present (component_mapping c) (highres w) with
          | Some d => Some d
          | None =>
              match displacement_data w with
              | Some dd => lookup (component_key c) dd
              | None => None
              end
          end /\
        (filtered_data r = None <-> original_data r = None) /\
        (status_of r = no_data <-> original_data r = None) /\
        (spike_info r = None <-> original_data r = None \/ rs = false) /\
        (noise_info r <> None -> cn = true /\ status_of r = status_success)
  end.
Proof.
  unfold process_waveform_with_filtering.
  destruct (falsy (Some w)); [ reflexivity | ].
  destruct (filter_parameters filter_type) as [[name low] high].
  intro c. cbn [channel].
  pose proof (process_component_cases w
                (match highres w with [] => false | _ => true end)
                (match wf_sampling_rate w with Some r => r | None => lit 100 1 end)
                low high rs cn c) as Hcases.
  cbv zeta in Hcases. rewrite find_data_highres_first in Hcases.
  cbv zeta.
  match goal with |- context [process_component L w ?h ?sr low high rs cn c] =>
    set (r := process_component L w h sr low high rs cn c) in *
  end.
  destruct (match first_present (component_mapping c) (highres w) with
            | Some d => Some d
            | None => _
            end) as [d|].
  - destruct Hcases as (Ho & Hs & [(Hf & Hst & Hn)|(Hf & Hn & Hcn & e & He)]);
      rewrite Ho, Hf.
    + split; [ reflexivity | ].
      split; [ split; discriminate | ].
      split.
      { split; [ | discriminate ].
        intro Habs. destruct Hst as [Hst|[(why & Hst & _) _]]; rewrite Hst in Habs;
          discriminate. }
      split; [ | exact Hn ].
      split.
      * rewrite Hs. destruct rs; [ discriminate | now right ].
      * intros [Habs| ->]; [ discriminate | exact Hs ].
    + split; [ reflexivity | ].
      split; [ split; discriminate | ].
      split; [ rewrite He; split; discriminate | ].
      split; [ | intro Habs; now contradiction Habs ].
      split.
      * rewrite Hs. destruct rs; [ discriminate | now right ].
      * intros [Habs| ->]; [ discriminate | exact Hs ].
  - destruct Hcases as (Ho & Hf & Hs & Hn & Hst). rewrite Ho, Hf, Hs, Hn, Hst.
    split; [ reflexivity | ]. split; [ tauto | ]. split; [ tauto | ].
    split; [ split; auto | ].
    intro Habs. now contradiction Habs.
Qed.

(** Without a band (the preset broadband, a name that is no preset, no
    filter at all, or a custom pair of two [None]) the filtered samples of a
    component are its samples after the removal of spikes, or its samples
    as they are when spikes are kept, and the status is success.  The only
    other outcome is a failed noise estimate, which puts the original
    samples back. *)
Theorem broadband_passthrough (w : waveform) (filter_type : filter_choice)
    (rs cn : bool) (out : processed) (c : channel_name) (d : list float) :
  match filter_type with
  | Custom low_freq high_freq => low_freq = None /\ high_freq = None
  | Named name => forall band, lookup name filter_bands <> Some (Some band)
  | Unnamed => True
  end ->
  process_waveform_with_filtering L (Some w) filter_type rs cn = Some out ->
  original_data (channel out c) = Some d ->
  (status_of (channel out c) = status_success /\
   filtered_data (channel out c) =
     Some (if rs then fst (remove_spikes d None) else d)) \/
  (cn = true /\ filtered_data (channel out c) = Some d /\
   exists e, status_of (channel out c) = status_error e).
Proof.
  intros Hchoice. unfold process_waveform_with_filtering.
  destruct (falsy (Some w)); [ discriminate | ].
  assert (Hparams : exists name, filter_parameters filter_type = (name, None, None)).
  { unfold filter_parameters. destruct filter_type as [lo hi|name|].
    - destruct Hchoice as [-> ->]. eexists. reflexivity.
    - destruct (lookup name filter_bands) as [[band|]|] eqn:E;
        [ now destruct (Hchoice band) | | ]; eexists; reflexivity.
    - eexists. reflexivity. }
  destruct Hparams as [name ->].
  intros [= <-]. cbn [channel].
  match goal with |- context [process_component L w ?h ?sr None None rs cn c] =>
    pose proof (process_component_cases w h sr None None rs cn c) as Hcases;
    cbv zeta in Hcases;
    set (r := process_component L w h sr None None rs cn c) in *;
    destruct (find_data w h c) as [d'|]
  end.
  - destruct Hcases as (Ho & _ & [(Hf & Hst & _)|(Hf & _ & Hcn & e & He)]);
      rewrite Ho; intros [= ->].
    + left. split; [ | exact Hf ].
      destruct Hst as [Hst|[(why & _ & [Habs|Habs]) _]];
        [ exact Hst | now contradiction Habs | now contradiction Habs ].
    + right. split; [ exact Hcn | ]. split; [ exact Hf | ]. now exists e.
  - destruct Hcases as (Ho & _). rewrite Ho. discriminate.
Qed.

(** Finite samples stay finite: a component whose original samples hold no
    NaN and no infinity has filtered samples of which every one is finite,
    whatever the filter, with or without spike removal, and whether the
    filter succeeds or fails. *)
Theorem pipeline_keeps_finite (w : waveform) (filter_type : filter_choice)
    (rs cn : bool) (out : processed) (c : channel_name) (d : list float) :
  process_waveform_with_filtering L (Some w) filter_type rs cn = Some out ->
  original_data (channel out c) = Some d ->
  forallb isfinite d = true ->
  exists filtered,
    filtered_data (channel out c) = Some filtered /\
    forallb isfinite filtered = true.
Proof.
  unfold process_waveform_with_filtering.
  destruct (falsy (Some w)); [ discriminate | ].
  destruct (filter_parameters filter_type) as [[name low] high].
  intros [= <-]. cbn [channel].
  match goal with |- context [process_component L w ?h ?sr low high rs cn c] =>
    pose proof (process_component_cases w h sr low high rs cn c) as Hcases;
    cbv zeta in Hcases;
    set (r := process_component L w h sr low high rs cn c) in *;
    destruct (find_data w h c) as [d'|]
  end.
  - destruct Hcases as (Ho & _ & [(Hf & _)|(Hf & _)]);
      rewrite Ho; intros [= ->] Hfin; apply finite_forallb in Hfin;
      (eexists; split; [ exact Hf | ]); apply finite_forallb; [ | exact Hfin ].
    assert (Hclean : finite (if rs then fst (remove_spikes d None) else d)).
    { destruct rs; [ now apply remove_spikes_finite | exact Hfin ]. }
    destruct low, high; try exact Hclean; now apply apply_bandpass_finite.
  - destruct Hcases as (Ho & _). rewrite Ho. discriminate.
Qed.

End PipelineFacts.

Section PipelineRuns.

Import SciPy Processor Pipeline.
Local Open Scope float_scope.

(** The theorem on the record at 20 Hz with a filter name that is no
    preset: the vertical component is taken from the high-resolution trace
    and comes back with its spikes removed only. *)
Lemma broadband_passthrough_witness :
  let out :=
    {| filter_info_of :=
         {| info_type := Broadband_name; info_low_freq := None;
            info_high_freq := None; info_sampling_rate := lit 20 1 |};
       used_highres := true;
       channel :=
         process_component Concrete.scipy ramp_record true (lit 20 1)
           None None true false |} in
  process_waveform_with_filtering Concrete.scipy (Some ramp_record)
    (Named "raw") true false = Some out /\
  original_data (channel out vertical) = Some ramp20 /\
  status_of (channel out vertical) = status_success /\
  filtered_data (channel out vertical) = Some (fst (remove_spikes ramp20 None)).
Proof.
  intro out.
  assert (Hname : forall band, lookup "raw" filter_bands <> Some (Some band))
    by (intros band; discriminate).
  assert (Hrun : process_waveform_with_filtering Concrete.scipy (Some ramp_record)
                   (Named "raw") true false = Some out) by reflexivity.
  assert (Horig : original_data (channel out vertical) = Some ramp20)
    by reflexivity.
  split; [ exact Hrun | ]. split; [ exact Horig | ].
  destruct (broadband_passthrough Concrete.scipy ramp_record (Named "raw") true
              false out vertical ramp20 Hname Hrun Horig)
    as [(Hst & Hf)|(Hcn & _)]; [ split; assumption | discriminate ].
Defined.

(** The theorem on the same record with the preset of the P waves: the
    north component, taken from the displacement data, stays finite. *)
Lemma pipeline_keeps_finite_witness :
  let out :=
    {| filter_info_of :=
         {| info_type := Preset_name "p_waves"; info_low_freq := Some (lit 1 1);
            info_high_freq := Some (lit 10 1); info_sampling_rate := lit 20 1 |};
       used_highres := true;
       channel :=
         process_component Concrete.scipy ramp_record true (lit 20 1)
           (Some (lit 1 1)) (Some (lit 10 1)) true true |} in
  process_waveform_with_filtering Concrete.scipy (Some ramp_record)
    (Named "p_waves") true true = Some out /\
  original_data (channel out north) = Some spiky /\
  forallb isfinite spiky = true /\
  exists filtered,
    filtered_data (channel out north) = Some filtered /\
    forallb isfinite filtered = true.
Proof.
  intro out.
  assert (Hrun : process_waveform_with_filtering Concrete.scipy (Some ramp_record)
                   (Named "p_waves") true true = Some out) by reflexivity.
  assert (Horig : original_data (channel out north) = Some spiky)
    by (vm_compute; reflexivity).
  assert (Hfin : forallb isfinite spiky = true) by reflexivity.
  split; [ exact Hrun | ]. split; [ exact Horig | ]. split; [ exact Hfin | ].
  exact (pipeline_keeps_finite Concrete.scipy ramp_record (Named "p_waves") true
           true out north spiky Hrun Horig Hfin).
Defined.

End PipelineRuns.

(** * Further properties: cache, earthquake catalog, export *)

Section CacheFacts.

Local Open Scope Q_scope.

Variables K D : Type.
Variable eqb : K -> K -> bool.

Lemma cache_type_eqb_refl (t : Cache.cache_type) : Cache.cache_type_eqb t t = true.
Proof. now destruct t. Qed.

Lemma cache_type_eqb_eq (a b : Cache.cache_type) :
  Cache.cache_type_eqb a b = true -> a = b.
Proof. destruct a, b; simpl; congruence. Qed.

Lemma get_set_same (st : Cache.session_state K D) (t : Cache.cache_type) (c : Cache.cache K D) :
  Cache.get (Cache.set st t (Some c)) t = c.
Proof.
  unfold Cache.get, Cache.set. now rewrite cache_type_eqb_refl.
Qed.

Lemma set_other (st : Cache.session_state K D) (t t' : Cache.cache_type) (c : option (Cache.cache K D)) :
  t' <> t -> Cache.set st t c t' = st t'.
Proof.
  intro Hne. unfold Cache.set.
  destruct (Cache.cache_type_eqb t t') eqn:E; [ | reflexivity ].
  apply cache_type_eqb_eq in E. congruence.
Qed.

(** The cache that [_update_cache] leaves, in terms of the one it found. *)
Lemma update_cache_get (st : Cache.session_state K D) (t : Cache.cache_type) (key : K) (data : D)
    (now : Q) :
  let stored := Cache.store eqb key (data, now) (Cache.get st t) in
  Cache.get (Cache._update_cache eqb st t key data now) t =
  if (50 <? length stored)%nat
  then firstn 50 (NumPy.sort_by (Cache.newest_first (K:=K) (D:=D)) stored)
  else stored.
Proof.
  cbv zeta. unfold Cache._update_cache, Cache._clean_cache.
  assert (Hget : Cache.get (match st t with
                            | Some _ => st
                            | None => Cache.set st t (Some [])
                            end) t = Cache.get st t).
  { destruct (st t) eqn:E; [ reflexivity | ].
    rewrite get_set_same. unfold Cache.get. now rewrite E. }
  rewrite Hget, !get_set_same.
  destruct (50 <? length _)%nat; now rewrite get_set_same.
Qed.

Lemma update_cache_other (st : Cache.session_state K D) (t t' : Cache.cache_type) (key : K)
    (data : D) (now : Q) :
  t' <> t -> Cache._update_cache eqb st t key data now t' = st t'.
Proof.
  intro Hne. unfold Cache._update_cache, Cache._clean_cache.
  destruct (50 <? length _)%nat; rewrite ?set_other by exact Hne;
    (destruct (st t); [ reflexivity | now rewrite set_other ]).
Qed.

Lemma store_length (key : K) (v : D * Q) (c : Cache.cache K D) :
  (length (Cache.store eqb key v c) <= S (length c))%nat.
Proof.
  induction c as [|[k w] c IH]; simpl; [ lia | ].
  destruct (eqb key k); simpl; lia.
Qed.

(** Where [store] puts the entry. *)
Lemma store_split (key : K) (v : D * Q) (c : Cache.cache K D) :
  eqb key key = true ->
  exists l1 k l2,
    Cache.store eqb key v c = l1 ++ (k, v) :: l2 /\
    eqb key k = true /\
    (forall e, In e (l1 ++ l2) -> In e c) /\
    Cache.lookup eqb key l1 = None.
Proof.
  intro Hrefl. induction c as [|[k w] c IH]; simpl.
  - exists [], key, []. repeat split; auto.
  - destruct (eqb key k) eqn:E.
    + exists [], k, c. repeat split; auto.
    + destruct IH as (l1 & k' & l2 & -> & Hk & Hin & Hl1).
      exists ((k, w) :: l1), k', l2. repeat split; auto.
      * intros e [<-|He]; [ now left | right; now apply Hin ].
      * simpl. now rewrite E.
Qed.

Lemma lookup_app_found (key k : K) (v : D * Q) (l1 l2 : Cache.cache K D) :
  Cache.lookup eqb key l1 = None -> eqb key k = true ->
  Cache.lookup eqb key (l1 ++ (k, v) :: l2) = Some v.
Proof.
  intros Hl1 Hk. induction l1 as [|[k1 w] l1 IH]; simpl in *.
  - now rewrite Hk.
  - destruct (eqb key k1); [ discriminate | now apply IH ].
Qed.

Lemma insert_by_In_iff {A : Type} (le : A -> A -> bool) (x y : A) (l : list A) :
  In y (NumPy.insert_by le x l) <-> y = x \/ In y l.
Proof.
  induction l as [|z l IH]; simpl.
  - intuition.
  - destruct (le x z); simpl; [ intuition | ].
    rewrite IH. intuition.
Qed.

Lemma sort_by_In_iff {A : Type} (le : A -> A -> bool) (y : A) (l : list A) :
  In y (NumPy.sort_by le l) <-> In y l.
Proof.
  induction l as [|x l IH]; simpl; [ reflexivity | ].
  rewrite insert_by_In_iff, IH. intuition.
Qed.

(** An entry newer than all the others is first after the sort. *)
Lemma newest_is_first (x : K * (D * Q)) (l1 l2 : Cache.cache K D) :
  (forall e, In e (l1 ++ l2) -> snd (snd e) < snd (snd x)) ->
  NumPy.sort_by (Cache.newest_first (K:=K) (D:=D)) (l1 ++ x :: l2) =
  x :: NumPy.sort_by (Cache.newest_first (K:=K) (D:=D)) (l1 ++ l2).
Proof.
  induction l1 as [|y l1 IH]; intro Hnew; cbn [app NumPy.sort_by].
  - destruct (NumPy.sort_by _ l2) as [|z s] eqn:E; [ reflexivity | ].
    cbn [NumPy.insert_by].
    assert (Hz : In z l2).
    { apply (sort_by_In_iff (Cache.newest_first (K:=K) (D:=D))). rewrite E. now left. }
    unfold Cache.newest_first at 1.
    assert (Hle : Qle_bool (snd (snd z)) (snd (snd x)) = true).
    { apply Qle_bool_iff, Qlt_le_weak, Hnew. exact Hz. }
    cbn beta in Hle. now rewrite Hle.
  - rewrite IH by (intros e He; apply Hnew; now right).
    cbn [NumPy.insert_by]. unfold Cache.newest_first at 1.
    assert (Hlt : Qle_bool (snd (snd x)) (snd (snd y)) = false).
    { apply Qle_bool_false, Hnew. now left. }
    cbn beta in Hlt. now rewrite Hlt.
Qed.

(** [_update_cache] never leaves more than fifty entries in the cache it
    writes, however many it found, and does not touch the other caches. *)
Theorem update_cache_bounded (st : Cache.session_state K D) (t : Cache.cache_type) (key : K)
    (data : D) (now : Q) :
  let st' := Cache._update_cache eqb st t key data now in
  (length (Cache.get st' t) <= 50)%nat /\
  (length (Cache.get st' t) <= S (length (Cache.get st t)))%nat /\
  forall t', t' <> t -> st' t' = st t'.
Proof.
  cbv zeta. rewrite update_cache_get.
  pose proof (store_length key (data, now) (Cache.get st t)) as Hstore.
  split; [ | split; [ | intros t' Hne; now apply update_cache_other ] ].
  - destruct (Nat.ltb_spec 50 (length (Cache.store eqb key (data, now) (Cache.get st t))));
      [ rewrite length_firstn; lia | lia ].
  - destruct (50 <? _)%nat; [ rewrite length_firstn, sort_by_length; lia | lia ].
Qed.

(** The entry that [_update_cache] writes is found afterwards, under the
    time of the update, also when older entries had to go. *)
Lemma lookup_after_update (st : Cache.session_state K D) (t : Cache.cache_type)
    (key : K) (data : D) (now : Q) :
  eqb key key = true ->
  Forall (fun e => snd (snd e) < now) (Cache.get st t) ->
  Cache.lookup eqb key
    (Cache.get (Cache._update_cache eqb st t key data now) t) = Some (data, now).
Proof.
  intros Hrefl Holder. rewrite update_cache_get. cbv zeta.
  destruct (store_split key (data, now) (Cache.get st t) Hrefl)
    as (l1 & k & l2 & Hstore & Hk & Hin & Hl1).
  destruct (50 <? _)%nat.
  - rewrite Hstore, newest_is_first.
    + cbn [firstn Cache.lookup]. now rewrite Hk.
    + intros e He. rewrite Forall_forall in Holder. cbn [snd].
      apply (Holder e). now apply Hin.
  - rewrite Hstore. now apply lookup_app_found.
Qed.

Lemma fresh_within_a_day (now later : Q) :
  later - now < 24 * 3600 -> Qltb ((later - now) / 3600) 24 = true.
Proof.
  intro Hage. apply Qltb_true.
  assert (E : (later - now) / 3600 == (later - now) * (1 # 3600))
    by (unfold Qdiv; reflexivity).
  rewrite E. lra.
Qed.

(** What is written can be read back: after [_update_cache] at time
    [now], when every entry found in the cache is older than [now], a
    [_check_cache] for the same key before 24 hours have passed returns the
    data, also when the update had to evict entries. *)
Theorem cache_round_trip (st : Cache.session_state K D) (t : Cache.cache_type)
    (key : K) (data : D) (now later : Q) :
  eqb key key = true ->
  Forall (fun e => snd (snd e) < now) (Cache.get st t) ->
  later - now < 24 * 3600 ->
  Cache._check_cache eqb (Cache._update_cache eqb st t key data now) t key
    None later = Some data.
Proof.
  intros Hrefl Holder Hage. unfold Cache._check_cache.
  rewrite (lookup_after_update st t key data now Hrefl Holder).
  now rewrite (fresh_within_a_day now later Hage).
Qed.

(** A hit of [_check_cache] is an entry of the cache that is less than
    the permitted number of hours old; an absent key and an entry of that
    age or older both give [None]. *)
Lemma check_cache_hit (st : Cache.session_state K D) (t : Cache.cache_type) (key : K)
    (hours : Q) (now : Q) (data : D) :
  Cache._check_cache eqb st t key (Some hours) now = Some data <->
  exists timestamp,
    Cache.lookup eqb key (Cache.get st t) = Some (data, timestamp) /\
    now - timestamp < hours * 3600.
Proof.
  unfold Cache._check_cache.
  assert (Hage : forall ts, Qltb ((now - ts) / 3600) hours = true <->
                            now - ts < hours * 3600).
  { intro ts. rewrite Qltb_true.
    assert (E : (now - ts) / 3600 == (now - ts) * (1 # 3600))
      by (unfold Qdiv; reflexivity).
    rewrite E. split; intro H; lra. }
  destruct (Cache.lookup eqb key (Cache.get st t)) as [[d ts]|].
  - destruct (Qltb ((now - ts) / 3600) hours) eqn:E.
    + split.
      * intros [= <-]. exists ts. split; [ reflexivity | now apply Hage ].
      * intros (ts' & [= -> ->] & _). reflexivity.
    + split; [ discriminate | ].
      intros (ts' & [= -> ->] & H). apply Hage in H. congruence.
  - split; [ discriminate | intros (ts & H & _); discriminate ].
Qed.

(** After [clear_all_cache] the four caches are gone: the statistics are
    all zero and no lookup hits. *)
Theorem clear_all_cache_empties (st : Cache.session_state K D) (t : Cache.cache_type) (key : K)
    (hours : option Q) (now : Q) :
  Cache.clear_all_cache st t = None /\
  Cache._check_cache eqb (Cache.clear_all_cache st) t key hours now = None /\
  Cache.get_cache_stats (Cache.clear_all_cache st) =
    map (fun t => (t, 0%nat)) (Cache.cache_types).
Proof.
  assert (Hnone : forall t', Cache.clear_all_cache st t' = None).
  { intro t'. unfold Cache.clear_all_cache, Cache.cache_types. cbn [fold_left].
    unfold Cache.set.
    destruct t'; cbn [Cache.cache_type_eqb];
      repeat match goal with
      | |- context [match ?x with Some _ => _ | None => _ end] =>
          destruct x eqn:?; cbn [Cache.cache_type_eqb]
      end; try reflexivity; try congruence. }
  split; [ apply Hnone | ]. split.
  - unfold Cache._check_cache, Cache.get. now rewrite Hnone.
  - unfold Cache.get_cache_stats, Cache.get, Cache.cache_types. cbn [map].
    now rewrite !Hnone.
Qed.

Lemma insert_by_Permutation {A : Type} (le : A -> A -> bool) (x : A) (l : list A) :
  Permutation (NumPy.insert_by le x l) (x :: l).
Proof.
  induction l as [|y l IH]; simpl; [ reflexivity | ].
  destruct (le x y); [ reflexivity | ].
  rewrite IH. apply perm_swap.
Qed.

Lemma sort_by_Permutation {A : Type} (le : A -> A -> bool) (l : list A) :
  Permutation (NumPy.sort_by le l) l.
Proof.
  induction l as [|x l IH]; simpl; [ reflexivity | ].
  rewrite insert_by_Permutation. now constructor.
Qed.

Lemma sorted_firstn_skipn {A : Type} (R : A -> A -> Prop) (n : nat) (l : list A) :
  StronglySorted R l ->
  forall a b, In a (firstn n l) -> In b (skipn n l) -> R a b.
Proof.
  intro Hs. revert n. induction Hs as [|x l Hs IH Hx]; intros [|n] a b; simpl;
    try tauto.
  intros [<-|Ha] Hb.
  - rewrite Forall_forall in Hx. apply Hx.
    rewrite <- (firstn_skipn n l). apply in_or_app. now right.
  - now apply (IH n).
Qed.

(** When [_update_cache] evicts, it evicts the oldest: the entries it
    keeps and the entries it drops make up the cache with the new entry
    stored, no dropped entry is newer than a kept one, and nothing is
    dropped from a cache of at most fifty entries. *)
Theorem eviction_keeps_newest (st : Cache.session_state K D)
    (t : Cache.cache_type) (key : K) (data : D) (now : Q) :
  let stored := Cache.store eqb key (data, now) (Cache.get st t) in
  let kept := Cache.get (Cache._update_cache eqb st t key data now) t in
  exists dropped,
    Permutation (kept ++ dropped) stored /\
    (forall k d, In k kept -> In d dropped -> snd (snd d) <= snd (snd k)) /\
    ((length stored <= 50)%nat -> dropped = []).
Proof.
  cbv zeta. rewrite update_cache_get. cbv zeta.
  set (stored := Cache.store eqb key (data, now) (Cache.get st t)).
  destruct (Nat.ltb_spec 50 (length stored)) as [Hmany|Hfew].
  - exists (skipn 50 (NumPy.sort_by (Cache.newest_first (K:=K) (D:=D)) stored)).
    split; [ rewrite firstn_skipn; apply sort_by_Permutation | ].
    split; [ | lia ].
    intros k d Hk Hd. apply Qle_bool_iff.
    apply (sorted_firstn_skipn
             (fun a b => Cache.newest_first (K:=K) (D:=D) a b = true) 50
             (NumPy.sort_by (Cache.newest_first (K:=K) (D:=D)) stored));
      [ | exact Hk | exact Hd ].
    apply sort_by_sorted.
    + intros x y. apply Qle_bool_total.
    + intros x y z Hxy Hyz. unfold Cache.newest_first in *.
      eapply Qle_bool_trans; eassumption.
  - exists []. rewrite app_nil_r. split; [ reflexivity | ].
    split; [ intros k d _ [] | reflexivity ].
Qed.

End CacheFacts.

Section CacheRuns.

Local Open Scope Q_scope.

(** The theorem on an empty session state: an entry written at time 100
    is read back at time 200. *)
Lemma cache_round_trip_witness :
  let st : Cache.session_state nat nat := fun _ => None in
  Nat.eqb 1 1 = true /\
  Forall (fun e : nat * (nat * Q) => snd (snd e) < 100)
         (Cache.get st Cache.earthquake_cache) /\
  200 - 100 < 24 * 3600 /\
  Cache._check_cache Nat.eqb
    (Cache._update_cache Nat.eqb st Cache.earthquake_cache 1%nat 7%nat 100)
    Cache.earthquake_cache 1%nat None 200 = Some 7%nat.
Proof.
  intro st.
  assert (Hrefl : Nat.eqb 1 1 = true) by reflexivity.
  assert (Holder : Forall (fun e : nat * (nat * Q) => snd (snd e) < 100)
                          (Cache.get st Cache.earthquake_cache))
    by constructor.
  assert (Hage : 200 - 100 < 24 * 3600) by reflexivity.
  split; [ exact Hrefl | ]. split; [ exact Holder | ]. split; [ exact Hage | ].
  exact (cache_round_trip nat nat Nat.eqb st Cache.earthquake_cache 1%nat 7%nat
           100 200 Hrefl Holder Hage).
Defined.

End CacheRuns.

Section CatalogFacts.

Import Catalog.
Local Open Scope Q_scope.

Lemma decorate_ok (catalog : list event) (keyed : list (Q * event)) :
  decorate catalog = Ok keyed ->
  map snd keyed = catalog /\
  Forall (fun ke => exists o, preferred_origin (snd ke) = Some o /\
                              origin_time o = fst ke) keyed.
Proof.
  revert keyed. induction catalog as [|e catalog IH]; intros keyed; cbn [decorate].
  - intros [= <-]. split; constructor.
  - unfold sort_key. destruct (preferred_origin e) as [o|] eqn:Eo;
      cbn [Py.bind]; [ | discriminate ].
    destruct (decorate catalog) as [rest|]; cbn [Py.bind]; [ | discriminate ].
    intros [= <-]. destruct (IH rest eq_refl) as [Hmap Hall].
    split; [ cbn; now rewrite Hmap | ].
    constructor; [ exists o; split; [ exact Eo | reflexivity ] | exact Hall ].
Qed.

Lemma decorate_raise (catalog : list event) (e : exn) :
  decorate catalog = Raise e ->
  e = AttributeError /\ exists ev, In ev catalog /\ preferred_origin ev = None.
Proof.
  induction catalog as [|ev catalog IH]; cbn [decorate]; [ discriminate | ].
  unfold sort_key. destruct (preferred_origin ev) as [o|] eqn:Eo; cbn [Py.bind].
  - destruct (decorate catalog) as [rest|e']; cbn [Py.bind]; [ discriminate | ].
    intros [= <-]. destruct (IH eq_refl) as [He (ev' & Hin & Hnone)].
    split; [ exact He | ]. exists ev'. split; [ now right | exact Hnone ].
  - intros [= <-]. split; [ reflexivity | ]. exists ev. split; [ now left | exact Eo ].
Qed.

Lemma chars_app (a b : string) :
  list_ascii_of_string (a ++ b) = (list_ascii_of_string a ++ list_ascii_of_string b)%list.
Proof.
  induction a as [|c a IH]; simpl; [ reflexivity | now rewrite IH ].
Qed.

Lemma last_segment_from_no_slash (s : string) :
  forall acc,
    ~ In "/"%char (list_ascii_of_string acc) ->
    ~ In "/"%char (list_ascii_of_string (last_segment_from acc s)).
Proof.
  induction s as [|c s IH]; intros acc Hacc; cbn [last_segment_from];
    [ exact Hacc | ].
  destruct (Ascii.eqb c "/") eqn:E.
  - apply IH. simpl. tauto.
  - apply IH. rewrite chars_app. intro Hin. apply in_app_or in Hin.
    destruct Hin as [Hin|[Heq|[]]]; [ now apply Hacc | ].
    rewrite Heq, Ascii.eqb_refl in E. discriminate.
Qed.

(** What [event_to_dict] writes for an event with a preferred origin. *)
Lemma event_to_dict_fields (ev : event) (o : origin) (d : eq_dict) :
  preferred_origin ev = Some o ->
  event_to_dict ev = Ok d ->
  time d = origin_time o /\
  ~ depth d == 0 /\
  (depth d = 10 \/
   exists metres, origin_depth o = Some metres /\ depth d = metres / 1000) /\
  ~ In "/"%char (list_ascii_of_string (event_id d)).
Proof.
  intros Ho. unfold event_to_dict. rewrite Ho. cbn [py_or Py.bind].
  destruct (py_or (preferred_magnitude ev) (first (magnitudes ev))) as [m|];
    cbn [Py.bind]; [ | discriminate ].
  destruct (match event_descriptions ev with
            | [] => _
            | text :: _ => _
            end) as [loc|]; cbn [Py.bind]; [ | discriminate ].
  destruct (to_float (origin_latitude o)) as [lat|]; cbn [Py.bind]; [ | discriminate ].
  destruct (to_float (origin_longitude o)) as [lon|]; cbn [Py.bind]; [ | discriminate ].
  destruct (to_float (mag m)) as [mg|]; cbn [Py.bind]; [ | discriminate ].
  intros [= <-]. cbn [time depth event_id].
  split; [ reflexivity | ].
  split; [ | split ].
  - destruct (origin_depth o) as [metres|]; [ | discriminate ].
    unfold Qzerob. destruct (Qeq_bool metres 0) eqn:E; [ discriminate | ].
    intro Hzero. apply Qeq_bool_neq in E. apply E.
    assert (Hdiv : metres / 1000 == metres * (1 # 1000)) by (unfold Qdiv; reflexivity).
    rewrite Hdiv in Hzero. lra.
  - destruct (origin_depth o) as [metres|]; [ | now left ].
    destruct (Qzerob metres); [ now left | right; now exists metres ].
  - unfold last_segment. apply last_segment_from_no_slash. simpl. tauto.
Qed.

Lemma dicts_sorted (keyed : list (Q * event)) :
  Forall (fun ke => exists o, preferred_origin (snd ke) = Some o /\
                              origin_time o = fst ke) keyed ->
  StronglySorted (fun a b => later_first a b = true) keyed ->
  StronglySorted (fun a b => time b <= time a)
    (flat_map (fun ev => match event_to_dict ev with
                         | Ok d => [d]
                         | Raise _ => []
                         end) (map snd keyed)).
Proof.
  intros Hall Hs. induction Hs as [|[k ev] keyed Hs IH Hx]; cbn [map flat_map].
  - constructor.
  - inversion Hall as [|? ? (o & Ho & Hk) Hrest]; subst. cbn [fst snd] in *.
    specialize (IH Hrest).
    destruct (event_to_dict ev) as [d|] eqn:Ed; cbn [app]; [ | exact IH ].
    constructor; [ exact IH | ].
    destruct (event_to_dict_fields ev o d Ho Ed) as (Ht & _).
    apply Forall_forall. intros d' Hd'.
    apply in_flat_map in Hd'. destruct Hd' as (ev' & Hev' & Hd').
    apply in_map_iff in Hev'. destruct Hev' as ([k' ev''] & <- & Hin).
    cbn [snd] in Hd'.
    rewrite Forall_forall in Hx, Hrest.
    destruct (Hrest _ Hin) as (o' & Ho' & Hk'). cbn [fst snd] in *.
    destruct (event_to_dict ev'') as [d''|] eqn:Ed'; [ | destruct Hd' ].
    destruct Hd' as [<-|[]].
    destruct (event_to_dict_fields ev'' o' d'' Ho' Ed') as (Ht' & _).
    rewrite Ht, Ht', Hk', Hk. apply Qle_bool_iff.
    exact (Hx _ Hin).
Qed.

(** [_process_catalog] raises exactly when some event has no preferred
    origin, whatever the other events are: the fallback to the first origin
    never applies.  Otherwise it returns at most one earthquake per event,
    the latest first, none at depth zero (an origin without depth or at
    depth zero is given 10 km, every other depth is converted to
    kilometres), with event ids free of slashes. *)
Theorem process_catalog_outcome (catalog : list event) :
  match _process_catalog catalog with
  | Raise e =>
      e = AttributeError /\
      exists ev, In ev catalog /\ preferred_origin ev = None
  | Ok earthquakes =>
      Forall (fun ev => preferred_origin ev <> None) catalog /\
      (length earthquakes <= length catalog)%nat /\
      StronglySorted (fun a b => time b <= time a) earthquakes /\
      Forall (fun d => ~ depth d == 0 /\
                       ~ In "/"%char (list_ascii_of_string (event_id d)))
             earthquakes
  end.
Proof.
  unfold _process_catalog.
  destruct (decorate catalog) as [keyed|e] eqn:Ek; cbn [Py.bind];
    [ | now apply decorate_raise ].
  destruct (decorate_ok catalog keyed Ek) as [Hmap Hall].
  assert (Hsorted : StronglySorted (fun a b => later_first a b = true)
                      (NumPy.sort_by later_first keyed)).
  { apply sort_by_sorted.
    - intros x y. apply Qle_bool_total.
    - intros x y z Hxy Hyz. unfold later_first in *.
      eapply Qle_bool_trans; eassumption. }
  assert (Hall' : Forall (fun ke => exists o, preferred_origin (snd ke) = Some o /\
                                              origin_time o = fst ke)
                         (NumPy.sort_by later_first keyed))
    by now apply sort_by_Forall.
  split; [ | split; [ | split ] ].
  - rewrite <- Hmap. apply Forall_forall. intros ev Hev.
    apply in_map_iff in Hev. destruct Hev as (ke & <- & Hin).
    rewrite Forall_forall in Hall. destruct (Hall ke Hin) as (o & Ho & _).
    now rewrite Ho.
  - etransitivity.
    + apply flat_map_length_le. intro ev. destruct (event_to_dict ev); simpl; lia.
    + rewrite length_map, sort_by_length, <- Hmap, length_map. lia.
  - now apply dicts_sorted.
  - apply Forall_forall. intros d Hd.
    apply in_flat_map in Hd. destruct Hd as (ev & Hev & Hd).
    apply in_map_iff in Hev. destruct Hev as (ke & <- & Hin).
    rewrite Forall_forall in Hall'. destruct (Hall' ke Hin) as (o & Ho & _).
    destruct (event_to_dict (snd ke)) as [d'|] eqn:Ed; [ | destruct Hd ].
    destruct Hd as [<-|[]].
    destruct (event_to_dict_fields (snd ke) o d' Ho Ed) as (_ & Hdepth & _ & Hid).
    split; assumption.
Qed.

End CatalogFacts.

Section FetchFacts.

Import Catalog.
Local Open Scope Q_scope.

Lemma key_eqb_refl (key : cache_key) : key_eqb key key = true.
Proof.
  destruct key as [[[[[m y] d] l] s] e]. unfold key_eqb, pair_eqb, years_eqb.
  rewrite !Qeq_bool_refl, Z.eqb_refl.
  destruct y as [[y0 y1]|]; [ now rewrite !Z.eqb_refl | reflexivity ].
Qed.

Lemma key_eqb_endtime (m m' : Q * Q) (y y' : option (Z * Z)) (d d' : Q * Q)
    (l l' : Z) (s s' e e' : Q) :
  ~ e == e' -> key_eqb (m, y, d, l, s, e) (m', y', d', l', s', e') = false.
Proof.
  intro Hne. unfold key_eqb.
  destruct (Qeq_bool e e') eqn:E; [ | apply andb_false_r ].
  apply Qeq_bool_eq in E. contradiction.
Qed.

(** The search after a miss of the cache. *)
Lemma fetch_after_miss (S : services) (st : state) (r : request) (frame : Q * Q) :
  time_frame S r = Ok frame ->
  Cache._check_cache key_eqb st Cache.earthquake_cache (key_of r frame) None
    (check_now S) = None ->
  fetch_latest_earthquakes S st r =
  match get_events S (query_of r frame) with
  | Ok catalog =>
      match _process_catalog catalog with
      | Ok [] => ([], st)
      | Ok earthquakes =>
          (earthquakes,
           Cache._update_cache key_eqb st Cache.earthquake_cache (key_of r frame)
             earthquakes (update_now S))
      | Raise _ => ([], st)
      end
  | Raise _ => ([], st)
  end.
Proof.
  intros Hframe Hmiss. unfold fetch_latest_earthquakes, fetch_try.
  rewrite Hframe. cbn [Py.bind]. destruct frame as [s e].
  unfold key_of, query_of in *. cbn [fst snd] in *. rewrite Hmiss.
  destruct (get_events S _) as [catalog|]; cbn [Py.bind]; [ | reflexivity ].
  destruct (_process_catalog catalog) as [[|q qs]|]; reflexivity.
Qed.

(** One event without a preferred origin in the answer of the client and
    the search returns nothing, whatever the other events are, and caches
    nothing. *)
Theorem one_bad_event_empties_search (S : services) (st : state) (r : request)
    (frame : Q * Q) (catalog : list event) (ev : event) :
  time_frame S r = Ok frame ->
  Cache._check_cache key_eqb st Cache.earthquake_cache (key_of r frame) None
    (check_now S) = None ->
  get_events S (query_of r frame) = Ok catalog ->
  In ev catalog ->
  preferred_origin ev = None ->
  fetch_latest_earthquakes S st r = ([], st).
Proof.
  intros Hframe Hmiss Hevents Hin Hnone.
  rewrite (fetch_after_miss S st r frame Hframe Hmiss), Hevents.
  destruct (_process_catalog catalog) as [earthquakes|] eqn:Ep; [ | reflexivity ].
  exfalso. revert Ep. unfold _process_catalog.
  destruct (decorate catalog) as [keyed|] eqn:Ek; cbn [Py.bind]; [ | discriminate ].
  destruct (decorate_ok catalog keyed Ek) as [Hmap Hall].
  rewrite <- Hmap in Hin. apply in_map_iff in Hin.
  destruct Hin as (ke & <- & Hke).
  rewrite Forall_forall in Hall. destruct (Hall ke Hke) as (o & Ho & _).
  congruence.
Qed.

(** A search whose result was cached is answered from the cache when it
    is repeated for the same time frame within 24 hours: the earthquakes are
    the same, the client is not asked (its answer plays no part), and the
    session state stays as it is. *)
Theorem repeated_search_from_cache (S S' : services) (st : state) (r : request)
    (frame : Q * Q) (catalog : list event) (q : eq_dict) (qs : list eq_dict) :
  time_frame S r = Ok frame ->
  time_frame S' r = Ok frame ->
  Cache._check_cache key_eqb st Cache.earthquake_cache (key_of r frame) None
    (check_now S) = None ->
  get_events S (query_of r frame) = Ok catalog ->
  _process_catalog catalog = Ok (q :: qs) ->
  Forall (fun e => snd (snd e) < update_now S) (Cache.get st Cache.earthquake_cache) ->
  check_now S' - update_now S < 24 * 3600 ->
  let st1 := snd (fetch_latest_earthquakes S st r) in
  fst (fetch_latest_earthquakes S st r) = q :: qs /\
  fetch_latest_earthquakes S' st1 r = (q :: qs, st1).
Proof.
  intros Hframe Hframe' Hmiss Hevents Hcatalog Holder Hage. cbv zeta.
  rewrite (fetch_after_miss S st r frame Hframe Hmiss), Hevents, Hcatalog.
  cbn [fst snd]. split; [ reflexivity | ].
  unfold fetch_latest_earthquakes, fetch_try. rewrite Hframe'. cbn [Py.bind].
  destruct frame as [s e]. unfold key_of in *. cbn [fst snd] in *.
  unfold Cache._check_cache.
  rewrite (lookup_after_update cache_key (list eq_dict) key_eqb st
             Cache.earthquake_cache _ (q :: qs) (update_now S)
             (key_eqb_refl _) Holder).
  rewrite (fresh_within_a_day _ _ Hage).
  reflexivity.
Qed.

(** A search by days (or by the default of 180 days) puts the current
    time into its cache key.  Repeated at another clock reading in a session
    that started without cached earthquakes, it finds nothing in the cache
    and returns what a session without any cache returns: the answer of the
    client. *)
Theorem search_by_days_misses_cache (S S' : services) (st : state) (r : request) :
  year_range r = None \/ (exists d, days r = Some d /\ d <> 0%Z) ->
  ~ utc_now S' == utc_now S ->
  Cache.get st Cache.earthquake_cache = [] ->
  let st1 := snd (fetch_latest_earthquakes S st r) in
  fst (fetch_latest_earthquakes S' st1 r) =
  fst (fetch_latest_earthquakes S' (fun _ => None) r).
Proof.
  intros Hmode Hclock Hempty. cbv zeta.
  assert (Hframe : forall T : services,
            exists s, time_frame T r = Ok (s, utc_now T)).
  { intro T. unfold time_frame. destruct Hmode as [Hy|(d & Hd & Hnz)].
    - rewrite Hy. destruct (match days r with
                            | Some d => negb (d =? 0)%Z
                            | None => false
                            end); eexists; reflexivity.
    - rewrite Hd. apply Z.eqb_neq in Hnz. rewrite Hnz. cbn [negb].
      eexists. reflexivity. }
  destruct (Hframe S) as [s Hs]. destruct (Hframe S') as [s' Hs'].
  assert (Hfresh : forall frame,
            Cache._check_cache key_eqb ((fun _ => None) : state)
              Cache.earthquake_cache (key_of r frame) None (check_now S') = None)
    by reflexivity.
  assert (Hmiss0 : Cache._check_cache key_eqb st Cache.earthquake_cache
                     (key_of r (s, utc_now S)) None (check_now S) = None).
  { unfold Cache._check_cache. now rewrite Hempty. }
  assert (Hmiss1 : Cache._check_cache key_eqb
                     (snd (fetch_latest_earthquakes S st r)) Cache.earthquake_cache
                     (key_of r (s', utc_now S')) None (check_now S') = None).
  { rewrite (fetch_after_miss S st r _ Hs Hmiss0).
    assert (Hst : Cache._check_cache key_eqb st Cache.earthquake_cache
                    (key_of r (s', utc_now S')) None (check_now S') = None).
    { unfold Cache._check_cache. now rewrite Hempty. }
    destruct (get_events S _) as [catalog|]; [ | exact Hst ].
    destruct (_process_catalog catalog) as [[|q qs]|]; try exact Hst.
    cbn [snd]. unfold Cache._check_cache.
    rewrite update_cache_get. cbv zeta. rewrite Hempty.
    cbn [Cache.store length Nat.ltb Nat.leb Cache.lookup].
    unfold key_of. cbn [fst snd].
    now rewrite key_eqb_endtime. }
  rewrite (fetch_after_miss S' _ r _ Hs' Hmiss1).
  rewrite (fetch_after_miss S' _ r _ Hs' (Hfresh _)).
  destruct (get_events S' _) as [catalog|]; [ | reflexivity ].
  destruct (_process_catalog catalog) as [[|q qs]|]; reflexivity.
Qed.

End FetchFacts.

Section FetchRuns.

Import Catalog.
Local Open Scope Q_scope.

(** The theorem on a catalog of a located event and one without
    preferred origin. *)
Lemma one_bad_event_empties_search_witness :
  let S := answering (located 100 (Some 0) "a" :: orphan :: nil) 1000 5000 in
  let frame := (inject_Z (2023 * 372 + 1 * 31 + 1) * 86400,
                inject_Z (2023 * 372 + 12 * 31 + 31) * 86400) in
  time_frame S by_years = Ok frame /\
  In orphan (located 100 (Some 0) "a" :: orphan :: nil) /\
  fetch_latest_earthquakes S fresh_session by_years = ([], fresh_session).
Proof.
  intros S frame.
  assert (Hframe : time_frame S by_years = Ok frame) by reflexivity.
  assert (Hin : In orphan (located 100 (Some 0) "a" :: orphan :: nil))
    by (right; left; reflexivity).
  split; [ exact Hframe | ]. split; [ exact Hin | ].
  exact (one_bad_event_empties_search S fresh_session by_years frame
           (located 100 (Some 0) "a" :: orphan :: nil) orphan
           Hframe eq_refl eq_refl Hin eq_refl).
Defined.

(** The theorem on a search by years answered with two events, repeated
    1000 seconds later when the client is out of reach. *)
Lemma repeated_search_from_cache_witness :
  let S := answering two_quakes 1000 5000 in
  let S' := unreachable 2000 6000 in
  let st1 := snd (fetch_latest_earthquakes S fresh_session by_years) in
  exists q qs,
    _process_catalog two_quakes = Ok (q :: qs) /\
    fst (fetch_latest_earthquakes S fresh_session by_years) = q :: qs /\
    fetch_latest_earthquakes S' st1 by_years = (q :: qs, st1).
Proof.
  intros S S' st1.
  assert (Hcatalog : exists q qs, _process_catalog two_quakes = Ok (q :: qs)).
  { eexists. eexists. vm_compute. reflexivity. }
  destruct Hcatalog as (q & qs & Hcatalog).
  exists q, qs. split; [ exact Hcatalog | ].
  assert (Hframe : time_frame S by_years =
                   Ok (inject_Z (2023 * 372 + 1 * 31 + 1) * 86400,
                       inject_Z (2023 * 372 + 12 * 31 + 31) * 86400))
    by reflexivity.
  assert (Hframe' : time_frame S' by_years =
                    Ok (inject_Z (2023 * 372 + 1 * 31 + 1) * 86400,
                        inject_Z (2023 * 372 + 12 * 31 + 31) * 86400))
    by reflexivity.
  assert (Holder : Forall (fun e : cache_key * (list eq_dict * Q) =>
                             snd (snd e) < update_now S)
                          (Cache.get fresh_session Cache.earthquake_cache))
    by constructor.
  assert (Hage : check_now S' - update_now S < 24 * 3600) by reflexivity.
  exact (repeated_search_from_cache S S' fresh_session by_years _ two_quakes q qs
           Hframe Hframe' eq_refl eq_refl Hcatalog Holder Hage).
Defined.

(** The theorem on a search over the last 30 days, repeated one second
    later. *)
Lemma search_by_days_misses_cache_witness :
  let S := answering two_quakes 1000 5000 in
  let S' := answering two_quakes 1001 5001 in
  let st1 := snd (fetch_latest_earthquakes S fresh_session by_days) in
  ~ utc_now S' == utc_now S /\
  fst (fetch_latest_earthquakes S' st1 by_days) =
  fst (fetch_latest_earthquakes S' fresh_session by_days).
Proof.
  intros S S' st1.
  assert (Hmode : year_range by_days = None \/
                  (exists d, days by_days = Some d /\ d <> 0%Z))
    by (left; reflexivity).
  assert (Hclock : ~ utc_now S' == utc_now S) by discriminate.
  split; [ exact Hclock | ].
  exact (search_by_days_misses_cache S S' fresh_session by_days Hmode Hclock eq_refl).
Defined.

End FetchRuns.

Section ExportFacts.

Import Excel.

Lemma firstn_range_from (step stop : nat) :
  forall k fuel start,
    (k <= fuel)%nat ->
    (k = 0%nat \/ (start + (k - 1) * step < stop)%nat) ->
    firstn k (range_from fuel start stop step) =
    map (fun i => (start + i * step)%nat) (seq 0 k).
Proof.
  induction k as [|k IH]; intros fuel start Hfuel Hlast; [ reflexivity | ].
  destruct fuel as [|fuel]; [ lia | ].
  destruct Hlast as [Hlast|Hlast]; [ discriminate | ].
  cbn [range_from].
  assert (Hstart : (start <? stop)%nat = true) by (apply Nat.ltb_lt; nia).
  rewrite Hstart. cbn [firstn seq map].
  rewrite Nat.add_0_r. f_equal.
  rewrite IH; [ | lia | ].
  - rewrite <- seq_shift, map_map. apply map_ext. intro i. lia.
  - destruct k as [|k]; [ now left | right ].
    replace (S (S k) - 1)%nat with (S k) in Hlast by lia.
    replace (S k - 1)%nat with k by lia. lia.
Qed.

(** When the record is longer than a positive [max_samples], the export
    writes exactly [max_samples] rows: the samples at the multiples of
    [len // max_samples], from the first sample on.  The last row is sample
    [(max_samples - 1) * (len // max_samples)]; what follows it in the record
    is not exported. *)
Theorem export_downsampling (time_array : list float) (columns : list (list float))
    (max_samples : Z) :
  let samples := length time_array in
  let rows := Z.to_nat max_samples in
  let factor := (samples / rows)%nat in
  (0 < max_samples)%Z ->
  (max_samples < Z.of_nat samples)%Z ->
  indices samples max_samples = map (fun i => (i * factor)%nat) (seq 0 rows) /\
  length (timeseries_rows time_array columns max_samples) = rows /\
  Forall (fun idx => (idx <= (rows - 1) * factor)%nat /\ (idx < samples)%nat)
         (indices samples max_samples).
Proof.
  intros samples rows factor Hpos Hlong.
  assert (Hrows : (0 < rows)%nat) by (subst rows; lia).
  assert (Hlt : (rows < samples)%nat) by (subst rows; lia).
  assert (Hfactor : (1 <= factor)%nat).
  { subst factor. apply Nat.div_le_lower_bound; lia. }
  assert (Hwhole : (rows * factor <= samples)%nat).
  { subst factor. apply Nat.Div0.mul_div_le. }
  assert (Hind : indices samples max_samples =
                 map (fun i => (i * factor)%nat) (seq 0 rows)).
  { unfold indices.
    assert (Hcond : ((Z.of_nat samples >? max_samples) && (max_samples >? 0))%Z = true).
    { apply andb_true_iff. split; apply Z.gtb_lt; assumption. }
    rewrite Hcond. fold rows. fold factor. unfold range.
    rewrite firstn_range_from; [ reflexivity | lia | right; nia ]. }
  split; [ exact Hind | ]. split.
  - unfold timeseries_rows. fold samples. now rewrite length_map, Hind, length_map, length_seq.
  - rewrite Hind. apply Forall_forall. intros idx Hidx.
    apply in_map_iff in Hidx. destruct Hidx as (i & <- & Hi).
    apply in_seq in Hi. split; nia.
Qed.

End ExportFacts.

Section ExportRuns.

Import Excel.
Local Open Scope float_scope.

(** The theorem on the ramp of twenty samples with room for twelve rows:
    the factor is 1 and the rows are the first twelve samples. *)
Lemma export_downsampling_witness :
  (0 < 12)%Z /\
  (12 < Z.of_nat (length ramp20))%Z /\
  indices (length ramp20) 12 = seq 0 12 /\
  length (timeseries_rows ramp20 [ramp20] 12) = 12%nat.
Proof.
  assert (Hpos : (0 < 12)%Z) by reflexivity.
  assert (Hlong : (12 < Z.of_nat (length ramp20))%Z) by reflexivity.
  split; [ exact Hpos | ]. split; [ exact Hlong | ].
  destruct (export_downsampling ramp20 [ramp20] 12 Hpos Hlong) as (Hind & Hlen & _).
  split; [ rewrite Hind; reflexivity | exact Hlen ].
Defined.

End ExportRuns.

Section ConnectionFacts.

Import Connection.

Lemma below3 (P : nat -> Prop) :
  (forall j, (j < 3)%nat -> P j) <-> P 0%nat /\ P 1%nat /\ P 2%nat.
Proof.
  split.
  - intro H. repeat split; apply H; lia.
  - intros (H0 & H1 & H2) j Hj.
    assert (j = 0%nat \/ j = 1%nat \/ j = 2%nat) as [-> | [-> | ->]] by lia; assumption.
Qed.

Lemma first_success (outcome : nat -> attempt_outcome) (P : nat -> Prop) :
  (exists k, (k < 3)%nat /\ outcome k = connected /\
             (forall j, (j < k)%nat -> outcome j <> connected) /\ P k) <->
  (outcome 0%nat = connected /\ P 0%nat) \/
  (outcome 0%nat <> connected /\ outcome 1%nat = connected /\ P 1%nat) \/
  (outcome 0%nat <> connected /\ outcome 1%nat <> connected /\
   outcome 2%nat = connected /\ P 2%nat).
Proof.
  split.
  - intros (k & Hk & Hok & Hfirst & HP).
    assert (k = 0%nat \/ k = 1%nat \/ k = 2%nat) as [-> | [-> | ->]] by lia.
    + left. auto.
    + right. left. repeat split; auto; apply Hfirst; lia.
    + right. right. repeat split; auto; apply Hfirst; lia.
  - intros [(H0 & HP) | [(H0 & H1 & HP) | (H0 & H1 & H2 & HP)]].
    + exists 0%nat. split; [ lia | ]. split; [ exact H0 | ].
      split; [ intros j Hj; lia | exact HP ].
    + exists 1%nat. split; [ lia | ]. split; [ exact H1 | ].
      split; [ | exact HP ]. intros j Hj.
      assert (j = 0%nat) as -> by lia. exact H0.
    + exists 2%nat. split; [ lia | ]. split; [ exact H2 | ].
      split; [ | exact HP ]. intros j Hj.
      assert (j = 0%nat \/ j = 1%nat) as [-> | ->] by lia; assumption.
Qed.

(** [connect_to_iris] makes at most three attempts and stops at the first
    that succeeds, sleeping once after each failed attempt but the third.
    It reports success exactly when one of the three attempts succeeds; a
    report of failure does not mean that no client is set: the client built
    by the last attempt whose constructor succeeded stays in place. *)
Theorem connect_to_iris_outcome (outcome : nat -> attempt_outcome) :
  let ok := fst (connect_to_iris outcome) in
  let c := snd (connect_to_iris outcome) in
  (ok = true <->
   exists k, (k < 3)%nat /\ outcome k = connected /\
             (forall j, (j < k)%nat -> outcome j <> connected) /\
             (client c = Some k /\ sleeps c = k)) /\
  (ok = false ->
   sleeps c = 2%nat /\
   (forall j, (j < 3)%nat -> outcome j <> connected) /\
   (client c = None <-> forall j, (j < 3)%nat -> outcome j = client_raises) /\
   (forall k, client c = Some k -> (k < 3)%nat /\ outcome k = test_raises /\
              forall j, (k < j < 3)%nat -> outcome j = client_raises)).
Proof.
  cbv zeta. rewrite first_success, !below3.
  cbv beta iota delta [connect_to_iris connect_from max_retries Nat.ltb Nat.leb Nat.sub].
  destruct (outcome 0%nat) eqn:E0; destruct (outcome 1%nat) eqn:E1;
    destruct (outcome 2%nat) eqn:E2; cbn [fst snd client sleeps].
  all: split; [ split; [ intro H; try discriminate H | ] | intro H; try discriminate H ].
  all: try (intuition (try discriminate; try congruence); fail).
  all: try (split; [ reflexivity | ];
            split; [ repeat split; discriminate | ];
            split; [ split; [ intro Hc; try discriminate Hc; auto | intros (H0 & H1 & H2); congruence ] | ];
            intros k Hk; try discriminate Hk; injection Hk as <-;
            split; [ lia | ]; split; [ assumption | ];
            intros j Hj;
            first [ lia
                  | assert (j = 2%nat) as -> by lia; assumption
                  | assert (j = 1%nat \/ j = 2%nat) as [-> | ->] by lia; assumption ]).
Qed.

End ConnectionFacts.

Section SelectionErrors.

Import DataManager.
Local Open Scope Q_scope.

Lemma sort_nonempty (leb : station -> station -> bool) (l : list station) :
  (0 < length l)%nat -> sort leb l <> [].
Proof.
  intros Hlen Hnil. unfold sort in Hnil.
  pose proof (sort_by_length station leb l) as Hsame.
  rewrite Hnil in Hsame. simpl in Hsame. lia.
Qed.

(** [_select_distributed_stations] raises in one situation only: a target
    of zero for a non-empty list of at most 100 stations, where the width of
    the buckets is a division by zero.  For every positive target it returns
    a list. *)
Theorem selection_raises_only_for_zero_target (stations : list station)
    (target_count : nat) (e : exn) :
  _select_distributed_stations stations target_count = Raise e <->
  target_count = 0%nat /\ (0 < length stations <= 100)%nat /\
  e = ZeroDivisionError.
Proof.
  unfold _select_distributed_stations.
  destruct (Nat.leb_spec (length stations) target_count) as [Hle|Hgt].
  { split; [ discriminate | intros (-> & Hlen & _); lia ]. }
  destruct (Nat.ltb_spec 100 (length stations)) as [Hbig|Hsmall].
  - destruct (Nat.leb_spec (length (unique_by_code [] stations)) target_count)
      as [Hu|Hu].
    { split; [ discriminate | intros (_ & Hlen & _); lia ]. }
    pose proof (sort_nonempty distance_leb (unique_by_code [] stations)) as Hne.
    destruct (sort distance_leb (unique_by_code [] stations)) as [|nearest rest].
    { exfalso. apply Hne; [ lia | reflexivity ]. }
    destruct (pick_bins _ _ _ _ _ _ _) as [picked idx].
    split; [ discriminate | intros (_ & Hlen & _); lia ].
  - pose proof (sort_nonempty distance_leb stations) as Hne.
    destruct (sort distance_leb stations) as [|nearest rest].
    { exfalso. apply Hne; [ lia | reflexivity ]. }
    destruct (Nat.eqb_spec target_count 0) as [Hzero|Hpos].
    + split.
      * intros [= <-]. repeat split; auto; lia.
      * intros (_ & _ & ->). reflexivity.
    + split; [ discriminate | intros (Hzero & _); contradiction ].
Qed.

End SelectionErrors.

(** * The verification step in time *)

Section PoolFacts.

Import DataManager.
Local Open Scope Q_scope.

Variable env : collaborators.
Variable as_completed_at : list (result station) -> list (Q * result station).

Lemma wait_until_reaches (now t : Q) :
  now <= Concurrent.wait_until now t /\ t <= Concurrent.wait_until now t.
Proof.
  unfold Concurrent.wait_until. destruct (Qle_bool now t) eqn:E.
  - apply Qle_bool_iff in E. split; [ exact E | apply Qle_refl ].
  - apply Qle_bool_false in E. split; [ apply Qle_refl | now apply Qlt_le_weak ].
Qed.

Lemma shutdown_not_before (completed : list (Q * result station)) :
  forall now, now <= Concurrent.shutdown completed now.
Proof.
  unfold Concurrent.shutdown.
  induction completed as [|[t f] completed IH]; intro now; cbn [fold_left fst].
  - apply Qle_refl.
  - eapply Qle_trans; [ | apply IH ]. apply wait_until_reaches.
Qed.

(** The shutdown of the pool outlasts every submitted probe. *)
Lemma shutdown_waits_for_all (completed : list (Q * result station)) :
  forall now t f, In (t, f) completed -> t <= Concurrent.shutdown completed now.
Proof.
  induction completed as [|[t' f'] completed IH]; intros now t f Hin;
    [ destruct Hin | ].
  change (Concurrent.shutdown ((t', f') :: completed) now)
    with (Concurrent.shutdown completed (Concurrent.wait_until now t')).
  destruct Hin as [[= -> ->]|Hin].
  - eapply Qle_trans; [ | apply shutdown_not_before ]. apply wait_until_reaches.
  - now apply IH with (f := f).
Qed.

(** The function returns no earlier than any of its probes completes,
    whatever the number of verified stations and whatever the target. *)
Lemma returns_after_every_probe (stations : list station) (target_count : nat)
    (t : Q) (f : result station) :
  In (t, f) (as_completed_at (map (fun s => Ok (validate_single env s)) stations)) ->
  t <= Concurrent.returned_at
         (Concurrent._validate_stations_parallel env as_completed_at stations
            target_count).
Proof.
  intro Hin. unfold Concurrent._validate_stations_parallel.
  cbn [Concurrent.returned_at]. now apply shutdown_waits_for_all with (f := f).
Qed.

(** Once the count is reached the loop is left only when the next future
    has completed: the test of the early stop is the first statement of the
    body. *)
Lemma break_needs_next_completion (t : Q) (f : result station)
    (rest : list (Q * result station)) (target_count : nat)
    (p : Concurrent.progress) :
  (target_count * 2 <= Concurrent.verified_count p)%nat ->
  let p' := Concurrent.collect ((t, f) :: rest) target_count p in
  Concurrent.validated p' = Concurrent.validated p /\
  Concurrent.consumed p' = S (Concurrent.consumed p) /\
  t <= Concurrent.clock p'.
Proof.
  intro Hcount. cbn [Concurrent.collect Concurrent.verified_count].
  apply Nat.leb_le in Hcount. rewrite Hcount.
  cbn [Concurrent.validated Concurrent.consumed Concurrent.clock].
  repeat split. apply wait_until_reaches.
Qed.



End PoolFacts.

Section PoolRuns.

Import DataManager.
Local Open Scope Q_scope.
Local Open Scope string_scope.
Local Open Scope list_scope.


End PoolRuns.
